(** * Global Assets Settlement System (GASS): the settlement script [main.py]

    A shallow embedding of the settlement script and the properties its
    specification states about it.

    The script is duck-typed over Python numbers: spreadsheet amounts are
    ints or floats, counts are ints, the rate and the three financial
    constants are floats.  The embedding keeps that polymorphism as a type
    class, [PyNum], with two instances:
    - [pynum], Python's own numbers: unbounded ints and IEEE 754 binary64
      floats (the Standard Library's [SpecFloat] with [prec = 53] and
      [emax = 1024], rounding to nearest even);
    - [Qc], exact rational arithmetic, for the statements the specification
      makes "in exact arithmetic".

    The lines the script prints are f-strings. The format codes [g] and
    [.2f] turn an int into a float first, so that building a line raises
    [OverflowError] for an int beyond the float range; a line is built only
    where the script prints it. *)

From Stdlib Require Import ZArith QArith Qabs Qcanon List String DecimalString Bool Lia.
From Stdlib Require Import Sorting.Sorted Permutation.
From Stdlib Require Import Floats.SpecFloat.
Import ListNotations.
Local Open Scope Z_scope.

Set Implicit Arguments.

(** ** Exceptions and results *)

(** The exceptions the script can meet. [SystemExit] is what [sys.exit()]
    raises; [LibraryError] stands for whatever a library call raised
    (network, file, parser), with its text. *)
Inductive exn : Type :=
| ZeroDivisionError
| OverflowError
| ValueError
| IndexError
| SystemExit
| LibraryError (text : string).

Inductive result (A : Type) : Type :=
| Ok (a : A)
| Raise (e : exn).
Arguments Ok {A} a.
Arguments Raise {A} e.

Definition rbind {A B} (r : result A) (k : A -> result B) : result B :=
  match r with
  | Ok a => k a
  | Raise e => Raise e
  end.

Declare Scope result_scope.
Delimit Scope result_scope with result.
Notation "x <- c ;; k" := (rbind c (fun x => k))
  (at level 61, c at next level, right associativity) : result_scope.

(** ** Python numbers as an interface *)

Class PyNum (N : Type) : Type := {
  (** an int literal or an int computed by a library, such as a count *)
  of_int : Z -> N;
  (** a float literal written in decimal: [of_decimal 75 2] is [0.75] *)
  of_decimal : Z -> nat -> N;
  add : N -> N -> result N;
  sub : N -> N -> result N;
  mul : N -> N -> result N;
  (** true division [/]; raises [ZeroDivisionError] on a zero divisor *)
  div : N -> N -> result N;
  (** a missing value (NaN), which pandas leaves out of [value_counts] *)
  isna : N -> bool;
  (** equality of two values as keys of [value_counts] *)
  num_eqb : N -> N -> bool;
  (** whether [float(x)] is within the float range: the format codes [g]
      and [.2f] convert an int to a float first, and raise [OverflowError]
      when it is not *)
  fits_float : N -> bool
}.

(** ** Instance 1: Python's ints and binary64 floats *)

Module Float64.

Definition prec : Z := 53.
Definition emax : Z := 1024.

Definition fadd := SFadd prec emax.
Definition fsub := SFsub prec emax.
Definition fmul := SFmul prec emax.
Definition fdiv := SFdiv prec emax.

Definition is_zero (f : spec_float) : bool :=
  match f with S754_zero _ => true | _ => false end.

Definition is_nan (f : spec_float) : bool :=
  match f with S754_nan => true | _ => false end.

(** The quotient of two ints, correctly rounded: Python's [int / int] and
    the reading of a decimal literal. The divisor is not zero. *)
Definition int_truediv (a b : Z) : spec_float :=
  let negate := xorb (a <? 0) (b <? 0) in
  match a with
  | Z0 => S754_zero negate
  | _ =>
      let '(q, e, l) := SFdiv_core_binary prec emax (Z.abs a) 0 (Z.abs b) 0 in
      binary_round_aux prec emax negate q e l
  end.

(** [float(n)] for an int [n], rounded to nearest even. *)
Definition of_Z (n : Z) : spec_float := binary_normalize prec emax n 0 false.

(** The exact value of a finite float, as a rational. *)
Definition to_Q (f : spec_float) : Q :=
  match f with
  | S754_finite s m e =>
      let v := if s then Z.neg m else Z.pos m in
      match e with
      | Z0 => inject_Z v
      | Zpos p => inject_Z (v * 2 ^ Zpos p)
      | Zneg p => v # (2 ^ p)
      end
  | _ => 0%Q
  end.

End Float64.

Inductive pynum : Type :=
| PyInt (n : Z)
| PyFloat (f : spec_float).

Module PyNumber.
Import Float64.
Local Open Scope result_scope.

(** The conversion Python applies to an int that meets a float. *)
Definition to_float (x : pynum) : result spec_float :=
  match x with
  | PyFloat f => Ok f
  | PyInt n =>
      match of_Z n with
      | S754_infinity _ => Raise OverflowError
      | f => Ok f
      end
  end.

Definition arith (iop : Z -> Z -> Z) (fop : spec_float -> spec_float -> spec_float)
    (x y : pynum) : result pynum :=
  match x, y with
  | PyInt a, PyInt b => Ok (PyInt (iop a b))
  | _, _ =>
      fx <- to_float x ;;
      fy <- to_float y ;;
      Ok (PyFloat (fop fx fy))
  end.

Definition py_add := arith Z.add fadd.
Definition py_sub := arith Z.sub fsub.
Definition py_mul := arith Z.mul fmul.

Definition py_div (x y : pynum) : result pynum :=
  match x, y with
  | PyInt a, PyInt b =>
      if b =? 0 then Raise ZeroDivisionError
      else match int_truediv a b with
           | S754_infinity _ => Raise OverflowError
           | f => Ok (PyFloat f)
           end
  | _, _ =>
      fx <- to_float x ;;
      fy <- to_float y ;;
      if is_zero fy then Raise ZeroDivisionError
      else Ok (PyFloat (fdiv fx fy))
  end.

(** [float(x)] does not overflow. *)
Definition py_fits_float (x : pynum) : bool :=
  match to_float x with
  | Ok _ => true
  | Raise _ => false
  end.

Definition py_isna (x : pynum) : bool :=
  match x with
  | PyFloat f => is_nan f
  | PyInt _ => false
  end.

(** The value of a number that is not NaN: a rational, or an infinity with
    its sign. *)
Inductive extended : Type :=
| Finite (q : Qc)
| Infinite (negative : bool).

Definition value (x : pynum) : option extended :=
  match x with
  | PyInt n => Some (Finite (Q2Qc (inject_Z n)))
  | PyFloat S754_nan => None
  | PyFloat (S754_infinity s) => Some (Infinite s)
  | PyFloat f => Some (Finite (Q2Qc (to_Q f)))
  end.

Definition extended_eqb (a b : extended) : bool :=
  match a, b with
  | Finite p, Finite q => Qc_eq_bool p q
  | Infinite s, Infinite t => Bool.eqb s t
  | _, _ => false
  end.

(** [x == y]: neither is NaN and both have the same value, so that an int
    equals the float of the same value and [0.0 == -0.0]. *)
Definition py_eqb (x y : pynum) : bool :=
  match value x, value y with
  | Some a, Some b => extended_eqb a b
  | _, _ => false
  end.

End PyNumber.

#[export] Instance pynum_PyNum : PyNum pynum := {
  of_int := PyInt;
  of_decimal m k := PyFloat (Float64.int_truediv m (10 ^ Z.of_nat k));
  add := PyNumber.py_add;
  sub := PyNumber.py_sub;
  mul := PyNumber.py_mul;
  div := PyNumber.py_div;
  isna := PyNumber.py_isna;
  num_eqb := PyNumber.py_eqb;
  fits_float := PyNumber.py_fits_float
}.

(** ** Instance 2: exact rational arithmetic *)

Module Exact.

Definition q_of_decimal (m : Z) (k : nat) : Qc :=
  Q2Qc (inject_Z m / inject_Z (10 ^ Z.of_nat k)).

Definition q_div (x y : Qc) : result Qc :=
  if Qc_eq_dec y 0%Qc then Raise ZeroDivisionError else Ok (x / y)%Qc.

End Exact.

(** Exact arithmetic has no float range: every number can be formatted. *)
#[export] Instance Qc_PyNum : PyNum Qc := {
  of_int n := Q2Qc (inject_Z n);
  of_decimal := Exact.q_of_decimal;
  add x y := Ok (x + y)%Qc;
  sub x y := Ok (x - y)%Qc;
  mul x y := Ok (x * y)%Qc;
  div := Exact.q_div;
  isna _ := false;
  num_eqb := Qc_eq_bool;
  fits_float _ := true
}.


(** ** Output: the console and the report file *)

(** The script's effects are the lines it prints and the lines it writes to
    the report. A computation takes the world so far and gives back the world
    it leaves, also when it raises: what was printed before an exception
    stays printed. *)
Definition io (W A : Type) : Type := W -> result A * W.

Definition io_ret {W A} (a : A) : io W A := fun w => (Ok a, w).

Definition io_bind {W A B} (c : io W A) (k : A -> io W B) : io W B :=
  fun w =>
    match c w with
    | (Ok a, w') => k a w'
    | (Raise e, w') => (Raise e, w')
    end.

(** A pure step that may raise. *)
Definition io_lift {W A} (r : result A) : io W A := fun w => (r, w).

(** An effect that cannot fail. *)
Definition io_do {W} (f : W -> W) : io W unit := fun w => (Ok tt, f w).

Declare Scope io_scope.
Delimit Scope io_scope with io.
Notation "x <- c ;; k" := (io_bind c (fun x => k))
  (at level 61, c at next level, right associativity) : io_scope.
Notation "c ;; k" := (io_bind c (fun _ => k))
  (at level 61, right associativity) : io_scope.

(** [print_func]: [None] or a function that emits one line. *)
Definition printer (W : Type) : Type := option (string -> W -> W).

(** [if print_func: print_func(text)]. The text is an f-string, built
    only when there is an output function, and building it can raise. *)
Definition emit {W} (print_func : printer W) (text : result string) : io W unit :=
  match print_func with
  | Some f => io_bind (io_lift text) (fun s => io_do (f s))
  | None => io_ret tt
  end.

Definition nl : string := String (Ascii.ascii_of_nat 10) EmptyString.

(** The texts of [{x:g}], [{x:.2f}], [{x}] and [{d.date()}] for the values
    Python can format. The texts are not part of any property below, so they
    are taken as given. *)
Record Format (N : Type) : Type := {
  fmt_g : N -> string;
  fmt_2f : N -> string;
  fmt_str : N -> string;
  fmt_date : option Z -> string
}.

Section FStrings.
Context {N : Type} {num : PyNum N}.
Variable fmt : Format N.
Local Open Scope string_scope.

(** [f"{x:g}"] and [f"{x:.2f}"]: an int beyond the float range raises
    [OverflowError]. *)
Definition format_g (x : N) : result string :=
  if fits_float x then Ok (fmt_g fmt x) else Raise OverflowError.

Definition format_2f (x : N) : result string :=
  if fits_float x then Ok (fmt_2f fmt x) else Raise OverflowError.

End FStrings.

(** An f-string: its parts, literal or formatted, are evaluated from left
    to right and joined. *)
Fixpoint fstring (parts : list (result string)) : result string :=
  match parts with
  | [] => Ok EmptyString
  | [p] => p
  | p :: rest =>
      rbind p (fun s => rbind (fstring rest) (fun t => Ok (s ++ t)%string))
  end.

(** ** Valuation: [process_type_1] and [process_type_2] *)

Section Valuation.
Context {N : Type} {num : PyNum N}.
Variable fmt : Format N.
Variable W : Type.
Local Open Scope string_scope.
Local Open Scope io_scope.

(** The body of [for c, t in zip(counts, types)] of [process_type_1],
    from the accumulators [(t_points, t_tasks)] to their next values. *)
Definition type_1_step (print_func : printer W) (acc : N * N) (ct : N * N)
    : io W (N * N) :=
  let '(t_points, t_tasks) := acc in
  let '(c, t) := ct in
  subtotal <- io_lift (mul t c) ;;
  emit print_func (fstring [format_g fmt t; Ok " PTS: "; format_g fmt c;
                            Ok " units ---> Subtotal: "; format_g fmt subtotal;
                            Ok " points"]) ;;
  t_points <- io_lift (add t_points subtotal) ;;
  t_tasks <- io_lift (add t_tasks c) ;;
  io_ret (t_points, t_tasks).

(** A [for] loop over a list, threading the accumulators. *)
Fixpoint for_each {A S : Type} (body : S -> A -> io W S) (l : list A) (s : S)
    : io W S :=
  match l with
  | [] => io_ret s
  | x :: rest => s' <- body s x ;; for_each body rest s'
  end.

Definition process_type_1 (counts types : list N) (print_func : printer W)
    : io W N :=
  acc <- for_each (type_1_step print_func) (combine counts types)
                  (of_int 0, of_int 0) ;;
  let '(t_points, t_tasks) := acc in
  total_usd <- io_lift (div t_points (of_int 100)) ;;
  emit print_func (fstring [Ok (nl ++ "TOTAL TYPE 1: "); format_g fmt t_points;
                            Ok " PTS ---> "; format_2f fmt total_usd; Ok " $"]) ;;
  emit print_func (fstring [Ok "TOTAL TASKS: "; format_g fmt t_tasks; Ok nl]) ;;
  io_ret total_usd.

Definition type_2_step (print_func : printer W) (acc : N * N) (ct : N * N)
    : io W (N * N) :=
  let '(total_usd, t_tasks) := acc in
  let '(c, t) := ct in
  subtotal <- io_lift (mul t c) ;;
  emit print_func (fstring [format_g fmt t; Ok " $: "; format_g fmt c;
                            Ok " units ---> Subtotal: "; format_g fmt subtotal;
                            Ok " $"]) ;;
  total_usd <- io_lift (add total_usd subtotal) ;;
  t_tasks <- io_lift (add t_tasks c) ;;
  io_ret (total_usd, t_tasks).

Definition process_type_2 (counts types : list N) (print_func : printer W)
    : io W N :=
  acc <- for_each (type_2_step print_func) (combine counts types)
                  (of_int 0, of_int 0) ;;
  let '(total_usd, t_tasks) := acc in
  emit print_func (fstring [Ok (nl ++ "TOTAL TYPE 2: "); format_2f fmt total_usd;
                            Ok " $"]) ;;
  emit print_func (fstring [Ok "TOTAL TASKS: "; format_g fmt t_tasks; Ok nl]) ;;
  io_ret total_usd.

End Valuation.

(** ** The pandas operations the script uses *)

(** A [Timestamp]: nanoseconds since the epoch, or [None] for [NaT].
    Timestamps carry no time zone, as the dates of a spreadsheet do; pandas
    refuses, with a [TypeError], to compare a timestamp that has a zone with
    one that has none, and that case is outside the model. *)
Definition timestamp : Type := option Z.

(** Comparisons with [NaT] are all false, equality included. *)
Definition ts_leb (a b : timestamp) : bool :=
  match a, b with
  | Some x, Some y => x <=? y
  | _, _ => false
  end.

Definition ts_geb (a b : timestamp) : bool := ts_leb b a.

Definition ts_eqb (a b : timestamp) : bool :=
  match a, b with
  | Some x, Some y => x =? y
  | _, _ => false
  end.

Definition ts_isna (a : timestamp) : bool :=
  match a with None => true | Some _ => false end.

(** The order [sort_values] uses: ascending, [NaT] last. *)
Definition ts_before (a b : timestamp) : bool :=
  match a, b with
  | Some x, Some y => x <=? y
  | Some _, None => true
  | None, Some _ => false
  | None, None => true
  end.

Section Pandas.
Variable V : Type.

(** Sorting keeps the order of equal elements. pandas does not promise
    that for its default sort; no property below depends on it. *)
Section Sort.
Variable before : V -> V -> bool.

Fixpoint insert_by (x : V) (l : list V) : list V :=
  match l with
  | [] => [x]
  | y :: rest => if before x y then x :: l else y :: insert_by x rest
  end.

Definition sort_by (l : list V) : list V := fold_right insert_by [] l.
End Sort.

Section ValueCounts.
Variable na : V -> bool.
Variable eqb : V -> V -> bool.

(** One more occurrence of [v] in the table of keys and counts; a new
    key goes last, so keys stay in order of first appearance. *)
Fixpoint bump (v : V) (tbl : list (V * Z)) : list (V * Z) :=
  match tbl with
  | [] => [(v, 1)]
  | (k, n) :: rest =>
      if eqb k v then (k, n + 1) :: rest else (k, n) :: bump v rest
  end.

Definition tally (s : list V) : list (V * Z) :=
  fold_left (fun tbl v => if na v then tbl else bump v tbl) s [].

End ValueCounts.
End Pandas.

(** [Series.value_counts()]: the distinct values that are not missing, each
    with the number of its occurrences, most frequent first. Values of the
    same count come in the order of their first appearance; pandas does not
    promise an order among them, and no property below depends on it. *)
Definition value_counts {V} (na : V -> bool) (eqb : V -> V -> bool) (s : list V)
    : list (V * Z) :=
  sort_by (fun p q => snd q <=? snd p) (tally na eqb s).

(** ** Records and the frames derived from them *)

Section Frames.
Context {N : Type} {num : PyNum N}.
Local Open Scope string_scope.

Record Row : Type := {
  date : timestamp;
  description : string;
  platform : string;
  amount : N
}.

Definition get_stats (df_series : list N) : list N * list N :=
  let counts := map (fun p => of_int (snd p)) (value_counts isna num_eqb df_series) in
  let types := map fst (value_counts isna num_eqb df_series) in
  (counts, types).

Definition ignored_entries : list string :=
  ["Punchcard"; "Weekly Badge Bonus"; "Bonus Welcome Survey"].

Definition isin (s : string) (values : list string) : bool :=
  existsb (String.eqb s) values.

(** [df[~df.description.isin(ignored_entries)].copy().reset_index(drop=True)] *)
Definition df_clean (df : list Row) : list Row :=
  filter (fun r => negb (isin (description r) ignored_entries)) df.

(** [df_clean[(df_clean["date"] >= start_date) & (df_clean["date"] <= end_date)]] *)
Definition df_filtered (clean : list Row) (start_date end_date : timestamp)
    : list Row :=
  filter (fun r => ts_geb (date r) start_date && ts_leb (date r) end_date) clean.

Definition sort_values_date (df : list Row) : list Row :=
  sort_by (fun r1 r2 => ts_before (date r1) (date r2)) df.

Definition df_t1 (filtered : list Row) : list Row :=
  sort_values_date
    (filter (fun r => String.eqb (platform r) "Digital_Assets_Type_1") filtered).

Definition df_t2 (filtered : list Row) : list Row :=
  sort_values_date
    (filter (fun r => String.eqb (platform r) "Digital_Assets_Type_2") filtered).

Definition empty (df : list Row) : bool :=
  match df with [] => true | _ => false end.

Definition get_unique_dates (target_df : list Row) : list timestamp :=
  if empty target_df then []
  else sort_by ts_before
         (map fst (value_counts ts_isna ts_eqb (map date target_df))).

(** [target_df[target_df.date == d]["amount"]] *)
Definition amounts_on (target_df : list Row) (d : timestamp) : list N :=
  map amount (filter (fun r => ts_eqb (date r) d) target_df).

End Frames.
Arguments Row N : clear implicits.

(** ** The settlement chain *)

Section Settlement.
Context {N : Type} {num : PyNum N}.
Local Open Scope result_scope.

Definition LIQUIDATION_RATE : N := of_decimal 75 2.
Definition SERVICE_FEE_RATE : N := of_decimal 10 2.
Definition SPREAD_FACTOR : N := of_decimal 1824 3.

Record Settlement : Type := {
  total_raw_usd : N;
  total_usdt : N;
  comm_usdt : N;
  owner_usdt : N;
  market_rate : N;
  comm_ves : N;
  owner_ves : N;
  comm_purchasing_usd : N;
  owner_purchasing_usd : N;
  official_rate : N
}.

(** The final calculations, from [total_raw_usd] and [bcv_rate]. *)
Definition settle (total_raw_usd bcv_rate : N) : result Settlement :=
  total_usdt <- mul total_raw_usd LIQUIDATION_RATE ;;
  comm_usdt <- mul total_usdt SERVICE_FEE_RATE ;;
  owner_usdt <- sub total_usdt comm_usdt ;;
  market_rate <- mul bcv_rate SPREAD_FACTOR ;;
  comm_ves <- mul comm_usdt market_rate ;;
  owner_ves <- mul owner_usdt market_rate ;;
  comm_purchasing_usd <- div comm_ves bcv_rate ;;
  owner_purchasing_usd <- div owner_ves bcv_rate ;;
  Ok {| total_raw_usd := total_raw_usd; total_usdt := total_usdt;
        comm_usdt := comm_usdt; owner_usdt := owner_usdt;
        market_rate := market_rate; comm_ves := comm_ves;
        owner_ves := owner_ves; comm_purchasing_usd := comm_purchasing_usd;
        owner_purchasing_usd := owner_purchasing_usd;
        official_rate := bcv_rate |}.

End Settlement.
Arguments Settlement N : clear implicits.

(** ** Strings *)

Module Str.
Local Open Scope string_scope.

(** [s.replace(old, "")] for a non-empty [old]: [skip] counts the
    characters of a match still to drop. *)
Fixpoint remove_from (old : string) (skip : nat) (s : string) : string :=
  match s with
  | EmptyString => EmptyString
  | String c rest =>
      match skip with
      | S k => remove_from old k rest
      | O =>
          if String.prefix old s
          then remove_from old (String.length old - 1) rest
          else String c (remove_from old 0 rest)
      end
  end.

Definition remove (old s : string) : string := remove_from old 0 s.

Definition upper_ascii (c : Ascii.ascii) : Ascii.ascii :=
  let n := Ascii.nat_of_ascii c in
  if (Nat.leb 97 n && Nat.leb n 122)%bool then Ascii.ascii_of_nat (n - 32) else c.

(** [s.upper()] on ASCII text: the letters a to z. Python also maps the
    letters outside ASCII, which are left as they are here; what is proved
    of an account's text is proved for ASCII names. *)
Fixpoint upper (s : string) : string :=
  match s with
  | EmptyString => EmptyString
  | String c rest => String (upper_ascii c) (upper rest)
  end.

Definition of_nat (n : nat) : string :=
  DecimalString.NilZero.string_of_uint (Nat.to_uint n).

End Str.

(** ** The run: inputs, world and the script's top level *)

(** The date cell of a spreadsheet row as [read_excel] gives it: already a
    date (or a number, which [to_datetime] reads as nanoseconds), empty, or
    a text still to be parsed. *)
Inductive DateCell : Type :=
| CellDate (t : Z)
| CellEmpty
| CellText (s : string).

Section Run.
Context {N : Type} {num : PyNum N}.
Local Open Scope string_scope.

Record RawRow : Type := {
  raw_date : DateCell;
  raw_description : string;
  raw_platform : string;
  raw_amount : N
}.

(** Everything a run reads from outside. A library call gives its value
    or the text of the exception it raised. A file that [read_excel] reads
    is taken to have the four columns the script names. *)
Record Run : Type := {
  (** [float(currency.get_rate(currency_code="USD", prettify=False))] *)
  get_rate : string + N;
  (** [float(input(...))], read only when the fetch failed *)
  manual_rate : result N;
  (** [DATA_DIR], as text, and [DATA_DIR.exists()] *)
  data_dir : string;
  data_dir_exists : bool;
  (** the names of the xlsx files under [DATA_DIR] *)
  files : list string;
  (** [int(input(...))] *)
  choice_input : result Z;
  (** [pd.read_excel(DATA_DIR / selected_file)] *)
  read_excel : string -> string + list RawRow;
  (** the operator's answers to the two date prompts *)
  start_input : string;
  end_input : string
}.

(** Standard output, in order, and the report file once it is opened:
    its name and what was written to it. *)
Record World : Type := {
  stdout : list string;
  report_file : option (string * list string)
}.

Definition initial_world : World := {| stdout := []; report_file := None |}.

Definition write_stdout (text : string) (w : World) : World :=
  {| stdout := (stdout w ++ [text])%list; report_file := report_file w |}.

(** [print(text)] *)
Definition print (text : string) : World -> World := write_stdout (text ++ nl).

(** [open(report_path, "w", encoding="utf-8")] *)
Definition open_report (name : string) (w : World) : World :=
  {| stdout := stdout w; report_file := Some (name, []) |}.

(** [report_file.write(text)] *)
Definition write_report (text : string) (w : World) : World :=
  {| stdout := stdout w;
     report_file := match report_file w with
                    | Some (name, written) => Some (name, (written ++ [text])%list)
                    | None => None
                    end |}.

(** [def smart_print(text=""): print(text); report_file.write(text + "\n")] *)
Definition smart_print (text : string) (w : World) : World :=
  write_report (text ++ nl) (print text w).

Definition say (text : string) : io World unit := io_do (print text).
Definition prompt (text : string) : io World unit := io_do (write_stdout text).
Definition smart (text : string) : io World unit := io_do (smart_print text).
(** [smart_print(f"...")] with an f-string that can raise. *)
Definition smart_f (text : result string) : io World unit :=
  emit (Some smart_print) text.
Definition sys_exit {A : Type} : io World A := io_lift (Raise SystemExit).

(** [l[i]] with Python's indexing: a negative index counts from the end. *)
Definition list_index {A : Type} (l : list A) (i : Z) : result A :=
  let n := Z.of_nat (List.length l) in
  let j := (if i <? 0 then i + n else i)%Z in
  if ((0 <=? j) && (j <? n))%Z then
    match nth_error l (Z.to_nat j) with
    | Some x => Ok x
    | None => Raise IndexError
    end
  else Raise IndexError.

(** The [try] block of the data selection: [int(input(...))] and
    [files[choice - 1]]. *)
Definition selected_file (files : list string) (choice_input : result Z)
    : result string :=
  (choice <- choice_input ;; list_index files (choice - 1))%result.

Definition account_id (selected_file : string) : string :=
  Str.upper (Str.remove ".xlsx" selected_file).

End Run.
Arguments RawRow N : clear implicits.
Arguments Run N : clear implicits.

Section Script.
Context {N : Type} {num : PyNum N}.
Variable fmt : Format N.
(** [pd.to_datetime] on a text: the timestamp, or the text of the
    exception it raised. *)
Variable to_datetime_text : string -> string + timestamp.
Local Open Scope string_scope.
Local Open Scope io_scope.

(** The exchange rate: one fetch, then the manual entry. *)
Definition bcv_rate (r : Run N) : io World N :=
  say "Connecting to Financial Services for BCV rate..." ;;
  match get_rate r with
  | inr rate =>
      say ("✅ Connection successful. Official Rate: " ++ fmt_str fmt rate
             ++ " VES/USD") ;;
      io_ret rate
  | inl e =>
      say ("⚠️ Automatic fetch failed: " ++ e) ;;
      prompt "Please enter the official BCV rate manually: " ;;
      io_lift (manual_rate r)
  end.

(** [for i, filename in enumerate(files, 1): print(f"{i}. {filename}")] *)
Fixpoint list_accounts (i : nat) (files : list string) : io World unit :=
  match files with
  | [] => io_ret tt
  | filename :: rest =>
      say (Str.of_nat i ++ ". " ++ filename) ;; list_accounts (S i) rest
  end.

(** The data selection, up to the selected file. *)
Definition data_selection (r : Run N) : io World string :=
  (if data_dir_exists r then io_ret tt
   else say "❌ Error: Data directory not found." ;; sys_exit) ;;
  (match files r with
   | [] => say ("❌ Error: No datasets found in " ++ data_dir r) ;; sys_exit
   | _ => io_ret tt
   end) ;;
  say (nl ++ "--- Available Accounts for Settlement ---") ;;
  list_accounts 1 (files r) ;;
  prompt (nl ++ "Select account number to process: ") ;;
  match selected_file (files r) (choice_input r) with
  | Ok file => io_ret file
  | Raise _ => say "❌ Invalid selection." ;; sys_exit
  end.

(** [pd.to_datetime] on one cell of the date column. *)
Definition to_datetime_cell (c : DateCell) : string + timestamp :=
  match c with
  | CellDate t => inr (Some t)
  | CellEmpty => inr None
  | CellText s => to_datetime_text s
  end.

(** [df["date"] = pd.to_datetime(df["date"])]: the first cell that does
    not parse raises. Each text is parsed on its own here; pandas reads the
    texts of a column with the format of the first one, so that it can refuse
    a column whose texts it accepts one by one. What is proved of a load
    uses only that a text refused on its own is refused in a column. *)
Fixpoint to_datetime (df : list (RawRow N)) : string + list (Row N) :=
  match df with
  | [] => inr []
  | row :: rest =>
      match to_datetime_cell (raw_date row) with
      | inl e => inl e
      | inr d =>
          match to_datetime rest with
          | inl e => inl e
          | inr rows =>
              inr ({| date := d; description := raw_description row;
                      platform := raw_platform row;
                      amount := raw_amount row |} :: rows)
          end
      end
  end.

(** Load: [read_excel], then the dates; any exception ends the run. *)
Definition load (r : Run N) (file : string) : io World (list (Row N)) :=
  match read_excel r file with
  | inl e => say ("❌ Loading error: " ++ e) ;; sys_exit
  | inr raw =>
      match to_datetime raw with
      | inl e => say ("❌ Loading error: " ++ e) ;; sys_exit
      | inr df => io_ret df
      end
  end.

(** [pd.to_datetime(input(prompt))], not guarded by any [try]. *)
Definition input_date (text answer : string) : io World timestamp :=
  prompt text ;;
  match to_datetime_text answer with
  | inr d => io_ret d
  | inl e => io_lift (Raise (LibraryError e))
  end.

Definition rule : string := "----------------------------------------".
Definition double_rule : string := "========================================".

(** The body of [for d in get_unique_dates(df)]: the date, then the
    valuation of that date's amounts, printed. *)
Definition date_section
    (process : list N -> list N -> printer World -> io World N)
    (df : list (Row N)) (_ : unit) (d : timestamp) : io World unit :=
  smart (rule ++ nl ++ "DATE: " ++ fmt_date fmt d) ;;
  let '(c, t) := get_stats (amounts_on df d) in
  process c t (Some smart_print) ;;
  io_ret tt.

(** One provider's per-date section of the report. *)
Definition provider_section
    (process : list N -> list N -> printer World -> io World N)
    (df : list (Row N)) : io World unit :=
  for_each (date_section process df) (get_unique_dates df) tt.

(** The grand-total pass over a provider's frame: [process] on the
    statistics of all its amounts with no output function, and the int 0
    when the frame is empty. *)
Definition total_val
    (process : list N -> list N -> printer World -> io World N)
    (df : list (Row N)) : io World N :=
  if empty df then io_ret (of_int 0)
  else let '(c, t) := get_stats (map amount df) in process c t None.

End Script.

Section Main.
Context {N : Type} {num : PyNum N}.
Variable fmt : Format N.
Variable to_datetime_text : string -> string + timestamp.
Local Open Scope string_scope.
Local Open Scope io_scope.

Definition report_name (account : string) (start_date : timestamp) : string :=
  "Settlement_" ++ account ++ "_" ++ fmt_date fmt start_date ++ ".txt".

(** The body of the [with open(...)] block: the audit report and the
    final calculations. *)
Definition audit_report (rate : N) (account : string)
    (start_date end_date : timestamp) (t1 t2 : list (Row N))
    : io World (Settlement N) :=
  smart double_rule ;;
  smart "       GLOBAL ASSETS SETTLEMENT" ;;
  smart ("       ACCOUNT ID: " ++ account) ;;
  smart ("       PERIOD: " ++ fmt_date fmt start_date ++ " TO "
           ++ fmt_date fmt end_date) ;;
  smart (double_rule ++ nl) ;;
  smart ">>> PROVIDER: DIGITAL ASSETS TYPE 1 (POINTS)" ;;
  provider_section fmt (process_type_1 fmt (W := World)) t1 ;;
  smart (nl ++ ">>> PROVIDER: DIGITAL ASSETS TYPE 2 (DIRECT USD)") ;;
  provider_section fmt (process_type_2 fmt (W := World)) t2 ;;
  total_val_t1 <- total_val (process_type_1 fmt (W := World)) t1 ;;
  total_val_t2 <- total_val (process_type_2 fmt (W := World)) t2 ;;
  total_raw_usd <- io_lift (add total_val_t1 total_val_t2) ;;
  s <- io_lift (settle total_raw_usd rate) ;;
  smart double_rule ;;
  smart "           FINANCIAL SUMMARY" ;;
  smart double_rule ;;
  smart_f (fstring [Ok "RAW ASSETS TOTAL:      "; format_2f fmt total_raw_usd;
                    Ok " $"]) ;;
  smart_f (fstring [Ok "LIQUIDATED (USDT):     "; format_2f fmt (total_usdt s);
                    Ok " USDT"]) ;;
  smart_f (fstring [Ok "MARKET RATE APPLIED:   "; format_2f fmt (market_rate s);
                    Ok " VES/USDT"]) ;;
  smart rule ;;
  smart_f (fstring [Ok "YOUR FEE (10%):        "; format_2f fmt (comm_ves s);
                    Ok " VES ("; format_2f fmt (comm_purchasing_usd s);
                    Ok " $ BCV)"]) ;;
  smart_f (fstring [Ok "OWNER PAYOUT:          "; format_2f fmt (owner_ves s);
                    Ok " VES ("; format_2f fmt (owner_purchasing_usd s);
                    Ok " $ BCV)"]) ;;
  smart_f (fstring [Ok "OFFICIAL BCV RATE:     "; format_2f fmt (official_rate s);
                    Ok " VES"]) ;;
  smart (double_rule ++ nl) ;;
  io_ret s.

(** From the loaded frame to the end of the script. *)
Definition settle_account (r : Run N) (rate : N) (file : string)
    (df : list (Row N)) : io World (Settlement N) :=
  let clean := df_clean df in
  start_date <- input_date to_datetime_text
                  "Settlement Start Date (YYYY-MM-DD): " (start_input r) ;;
  end_date <- input_date to_datetime_text
                "Settlement End Date (YYYY-MM-DD): " (end_input r) ;;
  let filtered := df_filtered clean start_date end_date in
  let name := report_name (account_id file) start_date in
  io_do (open_report name) ;;
  s <- audit_report rate (account_id file) start_date end_date
         (df_t1 filtered) (df_t2 filtered) ;;
  say (nl ++ "✅ Report saved at:" ++ nl ++ "./history_reports/" ++ name) ;;
  io_ret s.

(** The script, top to bottom. It returns the figures of the financial
    summary; [Raise SystemExit] is [sys.exit()], any other [Raise] an
    exception nothing catches. Creating the report directory, the first
    thing the script does, and opening the report file are taken to
    succeed. *)
Definition main (r : Run N) : io World (Settlement N) :=
  rate <- bcv_rate fmt r ;;
  file <- data_selection r ;;
  df <- load to_datetime_text r file ;;
  settle_account r rate file df.

End Main.

(** * The vocabulary of the properties *)

(** ** Sums over (count, amount) pairs *)

Section Sums.
Context {N : Type} {num : PyNum N}.
Local Open Scope result_scope.

(** The arithmetic of one iteration, shared by both policies. *)
Definition tally_step (acc : N * N) (ct : N * N) : result (N * N) :=
  let '(total, t_tasks) := acc in
  let '(c, t) := ct in
  subtotal <- mul t c ;;
  total <- add total subtotal ;;
  t_tasks <- add t_tasks c ;;
  Ok (total, t_tasks).

Fixpoint tally_loop (pairs : list (N * N)) (acc : N * N) : result (N * N) :=
  match pairs with
  | [] => Ok acc
  | ct :: rest => acc' <- tally_step acc ct ;; tally_loop rest acc'
  end.

(** The sum of amount times count over the pairs, added left to right to
    [acc]. *)
Fixpoint sum_from (acc : N) (pairs : list (N * N)) : result N :=
  match pairs with
  | [] => Ok acc
  | (c, t) :: rest =>
      subtotal <- mul t c ;; acc' <- add acc subtotal ;; sum_from acc' rest
  end.

Definition sum_products (pairs : list (N * N)) : result N :=
  sum_from (of_int 0) pairs.

(** The sum of the counts, added left to right to [acc]. *)
Fixpoint count_from (acc : N) (pairs : list (N * N)) : result N :=
  match pairs with
  | [] => Ok acc
  | (c, _) :: rest => acc' <- add acc c ;; count_from acc' rest
  end.

Definition sum_counts (pairs : list (N * N)) : result N :=
  count_from (of_int 0) pairs.

End Sums.

(** ** The settlement chain, figure by figure *)

Section Chain.
Context {N : Type} {num : PyNum N}.

(** Every figure of a settlement is the operation of the chain on the
    figures before it. *)
Record chain (raw rate : N) (s : Settlement N) : Prop := {
  chain_raw : total_raw_usd s = raw;
  chain_rate : official_rate s = rate;
  chain_liquidated : mul raw LIQUIDATION_RATE = Ok (total_usdt s);
  chain_commission : mul (total_usdt s) SERVICE_FEE_RATE = Ok (comm_usdt s);
  chain_owner : sub (total_usdt s) (comm_usdt s) = Ok (owner_usdt s);
  chain_market : mul rate SPREAD_FACTOR = Ok (market_rate s);
  chain_comm_ves : mul (comm_usdt s) (market_rate s) = Ok (comm_ves s);
  chain_owner_ves : mul (owner_usdt s) (market_rate s) = Ok (owner_ves s);
  chain_comm_usd : div (comm_ves s) rate = Ok (comm_purchasing_usd s);
  chain_owner_usd : div (owner_ves s) rate = Ok (owner_purchasing_usd s)
}.

End Chain.

Module ExactArith.
Local Open Scope Qc_scope.

(** The sum of amount times count over a list of (count, amount) pairs,
    as a rational. *)
Definition exact_sum (pairs : list (Qc * Qc)) : Qc :=
  fold_right (fun ct acc => snd ct * fst ct + acc) 0 pairs.

Definition hundred : Qc := of_int 100%Z.

Definition liquidation : Qc := of_decimal 75 2.
Definition fee : Qc := of_decimal 10 2.
Definition spread : Qc := of_decimal 1824 3.

(** The figures in exact arithmetic, written out. *)
Definition figures (raw rate : Qc) : Settlement Qc :=
  let usdt := raw * liquidation in
  let comm := usdt * fee in
  let owner := usdt - comm in
  let market := rate * spread in
  {| total_raw_usd := raw; total_usdt := usdt; comm_usdt := comm;
     owner_usdt := owner; market_rate := market;
     comm_ves := comm * market; owner_ves := owner * market;
     comm_purchasing_usd := comm * market / rate;
     owner_purchasing_usd := owner * market / rate;
     official_rate := rate |}.

End ExactArith.

(** ** The scenario of the specification: 100 USD at the rate 36.0 *)

Module Scenario.

(** The figures the specification lists, in exact arithmetic. *)
Definition exact_figures : Settlement Qc :=
  {| total_raw_usd := of_int 100;
     total_usdt := of_decimal 7500 2;
     comm_usdt := of_decimal 750 2;
     owner_usdt := of_decimal 6750 2;
     market_rate := of_decimal 65664 3;
     comm_ves := of_decimal 49248 2;
     owner_ves := of_decimal 443232 2;
     comm_purchasing_usd := of_decimal 1368 2;
     owner_purchasing_usd := of_decimal 12312 2;
     official_rate := of_int 36 |}.

(** The float the script computes for the owner's purchasing power: the
    binary64 number just below the one nearest to 123.12. *)
Definition owner_usd_float : spec_float :=
  S754_finite false 8663799783153991 (-46).

(** The figures on Python's floats: each is the float of the decimal the
    specification lists, except the last. *)
Definition float_figures : Settlement pynum :=
  {| total_raw_usd := PyFloat (Float64.of_Z 100);
     total_usdt := of_decimal 7500 2;
     comm_usdt := of_decimal 750 2;
     owner_usdt := of_decimal 6750 2;
     market_rate := of_decimal 65664 3;
     comm_ves := of_decimal 49248 2;
     owner_ves := of_decimal 443232 2;
     comm_purchasing_usd := of_decimal 1368 2;
     owner_purchasing_usd := PyFloat owner_usd_float;
     official_rate := of_decimal 360 1 |}.

(** [f] is within [tol] of the decimal [m / 10^k]. *)
Definition within (f : spec_float) (m : Z) (k : nat) (tol : Q) : bool :=
  Qle_bool (Qabs (Float64.to_Q f - inject_Z m / inject_Z (10 ^ Z.of_nat k))) tol.

End Scenario.

(** ** A sample run *)

(** A sample run, used to exhibit runs that reach their end. *)
Module Sample.
Local Open Scope string_scope.

Definition plain_format (N : Type) : Format N :=
  {| fmt_g := fun _ => "g"; fmt_2f := fun _ => "f"; fmt_str := fun _ => "s";
     fmt_date := fun d => match d with
                          | Some t => Str.of_nat (Z.to_nat t)
                          | None => "NaT"
                          end |}.

(** A stand-in for the parser of pandas: day numbers, the empty text as
    [NaT], anything else refused. *)
Definition parse_day (s : string) : string + timestamp :=
  if String.eqb s "" then inr None
  else if String.eqb s "1" then inr (Some 1)
  else if String.eqb s "2" then inr (Some 2)
  else if String.eqb s "3" then inr (Some 3)
  else inl ("Unknown datetime string format, unable to parse: " ++ s).

Section Rows.
Context {N : Type} {num : PyNum N}.

Definition row (d : DateCell) (desc plat : string) (amt : N) : RawRow N :=
  {| raw_date := d; raw_description := desc; raw_platform := plat;
     raw_amount := amt |}.

Definition ledger : list (RawRow N) :=
  [ row (CellDate 1) "Survey" "Digital_Assets_Type_1" (of_int 50);
    row (CellDate 1) "Survey" "Digital_Assets_Type_1" (of_int 50);
    row (CellDate 2) "Punchcard" "Digital_Assets_Type_1" (of_int 900);
    row (CellText "2") "Task" "Digital_Assets_Type_2" (of_decimal 25 1);
    row (CellDate 3) "Task" "Digital_Assets_Type_2" (of_int 4) ].

(** The same ledger with a date cell that is no date. *)
Definition bad_ledger : list (RawRow N) :=
  ledger ++ [ row (CellText "soon") "Task" "Digital_Assets_Type_2" (of_int 4) ].

Definition run_of (choice : result Z) (table : string + list (RawRow N))
    (rate : N) : Run N :=
  {| get_rate := inr rate;
     manual_rate := Raise ValueError;
     data_dir := "data";
     data_dir_exists := true;
     files := ["acct_a.xlsx"; "acct_b.xlsx"];
     choice_input := choice;
     read_excel := fun _ => table;
     start_input := "1";
     end_input := "2" |}.

Definition run : N -> Run N := run_of (Ok 1) (inr ledger).
End Rows.

End Sample.

(** ** Rows, cells and stages *)

Section RowVocabulary.
Context {N : Type} {num : PyNum N}.
Local Open Scope string_scope.

(** A row whose description is one of the three ignored entries. *)
Definition denylisted (r : Row N) : Prop :=
  description r = "Punchcard" \/
  description r = "Weekly Badge Bonus" \/
  description r = "Bonus Welcome Survey".

(** What cleaning is asked to do: drop the denylisted rows and keep the
    others, in the order they come. *)
Inductive cleaned : list (Row N) -> list (Row N) -> Prop :=
| cleaned_nil : cleaned [] []
| cleaned_drop r df out : denylisted r -> cleaned df out -> cleaned (r :: df) out
| cleaned_keep r df out :
    ~ denylisted r -> cleaned df out -> cleaned (r :: df) (r :: out).

(** The number of rows of a group whose amount is [t]. *)
Definition rows_sharing (t : N) (rows : list (Row N)) : Z :=
  Z.of_nat (List.length
    (filter (fun r => negb (isna (amount r)) && num_eqb t (amount r)) rows)).

(** A date cell that [pd.to_datetime] refuses. *)
Definition unparsable (to_datetime_text : string -> string + timestamp)
    (row : RawRow N) : Prop :=
  exists text e, raw_date row = CellText text /\ to_datetime_text text = inl e.

(** A computation that does not touch the report file. *)
Definition keeps_report {A : Type} (c : io World A) : Prop :=
  forall w, report_file (snd (c w)) = report_file w.

End RowVocabulary.

(** ** Counting values *)

(** What [value_counts] needs of the equality of keys: an equivalence on
    the values that are not missing. *)
Class KeyEq {V : Type} (na : V -> bool) (eqb : V -> V -> bool) : Prop := {
  key_refl : forall x, na x = false -> eqb x x = true;
  key_sym : forall x y, eqb x y = eqb y x;
  key_trans : forall x y z, eqb x y = true -> eqb y z = true -> eqb x z = true
}.

Section Counting.
Variable V : Type.
Variable na : V -> bool.
Variable eqb : V -> V -> bool.

(** The number of values of the series that are not missing and equal [v]:
    the rows sharing that value. *)
Definition occurrences (v : V) (s : list V) : Z :=
  Z.of_nat (List.length (filter (fun x => negb (na x) && eqb v x) s)).

(** The count the table holds for [v]: 0 when [v] is no key. *)
Definition count_in (tbl : list (V * Z)) (v : V) : Z :=
  match find (fun p => eqb (fst p) v) tbl with
  | Some p => snd p
  | None => 0
  end.

Definition one_if (b : bool) : Z := if b then 1 else 0.

(** The keys of a table: none missing, counts positive, no two equal. *)
Definition table_ok (tbl : list (V * Z)) : Prop :=
  Forall (fun p => na (fst p) = false /\ 0 < snd p) tbl /\
  ForallOrdPairs (fun p q => eqb (fst p) (fst q) = false) tbl.

Definition more_frequent (p q : V * Z) : bool := snd q <=? snd p.

End Counting.

(** ** Python numbers a float operation can take *)

Module PyRange.
Import PyNumber.

(** An int count that a float operation can take: [float(n)] does not
    overflow. *)
Definition small_count (c : pynum) : Prop :=
  exists n f, c = PyInt n /\ to_float (PyInt n) = Ok f.

Definition float_amount (t : pynum) : Prop := exists f, t = PyFloat f.

(** The running total of a valuation over float amounts: the int 0 it
    starts from, or a float. *)
Definition zero_or_float (x : pynum) : Prop :=
  x = PyInt 0 \/ exists f, x = PyFloat f.

End PyRange.

(** ** Sums, frames, output and exceptions of a whole run *)

(** ** Sums of amounts and of counts *)

(** The sum of a list of rationals. *)
Definition qsum (l : list Qc) : Qc := fold_right Qcplus 0%Qc l.

(** The sum of a list of ints. *)
Definition zsum (l : list Z) : Z := fold_right Z.add 0 l.

(** The sum of value times count over a table of values and counts. *)
Definition weighted_sum (tbl : list (Qc * Z)) : Qc :=
  qsum (map (fun p => (fst p * of_int (snd p))%Qc) tbl).

(** The values of a series that are not missing. *)
Definition present {V : Type} (na : V -> bool) (s : list V) : list V :=
  filter (fun x => negb (na x)) s.

(** ** The frames of the two providers *)

Section FrameVocabulary.
Context {N : Type} {num : PyNum N}.
Local Open Scope string_scope.

(** A row dated within the two bounds, both of them dates. *)
Definition in_range (start_date end_date : timestamp) (r : Row N) : Prop :=
  exists d s e, date r = Some d /\ start_date = Some s /\ end_date = Some e /\
                s <= d <= e.

(** The frame of a provider, from the loaded frame and the two dates. *)
Definition provider_1 (df : list (Row N)) (start_date end_date : timestamp)
    : list (Row N) :=
  df_t1 (df_filtered (df_clean df) start_date end_date).

Definition provider_2 (df : list (Row N)) (start_date end_date : timestamp)
    : list (Row N) :=
  df_t2 (df_filtered (df_clean df) start_date end_date).

(** Rows in the order of their dates, missing dates last. *)
Definition by_date (rows : list (Row N)) : Prop :=
  StronglySorted (fun a b => ts_before (date a) (date b) = true) rows.

End FrameVocabulary.

(** ** What a computation does to the console and the report *)

(** The world [w] is [w0] with some lines more, the same on the console
    and, when the report file is open, in the report. *)
Definition appended (w0 w : World) : Prop :=
  exists lines : list string,
    stdout w = (stdout w0 ++ lines)%list /\
    report_file w =
      option_map (fun nw : string * list string => (fst nw, (snd nw ++ lines)%list))
                 (report_file w0).

(** A computation whose only output goes through [smart_print]. *)
Definition mirrors {A : Type} (c : io World A) : Prop :=
  forall w, appended w (snd (c w)).

(** The two output functions the script passes: none, or [smart_print]. *)
Definition report_printer (print_func : printer World) : Prop :=
  print_func = None \/ print_func = Some smart_print.

(** The world after [smart_print] of each text, one after the other. *)
Definition smart_prints (texts : list string) (w : World) : World :=
  fold_left (fun w text => smart_print text w) texts w.

(** A computation that gives the same result and prints the same texts,
    through [smart_print], in every world. *)
Definition uniform {A : Type} (c : io World A) : Prop :=
  exists (r : result A) (texts : list string),
    forall w, c w = (r, smart_prints texts w).

(** The lines a computation puts on the console. *)
Definition printed {A : Type} (c : io World A) : list string :=
  stdout (snd (c initial_world)).

Section GroupVocabulary.
Context {N : Type} {num : PyNum N}.
Local Open Scope string_scope.

(** The rows of a frame that carry the date [d], in their order. *)
Definition rows_dated (d : Z) (rows : list (Row N)) : list (Row N) :=
  filter (fun r => match date r with
                   | Some x => (x =? d)%Z
                   | None => false
                   end) rows.

(** The line that opens the part of a date in a provider's section. *)
Definition date_line (fmt : Format N) (d : Z) : string :=
  (rule ++ nl ++ "DATE: " ++ fmt_date fmt (Some d)) ++ nl.

End GroupVocabulary.

(** A computation that never ends in [sys.exit()]. *)
Definition no_exit {W A : Type} (c : io W A) : Prop :=
  forall w, fst (c w) <> Raise SystemExit.

(** Arithmetic raises arithmetic errors only. *)
Definition quiet_arithmetic (N : Type) {num : PyNum N} : Prop :=
  forall x y : N,
    add x y <> Raise SystemExit /\ sub x y <> Raise SystemExit /\
    mul x y <> Raise SystemExit /\ div x y <> Raise SystemExit.
Arguments quiet_arithmetic N {num}.

(** The last line a completed run prints. *)
Definition saved_line (name : string) : string :=
  ((nl ++ "✅ Report saved at:" ++ nl ++ "./history_reports/" ++ name) ++ nl)%string.

(** A computation whose result does not depend on what was printed or
    written before it. *)
Definition oblivious {W A : Type} (c : io W A) : Prop :=
  forall w w', fst (c w) = fst (c w').

(** The run in which the fetch gives [rate]; everything else as in [r]. *)
Definition with_fetched_rate {N : Type} (r : Run N) (rate : N) : Run N :=
  {| get_rate := inr rate; manual_rate := manual_rate r;
     data_dir := data_dir r; data_dir_exists := data_dir_exists r;
     files := files r; choice_input := choice_input r;
     read_excel := read_excel r;
     start_input := start_input r; end_input := end_input r |}.

(** A text of ASCII characters only: on these, Python's [upper] changes
    the letters a to z and nothing else. *)
Definition ascii_text (s : string) : Prop :=
  Forall (fun c => (Ascii.nat_of_ascii c <? 128)%nat = true)
         (list_ascii_of_string s).

(** A name without a dot. *)
Definition dotless (s : string) : Prop :=
  Forall (fun c => c <> Ascii.ascii_of_nat 46) (list_ascii_of_string s).

(** A computation that raises nothing but exceptions in [P]. *)
Definition raises_only {W A : Type} (P : exn -> Prop) (c : io W A) : Prop :=
  forall w e, fst (c w) = Raise e -> P e.

(** The exceptions of arithmetic. *)
Definition arithmetic_error (e : exn) : Prop :=
  e = OverflowError \/ e = ZeroDivisionError.

(** ** Whole amounts on Python's numbers *)




(** ** Texts that can fail *)

Section FormatVocabulary.
Variable N : Type.
Context {num : PyNum N}.

(** The text of an f-string of the script: a text, or the [OverflowError]
    of a number that does not fit the float range. *)
Definition formatted (text : result string) : Prop :=
  (exists s, text = Ok s) \/
  (text = Raise OverflowError /\ exists x : N, fits_float x = false).

(** There is an output function and a number that cannot be formatted. *)
Definition overflows {W : Type} (print_func : printer W) : Prop :=
  print_func <> None /\ exists x : N, fits_float x = false.

End FormatVocabulary.
Arguments formatted N {num} text.
Arguments overflows N {num} {W} print_func.

(** * Properties *)

(** ** The output monad *)

Lemma io_bind_Ok {W A B} (c : io W A) (k : A -> io W B) w b w' :
  io_bind c k w = (Ok b, w') ->
  exists a w1, c w = (Ok a, w1) /\ k a w1 = (Ok b, w').
Proof.
  unfold io_bind. destruct (c w) as [[a | e] w1]; intros Hk.
  - exists a, w1. split; [reflexivity | exact Hk].
  - discriminate Hk.
Qed.

Lemma io_lift_Ok {W A} (r : result A) (w : W) a w' :
  io_lift r w = (Ok a, w') -> r = Ok a /\ w' = w.
Proof. unfold io_lift. intros Heq. inversion Heq. split; reflexivity. Qed.

Lemma emit_None {W} (text : result string) (w : W) :
  emit None text w = (Ok tt, w).
Proof. reflexivity. Qed.

Lemma emit_Some {W} (f : string -> W -> W) (text : result string) (w : W) :
  emit (Some f) text w =
  match text with
  | Ok s => (Ok tt, f s w)
  | Raise e => (Raise e, w)
  end.
Proof. unfold emit, io_bind, io_lift, io_do. destruct text; reflexivity. Qed.

(** ** The f-strings *)

Section FormatFacts.
Context {N : Type} {num : PyNum N}.
Variable fmt : Format N.

Lemma formatted_Ok (s : string) : formatted N (Ok s).
Proof. left. exists s. reflexivity. Qed.

Lemma formatted_format_g (x : N) : formatted N (format_g fmt x).
Proof.
  unfold format_g. destruct (fits_float x) eqn:Hx.
  - apply formatted_Ok.
  - right. split; [reflexivity | exists x; exact Hx].
Qed.

Lemma formatted_format_2f (x : N) : formatted N (format_2f fmt x).
Proof.
  unfold format_2f. destruct (fits_float x) eqn:Hx.
  - apply formatted_Ok.
  - right. split; [reflexivity | exists x; exact Hx].
Qed.

Lemma formatted_fstring (parts : list (result string)) :
  Forall (formatted N) parts -> formatted N (fstring parts).
Proof.
  induction 1 as [| p rest Hp Hrest IH]; [apply formatted_Ok |].
  destruct rest as [| q rest]; [exact Hp |].
  change (fstring (p :: q :: rest))
    with (rbind p (fun s => rbind (fstring (q :: rest))
                              (fun t => Ok (s ++ t)%string))).
  destruct Hp as [[s Hs] | [Hp Hx]]; subst p; cbn [rbind].
  - destruct IH as [[t Ht] | [Ht Hx]]; rewrite Ht; cbn [rbind].
    + apply formatted_Ok.
    + right. split; [reflexivity | exact Hx].
  - right. split; [reflexivity | exact Hx].
Qed.

Lemma formatted_raises (text : result string) (e : exn) :
  formatted N text -> text = Raise e -> e = OverflowError.
Proof.
  intros [[s Hs] | [Ht _]] He; rewrite He in *; [discriminate Hs |].
  inversion Ht. reflexivity.
Qed.

Lemma fits_all_formatted (text : result string) :
  (forall x : N, fits_float x = true) -> formatted N text ->
  exists s, text = Ok s.
Proof.
  intros Hfits [Hs | [_ [x Hx]]]; [exact Hs |].
  rewrite Hfits in Hx. discriminate Hx.
Qed.

(** What [emit] returns: nothing, or the [OverflowError] of a number that
    does not fit, which needs an output function. *)
Lemma emit_fst {W} (pf : printer W) (text : result string) (w : W) :
  formatted N text ->
  fst (emit pf text w) = Ok tt \/
  (fst (emit pf text w) = Raise OverflowError /\ overflows N pf).
Proof.
  intros Ht. destruct pf as [f |]; [| left; reflexivity].
  rewrite emit_Some. destruct Ht as [[s Hs] | [Hs Hx]]; subst text.
  - left. reflexivity.
  - right. split; [reflexivity |]. split; [discriminate | exact Hx].
Qed.

End FormatFacts.

Ltac formatted :=
  first [ apply formatted_format_g | apply formatted_format_2f
        | apply formatted_Ok
        | apply formatted_fstring;
          repeat (first [ apply Forall_nil
                        | apply Forall_cons;
                          [first [ apply formatted_format_g
                                 | apply formatted_format_2f
                                 | apply formatted_Ok ] |] ]) ].

(** ** Valuation: the loops without their output *)

Section ValuationFacts.
Context {N : Type} {num : PyNum N}.
Local Open Scope result_scope.

Lemma tally_loop_Ok pairs : forall total tasks total' tasks',
  tally_loop pairs (total, tasks) = Ok (total', tasks') <->
  sum_from total pairs = Ok total' /\ count_from tasks pairs = Ok tasks'.
Proof.
  induction pairs as [| [c t] rest IH]; intros total tasks total' tasks'; simpl.
  - split.
    + intros Heq. inversion Heq. split; reflexivity.
    + intros [H1 H2]. inversion H1. inversion H2. reflexivity.
  - destruct (mul t c) as [subtotal |]; simpl.
    2: { split; [discriminate | intros [Hd _]; discriminate Hd]. }
    destruct (add total subtotal) as [total1 |]; simpl.
    2: { split; [discriminate | intros [Hd _]; discriminate Hd]. }
    destruct (add tasks c) as [tasks1 |]; simpl.
    2: { split; [discriminate | intros [_ Hd]; discriminate Hd]. }
    apply IH.
Qed.

Variable fmt : Format N.
Variable W : Type.

(** One iteration gives what its arithmetic gives, unless a number of its
    line does not fit. *)
Lemma type_1_step_fst (pf : printer W) (acc ct : N * N) (w : W) :
  fst (type_1_step fmt pf acc ct w) = tally_step acc ct \/
  (fst (type_1_step fmt pf acc ct w) = Raise OverflowError /\ overflows N pf).
Proof.
  destruct acc as [total tasks], ct as [c t].
  unfold type_1_step, tally_step, io_bind, io_lift.
  destruct (mul t c) as [subtotal | e]; cbn [rbind]; [| left; reflexivity].
  match goal with
  | |- context [emit pf ?text w] =>
      destruct (@emit_fst N num W pf text w ltac:(formatted)) as [He | [He Ho]];
      destruct (emit pf text w) as [[[] | e] w1]; cbn [fst] in He;
      try discriminate He
  end.
  - left. destruct (add total subtotal) as [total1 |]; cbn [rbind]; [| reflexivity].
    destruct (add tasks c) as [tasks1 |]; reflexivity.
  - right. split; [inversion He; reflexivity | exact Ho].
Qed.

Lemma type_2_step_fst (pf : printer W) (acc ct : N * N) (w : W) :
  fst (type_2_step fmt pf acc ct w) = tally_step acc ct \/
  (fst (type_2_step fmt pf acc ct w) = Raise OverflowError /\ overflows N pf).
Proof.
  destruct acc as [total tasks], ct as [c t].
  unfold type_2_step, tally_step, io_bind, io_lift.
  destruct (mul t c) as [subtotal | e]; cbn [rbind]; [| left; reflexivity].
  match goal with
  | |- context [emit pf ?text w] =>
      destruct (@emit_fst N num W pf text w ltac:(formatted)) as [He | [He Ho]];
      destruct (emit pf text w) as [[[] | e] w1]; cbn [fst] in He;
      try discriminate He
  end.
  - left. destruct (add total subtotal) as [total1 |]; cbn [rbind]; [| reflexivity].
    destruct (add tasks c) as [tasks1 |]; reflexivity.
  - right. split; [inversion He; reflexivity | exact Ho].
Qed.

Lemma loop_fst (body : N * N -> N * N -> io W (N * N)) (pf : printer W) pairs :
  (forall acc ct w,
      fst (body acc ct w) = tally_step acc ct \/
      (fst (body acc ct w) = Raise OverflowError /\ overflows N pf)) ->
  forall acc w,
    fst (for_each body pairs acc w) = tally_loop pairs acc \/
    (fst (for_each body pairs acc w) = Raise OverflowError /\ overflows N pf).
Proof.
  intros Hbody. induction pairs as [| ct rest IH]; intros acc w;
    cbn [for_each tally_loop].
  - left. reflexivity.
  - unfold io_bind. destruct (Hbody acc ct w) as [Hs | [Hs Ho]];
      destruct (body acc ct w) as [[acc' | e] w1]; cbn [fst] in Hs.
    + rewrite <- Hs. cbn [rbind]. apply IH.
    + rewrite <- Hs. left. reflexivity.
    + discriminate Hs.
    + right. split; [exact Hs | exact Ho].
Qed.

Lemma type_1_loop_fst (pf : printer W) pairs acc w :
  fst (for_each (type_1_step fmt pf) pairs acc w) = tally_loop pairs acc \/
  (fst (for_each (type_1_step fmt pf) pairs acc w) = Raise OverflowError /\
   overflows N pf).
Proof. apply loop_fst. apply type_1_step_fst. Qed.

Lemma type_2_loop_fst (pf : printer W) pairs acc w :
  fst (for_each (type_2_step fmt pf) pairs acc w) = tally_loop pairs acc \/
  (fst (for_each (type_2_step fmt pf) pairs acc w) = Raise OverflowError /\
   overflows N pf).
Proof. apply loop_fst. apply type_2_step_fst. Qed.

Lemma type_1_loop_silent pairs : forall acc w,
  snd (for_each (type_1_step fmt (None : printer W)) pairs acc w) = w.
Proof.
  induction pairs as [| [c t] rest IH]; intros [total tasks] w; simpl.
  - reflexivity.
  - unfold io_bind, io_lift at 1. simpl.
    destruct (mul t c) as [subtotal |]; simpl; [| reflexivity].
    destruct (add total subtotal) as [total1 |]; simpl; [| reflexivity].
    destruct (add tasks c) as [tasks1 |]; simpl; [| reflexivity].
    apply IH.
Qed.

Lemma type_2_loop_silent pairs : forall acc w,
  snd (for_each (type_2_step fmt (None : printer W)) pairs acc w) = w.
Proof.
  induction pairs as [| [c t] rest IH]; intros [total tasks] w; simpl.
  - reflexivity.
  - unfold io_bind, io_lift at 1. simpl.
    destruct (mul t c) as [subtotal |]; simpl; [| reflexivity].
    destruct (add total subtotal) as [total1 |]; simpl; [| reflexivity].
    destruct (add tasks c) as [tasks1 |]; simpl; [| reflexivity].
    apply IH.
Qed.

End ValuationFacts.

Section ProcessFacts.
Context {N : Type} {num : PyNum N}.
Variable fmt : Format N.
Variable W : Type.
Local Open Scope result_scope.

(** With an output function a valuation gives what its arithmetic gives,
    or the [OverflowError] of a number it cannot format. *)
Lemma process_type_1_cases (counts types : list N) (pf : printer W) (w : W) :
  fst (process_type_1 fmt counts types pf w) =
    (acc <- tally_loop (combine counts types) (of_int 0, of_int 0) ;;
     div (fst acc) (of_int 100)) \/
  (fst (process_type_1 fmt counts types pf w) = Raise OverflowError /\
   overflows N pf).
Proof.
  set (r := fst (process_type_1 fmt counts types pf w)).
  assert (Hr : fst (process_type_1 fmt counts types pf w) = r) by reflexivity.
  clearbody r. unfold process_type_1, io_bind, io_lift in Hr.
  destruct (type_1_loop_fst fmt pf (combine counts types) (of_int 0, of_int 0) w)
    as [Hloop | [Hloop Ho]];
    destruct (for_each _ _ _ w) as [[[t_points t_tasks] | e] w1];
    cbn [fst] in Hloop, Hr; try discriminate Hloop.
  2: { left. rewrite <- Hloop, <- Hr. reflexivity. }
  2: { right. split; [rewrite <- Hr; inversion Hloop; reflexivity | exact Ho]. }
  rewrite <- Hloop. cbn [rbind fst].
  destruct (div t_points (of_int 100)) as [total_usd | e]; cbn [fst] in Hr;
    [| left; symmetry; exact Hr].
  match type of Hr with
  | context [emit pf ?text w1] =>
      destruct (@emit_fst N num W pf text w1 ltac:(formatted)) as [He | [He Ho]];
      destruct (emit pf text w1) as [[[] | e] w2]; cbn [fst] in He, Hr;
      try discriminate He
  end.
  2: { right. split; [rewrite <- Hr; inversion He; reflexivity | exact Ho]. }
  match type of Hr with
  | context [emit pf ?text w2] =>
      destruct (@emit_fst N num W pf text w2 ltac:(formatted)) as [He' | [He' Ho]];
      destruct (emit pf text w2) as [[[] | e] w3]; cbn [fst] in He', Hr;
      try discriminate He'
  end.
  - left. symmetry. exact Hr.
  - right. split; [rewrite <- Hr; inversion He'; reflexivity | exact Ho].
Qed.

Lemma process_type_2_cases (counts types : list N) (pf : printer W) (w : W) :
  fst (process_type_2 fmt counts types pf w) =
    (acc <- tally_loop (combine counts types) (of_int 0, of_int 0) ;;
     Ok (fst acc)) \/
  (fst (process_type_2 fmt counts types pf w) = Raise OverflowError /\
   overflows N pf).
Proof.
  set (r := fst (process_type_2 fmt counts types pf w)).
  assert (Hr : fst (process_type_2 fmt counts types pf w) = r) by reflexivity.
  clearbody r. unfold process_type_2, io_bind, io_lift in Hr.
  destruct (type_2_loop_fst fmt pf (combine counts types) (of_int 0, of_int 0) w)
    as [Hloop | [Hloop Ho]];
    destruct (for_each _ _ _ w) as [[[total_usd t_tasks] | e] w1];
    cbn [fst] in Hloop, Hr; try discriminate Hloop.
  2: { left. rewrite <- Hloop, <- Hr. reflexivity. }
  2: { right. split; [rewrite <- Hr; inversion Hloop; reflexivity | exact Ho]. }
  rewrite <- Hloop. cbn [rbind fst].
  match type of Hr with
  | context [emit pf ?text w1] =>
      destruct (@emit_fst N num W pf text w1 ltac:(formatted)) as [He | [He Ho]];
      destruct (emit pf text w1) as [[[] | e] w2]; cbn [fst] in He, Hr;
      try discriminate He
  end.
  2: { right. split; [rewrite <- Hr; inversion He; reflexivity | exact Ho]. }
  match type of Hr with
  | context [emit pf ?text w2] =>
      destruct (@emit_fst N num W pf text w2 ltac:(formatted)) as [He' | [He' Ho]];
      destruct (emit pf text w2) as [[[] | e] w3]; cbn [fst] in He', Hr;
      try discriminate He'
  end.
  - left. symmetry. exact Hr.
  - right. split; [rewrite <- Hr; inversion He'; reflexivity | exact Ho].
Qed.

(** Without an output function, and where every number fits, a valuation
    gives what its arithmetic gives. *)
Lemma process_type_1_fst (counts types : list N) (pf : printer W) (w : W) :
  ~ overflows N pf ->
  fst (process_type_1 fmt counts types pf w) =
  (acc <- tally_loop (combine counts types) (of_int 0, of_int 0) ;;
   div (fst acc) (of_int 100)).
Proof.
  intros Hq. destruct (process_type_1_cases counts types pf w) as [H | [_ Ho]];
    [exact H | destruct (Hq Ho)].
Qed.

Lemma process_type_2_fst (counts types : list N) (pf : printer W) (w : W) :
  ~ overflows N pf ->
  fst (process_type_2 fmt counts types pf w) =
  (acc <- tally_loop (combine counts types) (of_int 0, of_int 0) ;;
   Ok (fst acc)).
Proof.
  intros Hq. destruct (process_type_2_cases counts types pf w) as [H | [_ Ho]];
    [exact H | destruct (Hq Ho)].
Qed.

Lemma silent_never_overflows : ~ overflows N (None : printer W).
Proof. intros [Hpf _]. apply Hpf. reflexivity. Qed.

Lemma fits_all_never_overflows (pf : printer W) :
  (forall x : N, fits_float x = true) -> ~ overflows N pf.
Proof. intros Hfits [_ [x Hx]]. rewrite Hfits in Hx. discriminate Hx. Qed.

(** A valuation that returns with an output function returns the same
    without one. *)
Lemma process_type_1_Ok (counts types : list N) (pf : printer W) (w : W) v :
  fst (process_type_1 fmt counts types pf w) = Ok v ->
  (acc <- tally_loop (combine counts types) (of_int 0, of_int 0) ;;
   div (fst acc) (of_int 100)) = Ok v.
Proof.
  intros Hv. destruct (process_type_1_cases counts types pf w) as [H | [H _]];
    rewrite H in Hv; [exact Hv | discriminate Hv].
Qed.

Lemma process_type_2_Ok (counts types : list N) (pf : printer W) (w : W) v :
  fst (process_type_2 fmt counts types pf w) = Ok v ->
  (acc <- tally_loop (combine counts types) (of_int 0, of_int 0) ;;
   Ok (fst acc)) = Ok v.
Proof.
  intros Hv. destruct (process_type_2_cases counts types pf w) as [H | [H _]];
    rewrite H in Hv; [exact Hv | discriminate Hv].
Qed.

Lemma process_type_1_silent (counts types : list N) (w : W) :
  snd (process_type_1 fmt counts types None w) = w.
Proof.
  unfold process_type_1, io_bind at 1.
  pose proof (type_1_loop_silent fmt (combine counts types)
                (of_int 0, of_int 0) w) as Hloop.
  destruct (for_each _ _ _ w) as [[[t_points t_tasks] | e] w1];
    simpl in Hloop; subst w1; [| reflexivity].
  unfold io_bind, io_lift.
  destruct (div t_points (of_int 100)); reflexivity.
Qed.

Lemma process_type_2_silent (counts types : list N) (w : W) :
  snd (process_type_2 fmt counts types None w) = w.
Proof.
  unfold process_type_2, io_bind at 1.
  pose proof (type_2_loop_silent fmt (combine counts types)
                (of_int 0, of_int 0) w) as Hloop.
  destruct (for_each _ _ _ w) as [[[total_usd t_tasks] | e] w1];
    simpl in Hloop; subst w1; reflexivity.
Qed.

End ProcessFacts.




(** ** Valuation totals *)

Section ValuationTotals.
Context {N : Type} {num : PyNum N}.
Variable fmt : Format N.
Variable W : Type.

Lemma type_1_total (counts types : list N) (v : N) :
  (rbind (tally_loop (combine counts types) (of_int 0, of_int 0))
         (fun acc => div (fst acc) (of_int 100)) = Ok v) <->
  exists points tasks,
    sum_products (combine counts types) = Ok points /\
    sum_counts (combine counts types) = Ok tasks /\
    div points (of_int 100) = Ok v.
Proof.
  unfold sum_products, sum_counts. split.
  - destruct (tally_loop _ _) as [[points tasks] | e] eqn:Hloop; simpl;
      [| discriminate].
    intros Hdiv. apply tally_loop_Ok in Hloop. destruct Hloop as [Hp Ht].
    exists points, tasks. auto.
  - intros (points & tasks & Hp & Ht & Hdiv).
    assert (Hloop : tally_loop (combine counts types) (of_int 0, of_int 0)
                    = Ok (points, tasks)) by (apply tally_loop_Ok; auto).
    rewrite Hloop. exact Hdiv.
Qed.

Lemma type_2_total (counts types : list N) (v : N) :
  (rbind (tally_loop (combine counts types) (of_int 0, of_int 0))
         (fun acc => Ok (fst acc)) = Ok v) <->
  sum_products (combine counts types) = Ok v /\
  exists tasks, sum_counts (combine counts types) = Ok tasks.
Proof.
  unfold sum_products, sum_counts. split.
  - destruct (tally_loop _ _) as [[total tasks] | e] eqn:Hloop; simpl;
      [| discriminate].
    intros Hv. inversion Hv; subst v.
    apply tally_loop_Ok in Hloop. destruct Hloop as [Hp Ht].
    split; [exact Hp | exists tasks; exact Ht].
  - intros (Hp & tasks & Ht).
    assert (Hloop : tally_loop (combine counts types) (of_int 0, of_int 0)
                    = Ok (v, tasks)) by (apply tally_loop_Ok; auto).
    rewrite Hloop. reflexivity.
Qed.

Lemma process_type_1_returns (counts types : list N) (pf : printer W) (w : W) v :
  ~ overflows N pf ->
  (fst (process_type_1 fmt counts types pf w) = Ok v <->
   exists points tasks,
     sum_products (combine counts types) = Ok points /\
     sum_counts (combine counts types) = Ok tasks /\
     div points (of_int 100) = Ok v).
Proof.
  intros Hq. rewrite (process_type_1_fst fmt counts types w Hq).
  apply type_1_total.
Qed.

Lemma process_type_2_returns (counts types : list N) (pf : printer W) (w : W) v :
  ~ overflows N pf ->
  (fst (process_type_2 fmt counts types pf w) = Ok v <->
   sum_products (combine counts types) = Ok v /\
   exists tasks, sum_counts (combine counts types) = Ok tasks).
Proof.
  intros Hq. rewrite (process_type_2_fst fmt counts types w Hq).
  apply type_2_total.
Qed.

(** Whatever the output function, a total that is returned is the sum. *)
Lemma process_type_1_returned (counts types : list N) (pf : printer W) (w : W) v :
  fst (process_type_1 fmt counts types pf w) = Ok v ->
  exists points tasks,
    sum_products (combine counts types) = Ok points /\
    sum_counts (combine counts types) = Ok tasks /\
    div points (of_int 100) = Ok v.
Proof. intros Hv. apply type_1_total. exact (process_type_1_Ok _ _ _ _ _ Hv). Qed.

Lemma process_type_2_returned (counts types : list N) (pf : printer W) (w : W) v :
  fst (process_type_2 fmt counts types pf w) = Ok v ->
  sum_products (combine counts types) = Ok v /\
  exists tasks, sum_counts (combine counts types) = Ok tasks.
Proof. intros Hv. apply type_2_total. exact (process_type_2_Ok _ _ _ _ _ Hv). Qed.

End ValuationTotals.

Module ExactFacts.
Import ExactArith.
Local Open Scope Qc_scope.

Lemma hundred_nonzero : hundred <> 0.
Proof.
  intros Heq. apply (f_equal this) in Heq. vm_compute in Heq. discriminate Heq.
Qed.

Lemma sum_from_exact pairs : forall acc,
  sum_from acc pairs = Ok (acc + exact_sum pairs).
Proof.
  induction pairs as [| [c t] rest IH]; intros acc; simpl.
  - f_equal. ring.
  - rewrite IH. f_equal. ring.
Qed.

Lemma count_from_exact pairs : forall acc,
  exists tasks, count_from acc pairs = Ok tasks.
Proof.
  induction pairs as [| [c t] rest IH]; intros acc; simpl.
  - exists acc. reflexivity.
  - apply IH.
Qed.

Lemma sum_products_exact pairs : sum_products pairs = Ok (exact_sum pairs).
Proof.
  unfold sum_products. rewrite sum_from_exact. f_equal.
  change (of_int 0%Z : Qc) with (Q2Qc 0). ring.
Qed.

Lemma div_hundred (x : Qc) : div x hundred = Ok (x / hundred).
Proof.
  simpl. unfold Exact.q_div.
  destruct (Qc_eq_dec hundred 0) as [Heq | _]; [| reflexivity].
  destruct (hundred_nonzero Heq).
Qed.

End ExactFacts.

(** ** When the valuations and the chain return on Python's numbers *)

Module PyFacts.
Import PyNumber Float64 PyRange.

Lemma to_float_zero_or_float (x : pynum) :
  zero_or_float x -> exists f, to_float x = Ok f.
Proof.
  intros [Hx | [f Hx]]; subst x.
  - eexists. vm_compute. reflexivity.
  - exists f. reflexivity.
Qed.

Lemma arith_float_r iop fop (x : pynum) (fx g : spec_float) :
  to_float x = Ok fx -> arith iop fop x (PyFloat g) = Ok (PyFloat (fop fx g)).
Proof.
  intros Hx. destruct x as [n | f]; unfold arith.
  - rewrite Hx. reflexivity.
  - simpl in Hx. inversion Hx. reflexivity.
Qed.

Lemma arith_float_l iop fop (f : spec_float) (y : pynum) (fy : spec_float) :
  to_float y = Ok fy -> arith iop fop (PyFloat f) y = Ok (PyFloat (fop f fy)).
Proof.
  intros Hy. unfold arith. simpl to_float at 1. cbn [rbind]. rewrite Hy. reflexivity.
Qed.

Lemma mul_float_r (x : pynum) (fx g : spec_float) :
  to_float x = Ok fx -> mul x (PyFloat g) = Ok (PyFloat (fmul fx g)).
Proof. apply arith_float_r. Qed.

Lemma mul_float_l (f : spec_float) (y : pynum) (fy : spec_float) :
  to_float y = Ok fy -> mul (PyFloat f) y = Ok (PyFloat (fmul f fy)).
Proof. apply arith_float_l. Qed.

Lemma add_float_r (x : pynum) (fx g : spec_float) :
  to_float x = Ok fx -> add x (PyFloat g) = Ok (PyFloat (fadd fx g)).
Proof. apply arith_float_r. Qed.

Lemma sub_float_float (f g : spec_float) :
  sub (PyFloat f) (PyFloat g) = Ok (PyFloat (fsub f g)).
Proof. reflexivity. Qed.

Lemma add_int_int (n k : Z) : add (PyInt n) (PyInt k) = Ok (PyInt (n + k)).
Proof. reflexivity. Qed.

Lemma div_float_float (f g : spec_float) :
  is_zero g = false -> div (PyFloat f) (PyFloat g) = Ok (PyFloat (fdiv f g)).
Proof.
  intros Hg. change (py_div (PyFloat f) (PyFloat g) = Ok (PyFloat (fdiv f g))).
  unfold py_div. cbn [to_float rbind]. rewrite Hg. reflexivity.
Qed.

Lemma div_by_hundred (x : pynum) :
  zero_or_float x -> exists f, div x (of_int 100) = Ok (PyFloat f).
Proof.
  intros [Hx | [f Hx]]; subst x.
  - eexists. vm_compute. reflexivity.
  - exists (fdiv f (of_Z 100)).
    change (py_div (PyFloat f) (PyInt 100) = Ok (PyFloat (fdiv f (of_Z 100)))).
    unfold py_div.
    replace (to_float (PyInt 100)) with (Ok (of_Z 100)) by (vm_compute; reflexivity).
    cbn [to_float rbind].
    replace (is_zero (of_Z 100)) with false by (vm_compute; reflexivity).
    reflexivity.
Qed.

Lemma tally_loop_floats (pairs : list (pynum * pynum)) :
  Forall (fun ct => small_count (fst ct) /\ float_amount (snd ct)) pairs ->
  forall (total : pynum) (n : Z),
    zero_or_float total ->
    exists total' n',
      tally_loop pairs (total, PyInt n) = Ok (total', PyInt n') /\
      zero_or_float total'.
Proof.
  induction 1 as [| [c t] rest [Hc Ht] _ IH]; intros total n Htotal.
  - exists total, n. split; [reflexivity | exact Htotal].
  - destruct Hc as (k & fk & Hc & Hk). destruct Ht as [ft Ht].
    simpl in Hc, Ht. subst c t.
    destruct (to_float_zero_or_float Htotal) as [f0 Hf0].
    cbn [tally_loop tally_step].
    rewrite (@mul_float_l ft _ _ Hk). cbn [rbind].
    rewrite (@add_float_r _ _ _ Hf0), add_int_int. cbn [rbind].
    apply IH. right. eexists. reflexivity.
Qed.

Lemma Forall_combine {A B : Type} (P : A -> Prop) (Q : B -> Prop)
    (l : list A) : forall l' : list B,
  Forall P l -> Forall Q l' ->
  Forall (fun ab => P (fst ab) /\ Q (snd ab)) (combine l l').
Proof.
  induction l as [| a l IH]; intros l' Hl Hl'; simpl; [constructor |].
  destruct l' as [| b l']; [constructor |].
  inversion Hl; inversion Hl'; subst. constructor; [split; assumption |].
  apply IH; assumption.
Qed.

(** With float amounts and int counts, and no output function, both
    valuations return a float or, for the Type 2 valuation of no pair at
    all, the int 0. *)
Lemma valuations_return (fmt : Format pynum) (W : Type)
    (counts types : list pynum) (w : W) :
  Forall small_count counts -> Forall float_amount types ->
  (exists f, fst (process_type_1 fmt counts types None w) = Ok (PyFloat f)) /\
  (exists v, fst (process_type_2 fmt counts types None w) = Ok v /\ zero_or_float v).
Proof.
  intros Hc Ht.
  destruct (tally_loop_floats (Forall_combine Hc Ht) 0 (or_introl eq_refl))
    as (total & n & Hloop & Htotal).
  rewrite (process_type_1_fst fmt counts types w (@silent_never_overflows pynum _ W)).
  rewrite (process_type_2_fst fmt counts types w (@silent_never_overflows pynum _ W)).
  change (@of_int pynum _ 0) with (PyInt 0). rewrite Hloop. cbn [rbind fst].
  change (PyInt 100) with (@of_int pynum _ 100).
  split.
  - exact (div_by_hundred Htotal).
  - exists total. split; [reflexivity | exact Htotal].
Qed.

(** With a float rate that is not zero and a total that is a float, or an
    int in the float range, the chain returns. *)
Lemma settle_returns (raw : pynum) (fr rate : spec_float) :
  to_float raw = Ok fr -> is_zero rate = false ->
  exists s, settle raw (PyFloat rate) = Ok s.
Proof.
  intros Hraw Hrate. unfold settle.
  unfold LIQUIDATION_RATE, SERVICE_FEE_RATE, SPREAD_FACTOR.
  change (@of_decimal pynum _ 75 2) with (PyFloat (int_truediv 75 (10 ^ 2))).
  change (@of_decimal pynum _ 10 2) with (PyFloat (int_truediv 10 (10 ^ 2))).
  change (@of_decimal pynum _ 1824 3) with (PyFloat (int_truediv 1824 (10 ^ 3))).
  rewrite (@mul_float_r _ _ _ Hraw). cbn [rbind].
  rewrite (@mul_float_l _ (PyFloat _) _ eq_refl). cbn [rbind].
  rewrite sub_float_float. cbn [rbind].
  rewrite (@mul_float_l _ (PyFloat _) _ eq_refl). cbn [rbind].
  rewrite (@mul_float_l _ (PyFloat _) _ eq_refl). cbn [rbind].
  rewrite (@mul_float_l _ (PyFloat _) _ eq_refl). cbn [rbind].
  rewrite !div_float_float by exact Hrate. cbn [rbind].
  eexists. reflexivity.
Qed.

End PyFacts.

(** An int amount beyond the float range makes the Type 1 valuation raise
    [OverflowError] at its division by 100, with no output function at all:
    the valuation does not return for every list of pairs. *)
Lemma huge_amount_makes_type_1_raise :
  let fmt := Sample.plain_format pynum in
  fst (process_type_1 fmt [PyInt 1] [PyInt (10 ^ 400)] None tt) =
    Raise OverflowError /\
  ~ (forall counts types : list pynum,
        exists v, fst (process_type_1 fmt counts types None tt) = Ok v).
Proof.
  intros fmt.
  assert (Hrun : fst (process_type_1 fmt [PyInt 1] [PyInt (10 ^ 400)] None tt) =
                 Raise OverflowError) by (vm_compute; reflexivity).
  split; [exact Hrun |]. intros Hall.
  destruct (Hall [PyInt 1] [PyInt (10 ^ 400)]) as [v Hv].
  rewrite Hrun in Hv. discriminate Hv.
Qed.

(** C2, for the lists on which the valuations return. From the (amount,
    count) pairs, a total that the Type 1 valuation returns is the sum of
    amount times count divided by 100, and a total that the Type 2 valuation
    returns is that sum itself, whatever the output function; with no output
    function a total is returned exactly when the sums (and the division)
    succeed. In exact arithmetic both return for every list and every output
    function. On Python's numbers they return, with no output function, for
    float amounts with int counts in the float range, and the pair (50,
    count 2) of the specification gives 1.0 with every output function. *)
Theorem valuation_totals :
  (forall (N : Type) (num : PyNum N) (fmt : Format N) (W : Type)
          (counts types : list N) (print_func : printer W) (w : W) (v : N),
      (fst (process_type_1 fmt counts types print_func w) = Ok v ->
       exists points tasks,
         sum_products (combine counts types) = Ok points /\
         sum_counts (combine counts types) = Ok tasks /\
         div points (of_int 100) = Ok v) /\
      (fst (process_type_2 fmt counts types print_func w) = Ok v ->
       sum_products (combine counts types) = Ok v /\
       exists tasks, sum_counts (combine counts types) = Ok tasks) /\
      (fst (process_type_1 fmt counts types None w) = Ok v <->
       exists points tasks,
         sum_products (combine counts types) = Ok points /\
         sum_counts (combine counts types) = Ok tasks /\
         div points (of_int 100) = Ok v) /\
      (fst (process_type_2 fmt counts types None w) = Ok v <->
       sum_products (combine counts types) = Ok v /\
       exists tasks, sum_counts (combine counts types) = Ok tasks)) /\
  (forall (fmt : Format Qc) (W : Type) (counts types : list Qc)
          (print_func : printer W) (w : W),
      fst (process_type_1 fmt counts types print_func w) =
        Ok (ExactArith.exact_sum (combine counts types) / of_int 100)%Qc /\
      fst (process_type_2 fmt counts types print_func w) =
        Ok (ExactArith.exact_sum (combine counts types))) /\
  (forall (fmt : Format pynum) (W : Type) (counts types : list pynum) (w : W),
      Forall PyRange.small_count counts ->
      Forall PyRange.float_amount types ->
      (exists f, fst (process_type_1 fmt counts types None w) = Ok (PyFloat f)) /\
      (exists v, fst (process_type_2 fmt counts types None w) = Ok v)) /\
  (forall (fmt : Format pynum) (W : Type) (print_func : printer W) (w : W),
      fst (process_type_1 fmt [PyInt 2] [PyInt 50] print_func w) =
        Ok (PyFloat (Float64.of_Z 1))).
Proof.
  split; [| split; [| split]].
  - intros N num fmt W counts types print_func w v.
    split; [apply process_type_1_returned |].
    split; [apply process_type_2_returned |].
    split; [apply process_type_1_returns | apply process_type_2_returns];
      apply silent_never_overflows.
  - intros fmt W counts types print_func w.
    assert (Hq : ~ overflows Qc print_func)
      by (apply fits_all_never_overflows; intros x; reflexivity).
    split.
    + apply (process_type_1_returns fmt counts types w _ Hq).
      destruct (ExactFacts.count_from_exact (combine counts types) (of_int 0))
        as [tasks Htasks].
      exists (ExactArith.exact_sum (combine counts types)), tasks.
      split; [apply ExactFacts.sum_products_exact |].
      split; [exact Htasks | apply ExactFacts.div_hundred].
    + apply (process_type_2_returns fmt counts types w _ Hq). split.
      * apply ExactFacts.sum_products_exact.
      * apply (ExactFacts.count_from_exact (combine counts types) (of_int 0)).
  - intros fmt W counts types w Hcounts Htypes.
    destruct (PyFacts.valuations_return fmt w Hcounts Htypes)
      as [H1 (v & H2 & _)].
    split; [exact H1 | exists v; exact H2].
  - intros fmt W print_func w.
    destruct print_func as [f |]; vm_compute; reflexivity.
Qed.

Lemma valuation_totals_witness :
  let half : pynum := of_decimal 5 1 in
  let fmt := Sample.plain_format pynum in
  Forall PyRange.small_count [PyInt 3] /\
  Forall PyRange.float_amount [half] /\
  fst (process_type_1 fmt [PyInt 3] [half] None tt) = Ok (of_decimal 15 3) /\
  fst (process_type_2 fmt [PyInt 3] [half] None tt) = Ok (of_decimal 15 1) /\
  exists f, fst (process_type_1 fmt [PyInt 3] [half] None tt) = Ok (PyFloat f).
Proof.
  intros half fmt.
  assert (Hc : Forall PyRange.small_count [PyInt 3]).
  { constructor; [| constructor]. exists 3. eexists.
    split; [reflexivity | vm_compute; reflexivity]. }
  assert (Ht : Forall PyRange.float_amount [half]).
  { constructor; [| constructor]. eexists. reflexivity. }
  split; [exact Hc |]. split; [exact Ht |].
  split; [vm_compute; reflexivity |]. split; [vm_compute; reflexivity |].
  exact (proj1 (proj1 (proj2 (proj2 valuation_totals)) fmt unit [PyInt 3] [half]
                  tt Hc Ht)).
Defined.

(** ** The settlement chain *)

Section SettlementFacts.
Context {N : Type} {num : PyNum N}.

Lemma settle_chain (raw rate : N) (s : Settlement N) :
  settle raw rate = Ok s <-> chain raw rate s.
Proof.
  unfold settle. split.
  - destruct (mul raw LIQUIDATION_RATE) as [usdt |] eqn:E1; [| discriminate].
    simpl. destruct (mul usdt SERVICE_FEE_RATE) as [comm |] eqn:E2; [| discriminate].
    simpl. destruct (sub usdt comm) as [owner |] eqn:E3; [| discriminate].
    simpl. destruct (mul rate SPREAD_FACTOR) as [market |] eqn:E4; [| discriminate].
    simpl. destruct (mul comm market) as [cves |] eqn:E5; [| discriminate].
    simpl. destruct (mul owner market) as [oves |] eqn:E6; [| discriminate].
    simpl. destruct (div cves rate) as [cusd |] eqn:E7; [| discriminate].
    simpl. destruct (div oves rate) as [ousd |] eqn:E8; [| discriminate].
    simpl. intros Heq. inversion Heq; subst s.
    constructor; simpl; auto.
  - intros [Hraw Hrate H1 H2 H3 H4 H5 H6 H7 H8].
    rewrite H1. simpl. rewrite H2. simpl. rewrite H3. simpl.
    rewrite H4. simpl. rewrite H5. simpl. rewrite H6. simpl.
    rewrite H7. simpl. rewrite H8. simpl.
    destruct s; simpl in *; subst; reflexivity.
Qed.

End SettlementFacts.

Module ExactSettlement.
Import ExactArith.
Local Open Scope Qc_scope.

Lemma settle_exact (raw rate : Qc) :
  rate <> 0 -> settle raw rate = Ok (figures raw rate).
Proof.
  intros Hrate. unfold settle. simpl. unfold Exact.q_div.
  destruct (Qc_eq_dec rate 0) as [Heq | _]; [destruct (Hrate Heq) |].
  reflexivity.
Qed.

Lemma settle_exact_zero_rate (raw : Qc) :
  settle raw 0 = Raise ZeroDivisionError.
Proof.
  unfold settle. simpl. unfold Exact.q_div.
  destruct (Qc_eq_dec 0 0) as [_ | Hne]; [reflexivity | destruct Hne; reflexivity].
Qed.

Lemma settle_exact_inv (raw rate : Qc) (s : Settlement Qc) :
  settle raw rate = Ok s -> rate <> 0 /\ s = figures raw rate.
Proof.
  intros Hs. assert (Hrate : rate <> 0).
  { intros Heq. subst rate. rewrite settle_exact_zero_rate in Hs. discriminate Hs. }
  split; [exact Hrate |].
  rewrite (settle_exact raw Hrate) in Hs. inversion Hs. reflexivity.
Qed.

Lemma Qc_decide (x y : Qc) : Qeq_bool x y = true -> x = y.
Proof. intros Hb. apply Qc_is_canon. apply Qeq_bool_eq. exact Hb. Qed.

Lemma spread_cancels (x rate : Qc) : rate <> 0 -> x * (rate * spread) / rate = x * spread.
Proof. intros Hrate. field. exact Hrate. Qed.

End ExactSettlement.

(** ** Where the script applies the chain *)

Ltac io_step H :=
  let a := fresh "a" in
  let w := fresh "w" in
  let Hc := fresh "Hc" in
  apply io_bind_Ok in H; destruct H as (a & w & Hc & H).

Section MainFacts.
Context {N : Type} {num : PyNum N}.
Variable fmt : Format N.
Variable to_datetime_text : string -> string + timestamp.

(** The chain is applied once, to the sum of the two grand totals. *)
Lemma audit_report_settles rate account start_date end_date t1 t2 w s w' :
  audit_report fmt rate account start_date end_date t1 t2 w = (Ok s, w') ->
  exists v1 v2 raw w1,
    total_val (process_type_1 fmt (W := World)) t1 w1 = (Ok v1, w1) /\
    total_val (process_type_2 fmt (W := World)) t2 w1 = (Ok v2, w1) /\
    add v1 v2 = Ok raw /\
    settle raw rate = Ok s.
Proof.
  unfold audit_report. intros H.
  do 10 io_step H.
  match goal with
  | Hv : total_val _ t1 ?wa = (Ok ?v, ?wb) |- _ =>
      rename Hv into Hv1; rename v into v1
  end.
  io_step H.
  match goal with
  | Hv : total_val _ t2 ?wa = (Ok ?v, ?wb) |- _ =>
      rename Hv into Hv2; rename v into v2
  end.
  io_step H.
  match goal with
  | Hv : io_lift (add v1 v2) _ = _ |- _ =>
      apply io_lift_Ok in Hv; destruct Hv as [Hadd ?]; subst
  end.
  io_step H.
  match goal with
  | Hv : io_lift (settle _ rate) _ = _ |- _ =>
      apply io_lift_Ok in Hv; destruct Hv as [Hsettle ?]; subst
  end.
  do 11 io_step H.
  unfold io_ret in H. inversion H; subst.
  assert (Hsilent : forall process df wa v wb,
    (forall c t wx, snd (process c t None wx) = wx) ->
    total_val process df wa = (Ok v, wb) -> wb = wa).
  { intros process df wa v wb Hproc Htv. unfold total_val in Htv.
    destruct (empty df).
    - unfold io_ret in Htv. inversion Htv. reflexivity.
    - destruct (get_stats (map amount df)) as [c t].
      specialize (Hproc c t wa). rewrite Htv in Hproc. exact Hproc. }
  pose proof (Hsilent _ _ _ _ _ (process_type_1_silent fmt (W := World)) Hv1).
  pose proof (Hsilent _ _ _ _ _ (process_type_2_silent fmt (W := World)) Hv2).
  subst. eauto 10.
Qed.

Lemma settle_account_settles (r : Run N) rate file df w s w' :
  settle_account fmt to_datetime_text r rate file df w = (Ok s, w') ->
  exists start_date end_date v1 v2 raw w1,
    let filtered := df_filtered (df_clean df) start_date end_date in
    total_val (process_type_1 fmt (W := World)) (df_t1 filtered) w1 = (Ok v1, w1) /\
    total_val (process_type_2 fmt (W := World)) (df_t2 filtered) w1 = (Ok v2, w1) /\
    add v1 v2 = Ok raw /\
    settle raw rate = Ok s.
Proof.
  unfold settle_account. intros H. cbv zeta in H.
  io_step H. io_step H. io_step H. io_step H. io_step H.
  unfold io_ret in H. inversion H; subst.
  match goal with
  | Ha : audit_report _ _ _ ?sd ?ed _ _ _ = _ |- _ =>
      apply audit_report_settles in Ha;
      destruct Ha as (v1 & v2 & raw & wt & Hv1 & Hv2 & Hadd & Hs);
      exists sd, ed, v1, v2, raw, wt
  end.
  simpl. auto.
Qed.

(** A run that reaches its end returns a settlement that the chain
    produced, at the rate of the rate source. *)
Lemma main_settles (r : Run N) w s w' :
  main fmt to_datetime_text r w = (Ok s, w') ->
  exists rate raw w0 w1,
    bcv_rate fmt r w0 = (Ok rate, w1) /\ settle raw rate = Ok s.
Proof.
  unfold main. intros H.
  io_step H. io_step H. io_step H.
  apply settle_account_settles in H.
  destruct H as (sd & ed & v1 & v2 & raw & wt & _ & _ & _ & Hs).
  eauto 10.
Qed.

End MainFacts.

Module ScenarioFacts.
Import Scenario.

Lemma exact_scenario :
  settle (of_int 100 : Qc) (of_int 36) = Ok exact_figures.
Proof.
  rewrite ExactSettlement.settle_exact.
  - unfold ExactArith.figures, exact_figures. f_equal.
    f_equal; try reflexivity; apply ExactSettlement.Qc_decide; vm_compute; reflexivity.
  - intros Heq. apply (f_equal this) in Heq. vm_compute in Heq. discriminate Heq.
Qed.

Lemma float_scenario :
  settle (PyFloat (Float64.of_Z 100)) (of_decimal 360 1) = Ok float_figures.
Proof. vm_compute. reflexivity. Qed.

Lemma owner_usd_float_close :
  within owner_usd_float 12312 2 (1 # 10 ^ 13) = true.
Proof. vm_compute. reflexivity. Qed.

End ScenarioFacts.

(** C1. The settlement chain: each figure is the stated operation on the
    figures before it, in every arithmetic; the script applies the chain
    once, to the sum of the two valuation totals; in exact arithmetic the
    figures are the stated products and quotients for every non-zero rate,
    and on Python's floats the chain returns for every rate that is not zero.
    For 100 USD at the rate 36.0 the figures are 75.00, 7.50, 67.50, 65.664,
    492.48, 4432.32, 13.68 and 123.12: exactly so in exact arithmetic, and on
    Python's floats as the floats of these decimals, the last one within
    10^-13 of 123.12. *)
Theorem settlement_chain :
  (forall (N : Type) (num : PyNum N) (raw rate : N) (s : Settlement N),
      settle raw rate = Ok s ->
      total_raw_usd s = raw /\ official_rate s = rate /\
      mul raw LIQUIDATION_RATE = Ok (total_usdt s) /\
      mul (total_usdt s) SERVICE_FEE_RATE = Ok (comm_usdt s) /\
      sub (total_usdt s) (comm_usdt s) = Ok (owner_usdt s) /\
      mul rate SPREAD_FACTOR = Ok (market_rate s) /\
      mul (comm_usdt s) (market_rate s) = Ok (comm_ves s) /\
      mul (owner_usdt s) (market_rate s) = Ok (owner_ves s) /\
      div (comm_ves s) rate = Ok (comm_purchasing_usd s) /\
      div (owner_ves s) rate = Ok (owner_purchasing_usd s)) /\
  (forall (N : Type) (num : PyNum N) (fmt : Format N) (rate : N) account
          start_date end_date (t1 t2 : list (Row N)) w s w',
      audit_report fmt rate account start_date end_date t1 t2 w = (Ok s, w') ->
      exists v1 v2 raw w1,
        total_val (process_type_1 fmt (W := World)) t1 w1 = (Ok v1, w1) /\
        total_val (process_type_2 fmt (W := World)) t2 w1 = (Ok v2, w1) /\
        add v1 v2 = Ok raw /\ settle raw rate = Ok s) /\
  (forall raw rate : Qc,
      rate <> 0%Qc ->
      settle raw rate = Ok (ExactArith.figures raw rate)) /\
  (forall (raw : pynum) (fr rate : spec_float),
      PyNumber.to_float raw = Ok fr ->
      Float64.is_zero rate = false ->
      exists s, settle raw (PyFloat rate) = Ok s) /\
  settle (of_int 100 : Qc) (of_int 36) = Ok Scenario.exact_figures /\
  settle (PyFloat (Float64.of_Z 100)) (of_decimal 360 1) = Ok Scenario.float_figures /\
  Scenario.within Scenario.owner_usd_float 12312 2 (1 # 10 ^ 13) = true.
Proof.
  split; [| split; [| split; [| split; [| split; [| split]]]]].
  - intros N num raw rate s Hs. apply settle_chain in Hs.
    destruct Hs. repeat split; assumption.
  - intros N num fmt rate account start_date end_date t1 t2 w s w' Hrun.
    exact (audit_report_settles _ _ _ _ _ _ _ _ Hrun).
  - exact ExactSettlement.settle_exact.
  - exact PyFacts.settle_returns.
  - exact ScenarioFacts.exact_scenario.
  - exact ScenarioFacts.float_scenario.
  - exact ScenarioFacts.owner_usd_float_close.
Qed.

Lemma settlement_chain_witness :
  settle (PyFloat (Float64.of_Z 100)) (of_decimal 360 1) = Ok Scenario.float_figures /\
  mul (owner_usdt Scenario.float_figures) (market_rate Scenario.float_figures)
    = Ok (owner_ves Scenario.float_figures) /\
  settle (of_int 100 : Qc) (of_int 36)
    = Ok (ExactArith.figures (of_int 100) (of_int 36)).
Proof.
  split; [vm_compute; reflexivity |]. split.
  - apply (proj1 settlement_chain pynum _ (PyFloat (Float64.of_Z 100))
             (of_decimal 360 1) Scenario.float_figures).
    vm_compute. reflexivity.
  - apply (proj1 (proj2 (proj2 settlement_chain))).
    intros Heq. apply (f_equal this) in Heq. vm_compute in Heq. discriminate Heq.
Defined.

(** ** Invariants of a run's settlement *)

(** C3. In the settlement of every run that reaches its end, the owner's
    VES divided by the official rate is the owner's USD equivalent (in every
    arithmetic) and, in exact arithmetic, commission plus owner's share is
    the liquidated total. *)
Theorem settlement_invariants :
  (forall (N : Type) (num : PyNum N) (fmt : Format N)
          (to_datetime_text : string -> string + timestamp)
          (r : Run N) (w w' : World) (s : Settlement N),
      main fmt to_datetime_text r w = (Ok s, w') ->
      div (owner_ves s) (official_rate s) = Ok (owner_purchasing_usd s)) /\
  (forall (fmt : Format Qc) (to_datetime_text : string -> string + timestamp)
          (r : Run Qc) (w w' : World) (s : Settlement Qc),
      main fmt to_datetime_text r w = (Ok s, w') ->
      (comm_usdt s + owner_usdt s = total_usdt s)%Qc /\
      official_rate s <> 0%Qc /\
      (owner_ves s / official_rate s = owner_purchasing_usd s)%Qc).
Proof.
  split.
  - intros N num fmt to_datetime_text r w w' s Hrun.
    apply main_settles in Hrun.
    destruct Hrun as (rate & raw & w0 & w1 & _ & Hs).
    apply settle_chain in Hs. destruct Hs as [_ Hrate _ _ _ _ _ _ _ Hdiv].
    rewrite Hrate. exact Hdiv.
  - intros fmt to_datetime_text r w w' s Hrun.
    apply main_settles in Hrun.
    destruct Hrun as (rate & raw & w0 & w1 & _ & Hs).
    apply ExactSettlement.settle_exact_inv in Hs. destruct Hs as [Hrate Hs].
    subst s. unfold ExactArith.figures.
    cbn [comm_usdt owner_usdt total_usdt official_rate owner_ves owner_purchasing_usd].
    split; [ring |]. split; [exact Hrate | reflexivity].
Qed.

Lemma settlement_invariants_witness :
  exists (s : Settlement Qc) (w' : World),
    main (Sample.plain_format Qc) Sample.parse_day (Sample.run (of_int 36))
         initial_world = (Ok s, w') /\
    (comm_usdt s + owner_usdt s = total_usdt s)%Qc /\
    div (owner_ves s) (official_rate s) = Ok (owner_purchasing_usd s).
Proof.
  eexists. eexists. split; [vm_compute; reflexivity |]. split.
  - refine (proj1 (proj2 settlement_invariants (Sample.plain_format Qc)
                     Sample.parse_day (Sample.run (of_int 36)) initial_world _ _ _)).
    vm_compute. reflexivity.
  - refine (proj1 settlement_invariants Qc _ (Sample.plain_format Qc)
              Sample.parse_day (Sample.run (of_int 36)) initial_world _ _ _).
    vm_compute. reflexivity.
Defined.

(** ** Purchasing power and the official rate *)

(** On Python's floats the purchasing-power figures are not the USDT
    figures times 1.824, and they change with the rate. At 100 USD and the
    rate 36.0 the owner's figure is the float below 123.12 while the product
    is the float of 123.12; at the smallest positive rate, 5e-324, the
    commission's figure is 15.0 while the product is 13.68. *)
Lemma purchasing_power_float_counterexample :
  let raw := PyFloat (Float64.of_Z 100) in
  let smallest := PyFloat (S754_finite false 1 (-1074)) in
  (exists s : Settlement pynum,
      settle raw (of_decimal 360 1) = Ok s /\
      mul (owner_usdt s) SPREAD_FACTOR = Ok (of_decimal 12312 2) /\
      owner_purchasing_usd s = PyFloat Scenario.owner_usd_float /\
      owner_purchasing_usd s <> of_decimal 12312 2) /\
  (exists s : Settlement pynum,
      settle raw smallest = Ok s /\
      mul (comm_usdt s) SPREAD_FACTOR = Ok (of_decimal 1368 2) /\
      comm_purchasing_usd s = of_decimal 150 1) /\
  ~ (forall (raw rate : pynum) (s : Settlement pynum),
        num_eqb rate (of_int 0) = false ->
        settle raw rate = Ok s ->
        mul (comm_usdt s) SPREAD_FACTOR = Ok (comm_purchasing_usd s) /\
        mul (owner_usdt s) SPREAD_FACTOR = Ok (owner_purchasing_usd s)).
Proof.
  intros raw smallest. split; [| split].
  - eexists. split; [vm_compute; reflexivity |].
    split; [vm_compute; reflexivity |]. split; [vm_compute; reflexivity |].
    vm_compute. intros Heq. discriminate Heq.
  - eexists. split; [vm_compute; reflexivity |].
    split; vm_compute; reflexivity.
  - intros Hall.
    destruct (Hall raw (of_decimal 360 1) Scenario.float_figures) as [_ Howner].
    + vm_compute. reflexivity.
    + vm_compute. reflexivity.
    + vm_compute in Howner. discriminate Howner.
Qed.

(** C10, in exact arithmetic. For every non-zero official rate the run's
    purchasing-power figures are the USDT figures times 1.824, and they are
    the same at every other non-zero rate. *)
Theorem purchasing_power_independent_of_rate :
  forall raw rate : Qc,
    rate <> 0%Qc ->
    exists s : Settlement Qc,
      settle raw rate = Ok s /\
      (comm_purchasing_usd s = comm_usdt s * of_decimal 1824 3)%Qc /\
      (owner_purchasing_usd s = owner_usdt s * of_decimal 1824 3)%Qc /\
      forall rate' : Qc,
        rate' <> 0%Qc ->
        exists s' : Settlement Qc,
          settle raw rate' = Ok s' /\
          comm_usdt s' = comm_usdt s /\
          owner_usdt s' = owner_usdt s /\
          comm_purchasing_usd s' = comm_purchasing_usd s /\
          owner_purchasing_usd s' = owner_purchasing_usd s.
Proof.
  intros raw rate Hrate.
  exists (ExactArith.figures raw rate).
  split; [apply ExactSettlement.settle_exact; exact Hrate |].
  unfold ExactArith.figures at 1 2 3 4.
  cbn [comm_usdt owner_usdt comm_purchasing_usd owner_purchasing_usd].
  split; [apply ExactSettlement.spread_cancels; exact Hrate |].
  split; [apply ExactSettlement.spread_cancels; exact Hrate |].
  intros rate' Hrate'.
  exists (ExactArith.figures raw rate').
  split; [apply ExactSettlement.settle_exact; exact Hrate' |].
  unfold ExactArith.figures.
  cbn [comm_usdt owner_usdt comm_purchasing_usd owner_purchasing_usd].
  split; [reflexivity |]. split; [reflexivity |].
  rewrite !ExactSettlement.spread_cancels by assumption.
  split; reflexivity.
Qed.

Lemma purchasing_power_independent_of_rate_witness :
  (of_int 36 : Qc) <> 0%Qc /\
  exists s : Settlement Qc,
    settle (of_int 100) (of_int 36) = Ok s /\
    (owner_purchasing_usd s = owner_usdt s * of_decimal 1824 3)%Qc.
Proof.
  assert (Hrate : (of_int 36 : Qc) <> 0%Qc).
  { intros Heq. apply (f_equal this) in Heq. vm_compute in Heq. discriminate Heq. }
  split; [exact Hrate |].
  destruct (purchasing_power_independent_of_rate (of_int 100) Hrate)
    as (s & Hs & _ & Howner & _).
  exists s. split; assumption.
Defined.


(** ** The denylist *)

Section DenylistFacts.
Context {N : Type} {num : PyNum N}.
Local Open Scope string_scope.

Lemma isin_ignored (r : Row N) :
  isin (description r) ignored_entries = true <-> denylisted r.
Proof.
  unfold isin, ignored_entries, denylisted. simpl.
  rewrite !orb_true_iff, !String.eqb_eq. intuition discriminate.
Qed.

Lemma isin_not_ignored (r : Row N) :
  isin (description r) ignored_entries = false <-> ~ denylisted r.
Proof.
  rewrite <- isin_ignored. destruct (isin _ _); split; intros H;
    try reflexivity; try discriminate; try (intros Hc; discriminate Hc).
  destruct H. reflexivity.
Qed.

Lemma df_clean_In (df : list (Row N)) (r : Row N) :
  In r (df_clean df) <-> In r df /\ ~ denylisted r.
Proof.
  unfold df_clean. rewrite filter_In, negb_true_iff, isin_not_ignored. tauto.
Qed.

Lemma df_clean_cons (r : Row N) (df : list (Row N)) :
  df_clean (r :: df) =
  if isin (description r) ignored_entries then df_clean df else r :: df_clean df.
Proof.
  unfold df_clean. cbn [filter].
  destruct (isin (description r) ignored_entries); reflexivity.
Qed.

Lemma df_clean_cleaned (df : list (Row N)) : cleaned df (df_clean df).
Proof.
  induction df as [| r df IH].
  - constructor.
  - rewrite df_clean_cons.
    destruct (isin (description r) ignored_entries) eqn:Hin.
    + apply cleaned_drop; [apply isin_ignored; exact Hin | exact IH].
    + apply cleaned_keep; [apply isin_not_ignored; exact Hin | exact IH].
Qed.

Lemma cleaned_unique (df out : list (Row N)) :
  cleaned df out -> out = df_clean df.
Proof.
  induction 1 as [| r df out Hr _ IH | r df out Hr _ IH].
  - reflexivity.
  - rewrite df_clean_cons. apply isin_ignored in Hr. rewrite Hr. exact IH.
  - rewrite df_clean_cons. apply isin_not_ignored in Hr. rewrite Hr.
    f_equal. exact IH.
Qed.

Lemma df_clean_drops (before after : list (Row N)) (r : Row N) :
  denylisted r -> df_clean (before ++ r :: after) = df_clean (before ++ after).
Proof.
  intros Hr. unfold df_clean. rewrite !filter_app. f_equal.
  change (df_clean (r :: after) = df_clean after).
  rewrite df_clean_cons. apply isin_ignored in Hr. rewrite Hr. reflexivity.
Qed.

End DenylistFacts.

(** C6. A row whose description is one of the three denylisted strings is
    not in the cleaned frame, whatever its date and platform, and everything
    the script does after loading (filtering, grouping, the valuation totals,
    the settlement and the report) is the same as if the row were not in the
    file; the cleaned frame is the rows that are not denylisted, in their
    original order. *)
Theorem denylisted_rows_excluded :
  forall (N : Type) (num : PyNum N) (fmt : Format N)
         (to_datetime_text : string -> string + timestamp)
         (r : Run N) (rate : N) (file : string),
    (forall (before after : list (Row N)) (row : Row N),
        denylisted row ->
        ~ In row (df_clean (before ++ row :: after)) /\
        df_clean (before ++ row :: after) = df_clean (before ++ after) /\
        settle_account fmt to_datetime_text r rate file (before ++ row :: after) =
          settle_account fmt to_datetime_text r rate file (before ++ after)) /\
    (forall df : list (Row N),
        cleaned df (df_clean df) /\
        (forall out, cleaned df out -> out = df_clean df) /\
        (forall row, In row (df_clean df) <-> In row df /\ ~ denylisted row)).
Proof.
  intros N num fmt to_datetime_text r rate file. split.
  - intros before after row Hrow. split; [| split].
    + intros Hin. apply df_clean_In in Hin. destruct Hin as [_ Hnot].
      exact (Hnot Hrow).
    + apply df_clean_drops. exact Hrow.
    + unfold settle_account. rewrite (df_clean_drops before after Hrow).
      reflexivity.
  - intros df. split; [apply df_clean_cleaned |].
    split; [apply cleaned_unique | apply df_clean_In].
Qed.

Lemma denylisted_rows_excluded_witness :
  let row : Row pynum :=
    {| date := Some 2; description := "Punchcard"%string;
       platform := "Digital_Assets_Type_1"%string; amount := PyInt 900 |} in
  let other : Row pynum :=
    {| date := Some 1; description := "Survey"%string;
       platform := "Digital_Assets_Type_1"%string; amount := PyInt 50 |} in
  denylisted row /\
  df_clean ([other] ++ row :: [other]) = df_clean ([other] ++ [other]).
Proof.
  intros row other.
  assert (Hrow : denylisted row) by (left; reflexivity).
  split; [exact Hrow |].
  apply (proj1 (@denylisted_rows_excluded pynum _ (Sample.plain_format pynum)
                  Sample.parse_day (Sample.run (PyInt 36)) (PyInt 36) "acct_a.xlsx"%string)
           [other] [other] row Hrow).
Defined.

(** ** The date range *)

Section DateRange.
Context {N : Type} {num : PyNum N}.

Lemma df_filtered_In (clean : list (Row N)) (start_date end_date : timestamp) r :
  In r (df_filtered clean start_date end_date) <->
  In r clean /\
  exists d s e, date r = Some d /\ start_date = Some s /\ end_date = Some e /\
                s <= d <= e.
Proof.
  unfold df_filtered. rewrite filter_In, andb_true_iff. unfold ts_geb, ts_leb.
  split.
  - intros [Hin [Hge Hle]]. split; [exact Hin |].
    destruct (date r) as [d |], start_date as [s |], end_date as [e |];
      try discriminate.
    exists d, s, e. apply Z.leb_le in Hge. apply Z.leb_le in Hle. auto.
  - intros [Hin (d & s & e & Hd & Hs & He & Hsd & Hde)].
    rewrite Hd, Hs, He. split; [exact Hin |].
    split; apply Z.leb_le; assumption.
Qed.

End DateRange.

(** C4. Whatever the two dates, every row the filter keeps is a row of the
    cleaned frame dated within them, both of them dates; and with a start
    date that is not after the end date, the filter keeps every row of the
    cleaned frame dated within the two, the rows dated exactly [start_date]
    or exactly [end_date] among them. *)
Theorem date_filter_inclusive :
  forall (N : Type) (num : PyNum N) (clean : list (Row N)),
    (forall (start_date end_date : timestamp) (r : Row N),
        In r (df_filtered clean start_date end_date) ->
        In r clean /\
        exists d s e, date r = Some d /\ start_date = Some s /\
                      end_date = Some e /\ s <= d <= e) /\
    (forall (s e : Z) (r : Row N),
        s <= e ->
        In r clean ->
        date r = Some s \/ date r = Some e ->
        In r (df_filtered clean (Some s) (Some e))) /\
    (forall (s e d : Z) (r : Row N),
        In r clean ->
        date r = Some d ->
        s <= d <= e ->
        In r (df_filtered clean (Some s) (Some e))).
Proof.
  intros N num clean. split; [| split].
  - intros start_date end_date r Hin. apply df_filtered_In in Hin. exact Hin.
  - intros s e r Hse Hin Hdate. apply df_filtered_In. split; [exact Hin |].
    destruct Hdate as [Hd | Hd].
    + exists s, s, e. repeat split; auto; lia.
    + exists e, s, e. repeat split; auto; lia.
  - intros s e d r Hin Hd Hrange. apply df_filtered_In. split; [exact Hin |].
    exists d, s, e. repeat split; auto; lia.
Qed.

Lemma date_filter_inclusive_witness :
  let r : Row pynum :=
    {| date := Some 1; description := "Survey"%string;
       platform := "Digital_Assets_Type_1"%string; amount := PyInt 50 |} in
  1 <= 2 /\ In r [r] /\ In r (df_filtered [r] (Some 1) (Some 2)) /\
  exists d s e, date r = Some d /\ Some 1 = Some s /\ Some 2 = Some e /\
                s <= d <= e.
Proof.
  intros r.
  assert (Hin : In r [r]) by (left; reflexivity).
  assert (Hkept : In r (df_filtered [r] (Some 1) (Some 2))).
  { apply (proj1 (proj2 (@date_filter_inclusive pynum _ [r])) 1 2 r);
      [lia | exact Hin | left; reflexivity]. }
  split; [lia |]. split; [exact Hin |]. split; [exact Hkept |].
  exact (proj2 (proj1 (@date_filter_inclusive pynum _ [r]) (Some 1) (Some 2) r
                  Hkept)).
Defined.


(** ** The stages before the report leave the report file alone *)

Section EarlyStages.
Context {N : Type} {num : PyNum N}.
Variable fmt : Format N.
Variable to_datetime_text : string -> string + timestamp.
Local Open Scope string_scope.

Lemma keeps_report_bind {A B} (c : io World A) (k : A -> io World B) :
  keeps_report c -> (forall a, keeps_report (k a)) -> keeps_report (io_bind c k).
Proof.
  intros Hc Hk w. unfold io_bind. specialize (Hc w).
  destruct (c w) as [[a | e] w1]; simpl in Hc.
  - rewrite Hk. exact Hc.
  - exact Hc.
Qed.

Lemma keeps_report_ret {A} (a : A) : keeps_report (io_ret a).
Proof. intros w. reflexivity. Qed.

Lemma keeps_report_lift {A} (r : result A) : keeps_report (io_lift r).
Proof. intros w. reflexivity. Qed.

Lemma keeps_report_say text : keeps_report (say text).
Proof. intros w. reflexivity. Qed.

Lemma keeps_report_prompt text : keeps_report (prompt text).
Proof. intros w. reflexivity. Qed.

Lemma keeps_report_exit {A} : keeps_report (@sys_exit A).
Proof. intros w. reflexivity. Qed.

Create HintDb report.
Hint Resolve keeps_report_ret keeps_report_lift keeps_report_say
  keeps_report_prompt keeps_report_exit : report.

Ltac keeps :=
  repeat (apply keeps_report_bind; [| intros ?]); auto with report.

Lemma keeps_report_bcv_rate (r : Run N) : keeps_report (bcv_rate fmt r).
Proof. unfold bcv_rate. destruct (get_rate r); keeps. Qed.

Lemma keeps_report_list_accounts files : forall i,
  keeps_report (list_accounts i files).
Proof.
  induction files as [| filename rest IH]; intros i; simpl.
  - auto with report.
  - apply keeps_report_bind; [auto with report | intros _; apply IH].
Qed.

Lemma keeps_report_data_selection (r : Run N) : keeps_report (data_selection r).
Proof.
  unfold data_selection.
  apply keeps_report_bind; [destruct (data_dir_exists r); keeps | intros _].
  apply keeps_report_bind; [destruct (files r); keeps | intros _].
  apply keeps_report_bind; [auto with report | intros _].
  apply keeps_report_bind; [apply keeps_report_list_accounts | intros _].
  apply keeps_report_bind; [auto with report | intros _].
  destruct (selected_file _ _); keeps.
Qed.

Lemma to_datetime_unparsable (raw : list (RawRow N)) :
  Exists (unparsable to_datetime_text) raw -> exists e, to_datetime to_datetime_text raw = inl e.
Proof.
  induction 1 as [row rest (text & e & Hcell & Hparse) | row rest _ IH]; simpl.
  - unfold to_datetime_cell. rewrite Hcell, Hparse. exists e. reflexivity.
  - destruct IH as [e He]. rewrite He.
    destruct (to_datetime_cell to_datetime_text (raw_date row)) as [e' | d].
    + exists e'. reflexivity.
    + exists e. reflexivity.
Qed.

Lemma to_datetime_parsed (raw : list (RawRow N)) (df : list (Row N)) :
  to_datetime to_datetime_text raw = inr df -> ~ Exists (unparsable to_datetime_text) raw.
Proof.
  intros Hok Hbad. apply to_datetime_unparsable in Hbad.
  destruct Hbad as [e He]. rewrite He in Hok. discriminate Hok.
Qed.

End EarlyStages.

(** C8. When the date column of the selected file holds a value that
    [pd.to_datetime] cannot parse, the run ends in [sys.exit()] right after
    printing the loading error, and the report file is as it was before the
    run: none is opened or written. *)
Theorem unparsable_date_is_fatal :
  forall (N : Type) (num : PyNum N) (fmt : Format N)
         (to_datetime_text : string -> string + timestamp)
         (r : Run N) (w w1 w2 : World) (rate : N) (file : string)
         (raw : list (RawRow N)),
    bcv_rate fmt r w = (Ok rate, w1) ->
    data_selection r w1 = (Ok file, w2) ->
    read_excel r file = inr raw ->
    Exists (unparsable to_datetime_text) raw ->
    exists e : string,
      main fmt to_datetime_text r w =
        (Raise SystemExit, print ("❌ Loading error: " ++ e) w2) /\
      report_file (print ("❌ Loading error: " ++ e) w2) = report_file w.
Proof.
  intros N num fmt to_datetime_text r w w1 w2 rate file raw Hrate Hsel Hread Hbad.
  destruct (to_datetime_unparsable Hbad) as [e He].
  exists e. split.
  - unfold main, io_bind. rewrite Hrate, Hsel.
    unfold load. rewrite Hread, He. reflexivity.
  - simpl.
    pose proof (keeps_report_bcv_rate fmt r w) as H1. rewrite Hrate in H1.
    pose proof (keeps_report_data_selection r w1) as H2. rewrite Hsel in H2.
    simpl in H1, H2. congruence.
Qed.

Lemma unparsable_date_is_fatal_witness :
  let fmt := Sample.plain_format pynum in
  let r := Sample.run_of (Ok 1) (inr Sample.bad_ledger) (PyInt 36) in
  let w1 := snd (bcv_rate fmt r initial_world) in
  let w2 := snd (data_selection r w1) in
  Exists (unparsable Sample.parse_day) (Sample.bad_ledger (N := pynum)) /\
  exists e : string,
    main fmt Sample.parse_day r initial_world =
      (Raise SystemExit, print ("❌ Loading error: " ++ e) w2) /\
    report_file (print ("❌ Loading error: " ++ e) w2) = report_file initial_world.
Proof.
  intros fmt r w1 w2.
  assert (Hbad : Exists (unparsable Sample.parse_day) (Sample.bad_ledger (N := pynum))).
  { unfold Sample.bad_ledger. apply Exists_app. right. apply Exists_cons_hd.
    exists "soon"%string. eexists. split; [reflexivity | vm_compute; reflexivity]. }
  split; [exact Hbad |].
  apply (@unparsable_date_is_fatal pynum _ fmt Sample.parse_day r initial_world
           w1 w2 (PyInt 36) "acct_a.xlsx"%string Sample.bad_ledger).
  - vm_compute. reflexivity.
  - vm_compute. reflexivity.
  - reflexivity.
  - exact Hbad.
Defined.

(** ** The account selection *)

Section Selection.
Context {N : Type} {num : PyNum N}.
Local Open Scope string_scope.

Lemma list_index_Ok {A : Type} (l : list A) (i : Z) (x : A) :
  list_index l i = Ok x <->
  (0 <= i < Z.of_nat (List.length l) /\ nth_error l (Z.to_nat i) = Some x) \/
  (- Z.of_nat (List.length l) <= i < 0 /\
   nth_error l (Z.to_nat (i + Z.of_nat (List.length l))) = Some x).
Proof.
  unfold list_index.
  destruct (Z.ltb_spec i 0) as [Hneg | Hpos].
  - destruct (Z.leb_spec 0 (i + Z.of_nat (List.length l))) as [Hlo | Hlo]; simpl.
    + destruct (Z.ltb_spec (i + Z.of_nat (List.length l)) (Z.of_nat (List.length l)))
        as [Hhi | Hhi]; [| lia].
      destruct (nth_error l (Z.to_nat (i + Z.of_nat (List.length l)))) as [y |] eqn:Hn.
      * split.
        -- intros Heq. inversion Heq; subst. right. split; [lia | reflexivity].
        -- intros [[Hc _] | [_ Heq]]; [lia | inversion Heq; reflexivity].
      * split; [discriminate |].
        intros [[Hc _] | [_ Heq]]; [lia | discriminate Heq].
    + split; [discriminate |]. intros [[Hc _] | [Hc _]]; lia.
  - destruct (Z.leb_spec 0 i) as [_ | Hc]; [| lia]. simpl.
    destruct (Z.ltb_spec i (Z.of_nat (List.length l))) as [Hhi | Hhi].
    + destruct (nth_error l (Z.to_nat i)) as [y |] eqn:Hn.
      * split.
        -- intros Heq. inversion Heq; subst. left. split; [lia | reflexivity].
        -- intros [[_ Heq] | [Hc _]]; [inversion Heq; reflexivity | lia].
      * split; [discriminate |].
        intros [[_ Heq] | [Hc _]]; [discriminate Heq | lia].
    + split; [discriminate |]. intros [[Hc _] | [Hc _]]; lia.
Qed.

(** The selections the script accepts: from [1 - n] to [n] for [n] listed
    files, not only from 1 to [n]. *)
Lemma selected_file_accepts (files : list string) (choice : Z) :
  (exists file, selected_file files (Ok choice) = Ok file) <->
  1 - Z.of_nat (List.length files) <= choice <= Z.of_nat (List.length files).
Proof.
  unfold selected_file, rbind. split.
  - intros [file Hsel]. apply list_index_Ok in Hsel.
    destruct Hsel as [[Hr _] | [Hr _]]; lia.
  - intros Hr. destruct (Z.ltb_spec (choice - 1) 0) as [Hneg | Hpos].
    + destruct (nth_error files (Z.to_nat (choice - 1 + Z.of_nat (List.length files))))
        as [file |] eqn:Hn.
      * exists file. apply list_index_Ok. right. split; [lia | exact Hn].
      * apply nth_error_None in Hn. lia.
    + destruct (nth_error files (Z.to_nat (choice - 1))) as [file |] eqn:Hn.
      * exists file. apply list_index_Ok. left. split; [lia | exact Hn].
      * apply nth_error_None in Hn. lia.
Qed.

(** A selection from 1 to [n] takes the file listed under that number. *)
Lemma selected_file_listed (files : list string) (choice : Z) (file : string) :
  1 <= choice <= Z.of_nat (List.length files) ->
  (selected_file files (Ok choice) = Ok file <->
   nth_error files (Z.to_nat (choice - 1)) = Some file).
Proof.
  intros Hr. unfold selected_file, rbind. rewrite list_index_Ok. split.
  - intros [[_ Hn] | [Hc _]]; [exact Hn | lia].
  - intros Hn. left. split; [lia | exact Hn].
Qed.

(** A selection the script refuses ends the run: the message, then
    [sys.exit()], with the report file untouched. *)
Lemma list_accounts_returns (files : list string) : forall (i : nat) (w : World),
  exists w', list_accounts i files w = (Ok tt, w').
Proof.
  induction files as [| filename rest IH]; intros i w; simpl.
  - exists w. reflexivity.
  - unfold io_bind, say, io_do. apply IH.
Qed.

Lemma refused_selection_exits (r : Run N) (w : World) (e : exn) :
  data_dir_exists r = true ->
  files r <> [] ->
  selected_file (files r) (choice_input r) = Raise e ->
  exists w1,
    data_selection r w = (Raise SystemExit, print "❌ Invalid selection." w1) /\
    report_file (print "❌ Invalid selection." w1) = report_file w.
Proof.
  intros Hdir Hfiles Hsel.
  unfold data_selection. rewrite Hdir, Hsel.
  destruct (files r) as [| f rest] eqn:Hf; [destruct Hfiles; reflexivity |].
  cbv beta iota delta [io_bind io_ret say prompt io_do sys_exit io_lift].
  set (w0 := print (nl ++ "--- Available Accounts for Settlement ---") w).
  destruct (list_accounts_returns (f :: rest) 1 w0) as [w1 Hlist].
  pose proof (keeps_report_list_accounts (f :: rest) 1 w0) as Hkeep.
  rewrite Hlist in *. simpl in Hkeep.
  eexists. split; [reflexivity |].
  simpl. exact Hkeep.
Qed.

End Selection.

(** C5 on the code. With two files listed, the selection 0 is not refused:
    it takes the last file, the run goes on to its end and writes that
    account's report; the selection -1 takes the first file. *)
Theorem selection_zero_is_accepted :
  let fmt := Sample.plain_format pynum in
  let r := Sample.run_of (Ok 0) (inr Sample.ledger) (PyInt 36) in
  files r = ["acct_a.xlsx"; "acct_b.xlsx"]%string /\
  selected_file (files r) (Ok 0) = Ok "acct_b.xlsx"%string /\
  selected_file (files r) (Ok (-1)) = Ok "acct_a.xlsx"%string /\
  exists s w',
    main fmt Sample.parse_day r initial_world = (Ok s, w') /\
    exists written,
      report_file w' = Some ("Settlement_ACCT_B_1.txt"%string, written).
Proof.
  intros fmt r. split; [reflexivity |]. split; [reflexivity |].
  split; [reflexivity |].
  eexists. eexists. split; [vm_compute; reflexivity |].
  eexists. reflexivity.
Qed.

(** ** Sorting *)

Section SortFacts.
Variable V : Type.
Variable before : V -> V -> bool.
Hypothesis before_total : forall x y, before x y = false -> before y x = true.
Hypothesis before_trans :
  forall x y z, before x y = true -> before y z = true -> before x z = true.

Lemma insert_by_Permutation (x : V) (l : list V) :
  Permutation (insert_by before x l) (x :: l).
Proof.
  induction l as [| y rest IH]; simpl.
  - apply Permutation_refl.
  - destruct (before x y).
    + apply Permutation_refl.
    + apply perm_trans with (y :: x :: rest).
      * apply perm_skip. exact IH.
      * apply perm_swap.
Qed.

Lemma sort_by_Permutation (l : list V) : Permutation (sort_by before l) l.
Proof.
  induction l as [| x rest IH]; simpl.
  - apply perm_nil.
  - apply perm_trans with (x :: sort_by before rest).
    + apply insert_by_Permutation.
    + apply perm_skip. exact IH.
Qed.

Lemma insert_by_sorted (x : V) (l : list V) :
  StronglySorted (fun a b => before a b = true) l ->
  StronglySorted (fun a b => before a b = true) (insert_by before x l).
Proof.
  induction 1 as [| y rest Hsorted IH Hy]; simpl.
  - constructor; constructor.
  - destruct (before x y) eqn:Hxy.
    + constructor.
      * constructor; assumption.
      * constructor; [exact Hxy |].
        apply Forall_impl with (2 := Hy). intros z Hyz.
        apply before_trans with y; assumption.
    + constructor; [exact IH |].
      apply Permutation_Forall with (x :: rest).
      * apply Permutation_sym. apply insert_by_Permutation.
      * constructor; [apply before_total; exact Hxy | exact Hy].
Qed.

Lemma sort_by_sorted (l : list V) :
  StronglySorted (fun a b => before a b = true) (sort_by before l).
Proof.
  induction l as [| x rest IH]; simpl.
  - constructor.
  - apply insert_by_sorted. exact IH.
Qed.

End SortFacts.

Section PairFacts.
Variable V : Type.

(** A symmetric relation that holds between the elements of a list taken
    two by two still does after the list is permuted. *)
Lemma ForallOrdPairs_Permutation (R : V -> V -> Prop) (l l' : list V) :
  (forall a b, R a b -> R b a) ->
  Permutation l l' -> ForallOrdPairs R l -> ForallOrdPairs R l'.
Proof.
  intros Hsym Hperm. induction Hperm as [| x l l' Hperm IH | x y l | l l' l'' _ IH1 _ IH2];
    intros Hl.
  - exact Hl.
  - inversion Hl as [| a k Hx Hk]; subst. constructor.
    + apply Permutation_Forall with l; assumption.
    + apply IH. exact Hk.
  - inversion Hl as [| a k Hy Hk]; subst.
    inversion Hk as [| a k' Hx Hk']; subst.
    inversion Hy as [| a k'' Hyx Hyl]; subst.
    constructor.
    + constructor; [apply Hsym; exact Hyx | exact Hx].
    + constructor; assumption.
  - apply IH2. apply IH1. exact Hl.
Qed.

Lemma ForallOrdPairs_map {U : Type} (f : U -> V) (R : V -> V -> Prop) (l : list U) :
  ForallOrdPairs (fun a b => R (f a) (f b)) l -> ForallOrdPairs R (map f l).
Proof.
  induction 1 as [| a l Ha _ IH]; simpl; constructor.
  - apply Forall_map. exact Ha.
  - exact IH.
Qed.

Lemma StronglySorted_and (R Q : V -> V -> Prop) (l : list V) :
  StronglySorted R l -> ForallOrdPairs Q l ->
  StronglySorted (fun a b => R a b /\ Q a b) l.
Proof.
  induction 1 as [| a l _ IH Ha]; intros Hq.
  - constructor.
  - inversion Hq as [| b k Hqa Hk]; subst. constructor.
    + apply IH. exact Hk.
    + rewrite Forall_forall in *. intros x Hx. split; auto.
Qed.

Lemma StronglySorted_map {U : Type} (f : U -> V) (R : V -> V -> Prop) (l : list U) :
  StronglySorted (fun a b => R (f a) (f b)) l -> StronglySorted R (map f l).
Proof.
  induction 1 as [| a l _ IH Ha]; simpl; constructor.
  - exact IH.
  - apply Forall_map. exact Ha.
Qed.

End PairFacts.

(** ** Counting values *)

Section TallyFacts.
Variable V : Type.
Variable na : V -> bool.
Variable eqb : V -> V -> bool.
Context {laws : KeyEq na eqb}.

Lemma key_trans_false x y z :
  eqb x y = true -> eqb x z = false -> eqb y z = false.
Proof.
  intros Hxy Hxz. destruct (eqb y z) eqn:Hyz; [| reflexivity].
  rewrite (key_trans _ _ _ Hxy Hyz) in Hxz. discriminate Hxz.
Qed.

Lemma count_in_bump (x : V) (tbl : list (V * Z)) (v : V) :
  count_in eqb (bump eqb x tbl) v = count_in eqb tbl v + one_if (eqb v x).
Proof.
  unfold count_in. induction tbl as [| [k n] rest IH]; simpl.
  - rewrite (key_sym x v). destruct (eqb v x); reflexivity.
  - destruct (eqb k x) eqn:Hkx; simpl.
    + destruct (eqb k v) eqn:Hkv; simpl.
      * rewrite (key_sym k v) in Hkv.
        rewrite (key_trans _ _ _ Hkv Hkx). reflexivity.
      * rewrite (key_sym v x), (key_trans_false Hkx Hkv). simpl. lia.
    + destruct (eqb k v) eqn:Hkv; simpl.
      * rewrite (key_trans_false Hkv Hkx). simpl. lia.
      * exact IH.
Qed.

Lemma occurrences_cons (v x : V) (s : list V) :
  occurrences na eqb v (x :: s) = one_if (negb (na x) && eqb v x) + occurrences na eqb v s.
Proof.
  unfold occurrences. simpl.
  destruct (negb (na x) && eqb v x); simpl List.length; unfold one_if; lia.
Qed.

Lemma count_in_fold (s : list V) : forall (tbl : list (V * Z)) (v : V),
  count_in eqb (fold_left (fun tbl v => if na v then tbl else bump eqb v tbl) s tbl) v
  = count_in eqb tbl v + occurrences na eqb v s.
Proof.
  induction s as [| x s IH]; intros tbl v; simpl fold_left.
  - unfold occurrences. simpl. lia.
  - rewrite IH, occurrences_cons. destruct (na x); simpl.
    + lia.
    + rewrite count_in_bump. lia.
Qed.

Lemma count_in_tally (s : list V) (v : V) :
  count_in eqb (tally na eqb s) v = occurrences na eqb v s.
Proof. unfold tally. rewrite count_in_fold. reflexivity. Qed.

Lemma bump_In_fst (x : V) (tbl : list (V * Z)) (q : V * Z) :
  In q (bump eqb x tbl) -> fst q = x \/ In (fst q) (map fst tbl).
Proof.
  induction tbl as [| [k n] rest IH]; simpl.
  - intros [Hq | []]. left. subst q. reflexivity.
  - destruct (eqb k x).
    + intros [Hq | Hq].
      * right. left. subst q. reflexivity.
      * right. right. apply in_map. exact Hq.
    + intros [Hq | Hq].
      * right. left. subst q. reflexivity.
      * destruct (IH Hq) as [Hx | Hin]; [left; exact Hx | right; right; exact Hin].
Qed.

Lemma table_ok_bump (x : V) (tbl : list (V * Z)) :
  na x = false -> table_ok na eqb tbl -> table_ok na eqb (bump eqb x tbl).
Proof.
  intros Hx. unfold table_ok.
  induction tbl as [| [k n] rest IH]; intros [Hkeys Hpairs]; simpl.
  - split; constructor; auto. split; simpl; [exact Hx | lia].
  - inversion Hkeys as [| p l [Hk Hn] Hrest]; subst.
    inversion Hpairs as [| p l Hhead Htail]; subst. simpl in Hk, Hn.
    destruct (eqb k x) eqn:Hkx.
    + split.
      * constructor; [split; simpl; [exact Hk | lia] | exact Hrest].
      * constructor; [exact Hhead | exact Htail].
    + destruct (IH (conj Hrest Htail)) as [Hkeys' Hpairs'].
      split.
      * constructor; [split; assumption | exact Hkeys'].
      * constructor; [| exact Hpairs'].
        apply Forall_forall. intros q Hq. simpl.
        apply bump_In_fst in Hq. destruct Hq as [Hq | Hq].
        -- rewrite Hq. exact Hkx.
        -- apply in_map_iff in Hq. destruct Hq as (q' & Hfst & Hq').
           rewrite Forall_forall in Hhead. rewrite <- Hfst.
           exact (Hhead q' Hq').
Qed.

Lemma table_ok_fold (s : list V) : forall tbl,
  table_ok na eqb tbl ->
  table_ok na eqb (fold_left (fun tbl v => if na v then tbl else bump eqb v tbl) s tbl).
Proof.
  induction s as [| x s IH]; intros tbl Hok; simpl.
  - exact Hok.
  - apply IH. destruct (na x) eqn:Hx; [exact Hok |].
    apply table_ok_bump; assumption.
Qed.

Lemma table_ok_tally (s : list V) : table_ok na eqb (tally na eqb s).
Proof. apply table_ok_fold. split; constructor. Qed.

Lemma count_in_member (tbl : list (V * Z)) (p : V * Z) :
  table_ok na eqb tbl -> In p tbl -> count_in eqb tbl (fst p) = snd p.
Proof.
  unfold table_ok, count_in.
  induction tbl as [| q rest IH]; intros [Hkeys Hpairs] Hin; [destruct Hin |].
  inversion Hkeys as [| q' l [Hq Hn] Hrest]; subst.
  inversion Hpairs as [| q' l Hhead Htail]; subst.
  simpl. destruct Hin as [Heq | Hin].
  - subst q. rewrite (key_refl _ Hq). reflexivity.
  - rewrite Forall_forall in Hhead. rewrite (Hhead p Hin).
    apply IH; [split; assumption | exact Hin].
Qed.

(** The table of a series: each key with the number of its occurrences. *)
Lemma tally_counts (s : list V) (p : V * Z) :
  In p (tally na eqb s) ->
  na (fst p) = false /\ 0 < snd p /\ snd p = occurrences na eqb (fst p) s.
Proof.
  intros Hin. pose proof (table_ok_tally s) as Hok.
  pose proof (count_in_member p Hok Hin) as Hcount.
  rewrite count_in_tally in Hcount.
  destruct Hok as [Hkeys _]. rewrite Forall_forall in Hkeys.
  destruct (Hkeys p Hin) as [Hna Hpos]. auto.
Qed.

(** Every value of the series that is not missing has its key. *)
Lemma tally_covers (s : list V) (x : V) :
  In x s -> na x = false ->
  exists p, In p (tally na eqb s) /\ eqb (fst p) x = true.
Proof.
  intros Hin Hx.
  assert (Hocc : 0 < occurrences na eqb x s).
  { unfold occurrences.
    assert (Hf : In x (filter (fun y => negb (na y) && eqb x y) s)).
    { apply filter_In. split; [exact Hin |].
      rewrite Hx. simpl. apply (key_refl (eqb := eqb)). exact Hx. }
    destruct (filter _ s); [destruct Hf | simpl; lia]. }
  rewrite <- count_in_tally in Hocc. unfold count_in in Hocc.
  destruct (find _ (tally na eqb s)) as [p |] eqn:Hfind; [| lia].
  apply find_some in Hfind. exists p. exact Hfind.
Qed.

End TallyFacts.

Section ValueCountsFacts.
Variable V : Type.
Variable na : V -> bool.
Variable eqb : V -> V -> bool.
Context {laws : KeyEq na eqb}.

(** A key of the table is a value of the series. *)
Lemma tally_sound (s : list V) (p : V * Z) :
  In p (tally na eqb s) ->
  exists x, In x s /\ na x = false /\ eqb (fst p) x = true.
Proof.
  intros Hin. destruct (tally_counts s p Hin) as (_ & Hpos & Hocc).
  rewrite Hocc in Hpos. unfold occurrences in Hpos.
  destruct (filter (fun x => negb (na x) && eqb (fst p) x) s) as [| x l] eqn:Hf.
  - simpl in Hpos. lia.
  - assert (Hx : In x (filter (fun x => negb (na x) && eqb (fst p) x) s))
      by (rewrite Hf; left; reflexivity).
    apply filter_In in Hx. destruct Hx as [Hx Hb].
    apply andb_true_iff in Hb. destruct Hb as [Hna Heq].
    apply negb_true_iff in Hna. exists x. auto.
Qed.

Lemma value_counts_Permutation (s : list V) :
  Permutation (value_counts na eqb s) (tally na eqb s).
Proof. apply sort_by_Permutation. Qed.

(** The pairs of [value_counts]: each value that is not missing once, with
    the number of its occurrences, the counts in descending order. *)
Lemma value_counts_spec (s : list V) :
  Forall (fun p => na (fst p) = false /\ 0 < snd p /\
                   snd p = occurrences na eqb (fst p) s)
         (value_counts na eqb s) /\
  StronglySorted (fun p q => snd q <= snd p) (value_counts na eqb s) /\
  ForallOrdPairs (fun p q => eqb (fst p) (fst q) = false) (value_counts na eqb s) /\
  (forall x, In x s -> na x = false ->
             exists p, In p (value_counts na eqb s) /\ eqb (fst p) x = true) /\
  (forall p, In p (value_counts na eqb s) ->
             exists x, In x s /\ na x = false /\ eqb (fst p) x = true).
Proof.
  pose proof (value_counts_Permutation s) as Hperm.
  split; [| split; [| split; [| split]]].
  - apply Forall_forall. intros p Hp.
    apply (tally_counts (laws := laws)).
    apply Permutation_in with (1 := Hperm). exact Hp.
  - assert (Hs : StronglySorted (fun p q => more_frequent p q = true)
                   (value_counts na eqb s)).
    { apply sort_by_sorted; unfold more_frequent.
      - intros x y Hxy. apply Z.leb_gt in Hxy. apply Z.leb_le. lia.
      - intros x y z Hxy Hyz. apply Z.leb_le in Hxy. apply Z.leb_le in Hyz.
        apply Z.leb_le. lia. }
    clear Hperm. induction Hs as [| p l _ IH Hp]; constructor.
    + exact IH.
    + apply Forall_impl with (2 := Hp). intros q Hq. apply Z.leb_le. exact Hq.
  - apply ForallOrdPairs_Permutation with (l := tally na eqb s).
    + intros a b Hab. rewrite key_sym. exact Hab.
    + apply Permutation_sym. exact Hperm.
    + exact (proj2 (table_ok_tally na eqb s)).
  - intros x Hx Hna. destruct (tally_covers s x Hx Hna) as (p & Hp & Heq).
    exists p. split; [| exact Heq].
    apply Permutation_in with (1 := Permutation_sym Hperm). exact Hp.
  - intros p Hp. apply tally_sound.
    apply Permutation_in with (1 := Hperm). exact Hp.
Qed.

End ValueCountsFacts.

#[export] Instance timestamp_KeyEq : KeyEq ts_isna ts_eqb.
Proof.
  constructor.
  - intros [x |] Hx; [apply Z.eqb_refl | discriminate Hx].
  - intros [x |] [y |]; simpl; try reflexivity. apply Z.eqb_sym.
  - intros [x |] [y |] [z |]; simpl; try discriminate.
    intros Hxy Hyz. apply Z.eqb_eq in Hxy. apply Z.eqb_eq in Hyz.
    apply Z.eqb_eq. congruence.
Qed.

#[export] Instance Qc_KeyEq : KeyEq (isna (N := Qc)) num_eqb.
Proof.
  constructor; simpl; unfold Qc_eq_bool.
  - intros x _. destruct (Qc_eq_dec x x) as [_ | Hne]; [reflexivity |].
    destruct Hne. reflexivity.
  - intros x y. destruct (Qc_eq_dec x y) as [Hxy | Hxy],
      (Qc_eq_dec y x) as [Hyx | Hyx]; try reflexivity;
      [destruct Hyx | destruct Hxy]; congruence.
  - intros x y z. destruct (Qc_eq_dec x y) as [Hxy | Hxy]; [| discriminate].
    destruct (Qc_eq_dec y z) as [Hyz | Hyz]; [| discriminate].
    destruct (Qc_eq_dec x z) as [Hxz | Hxz]; [reflexivity |].
    destruct Hxz. congruence.
Qed.

Lemma extended_eqb_eq (a b : PyNumber.extended) :
  PyNumber.extended_eqb a b = true <-> a = b.
Proof.
  destruct a as [p | s], b as [q | t]; simpl; split; intros H;
    try discriminate H.
  - apply Qc_eq_bool_correct in H. subst q. reflexivity.
  - inversion H; subst. unfold Qc_eq_bool.
    destruct (Qc_eq_dec q q) as [_ | Hne]; [reflexivity | destruct Hne; reflexivity].
  - apply Bool.eqb_prop in H. subst t. reflexivity.
  - inversion H; subst. apply Bool.eqb_reflx.
Qed.

(** Python's [==] is an equivalence on the numbers that are not NaN. *)
#[export] Instance pynum_KeyEq : KeyEq (isna (N := pynum)) num_eqb.
Proof.
  constructor; simpl; unfold PyNumber.py_eqb.
  - intros x Hx. destruct (PyNumber.value x) as [a |] eqn:Hv.
    + apply extended_eqb_eq. reflexivity.
    + destruct x as [n | []]; simpl in Hv, Hx; discriminate.
  - intros x y.
    destruct (PyNumber.value x) as [a |], (PyNumber.value y) as [b |];
      try reflexivity.
    destruct (PyNumber.extended_eqb a b) eqn:Hab.
    + apply extended_eqb_eq in Hab. subst b. symmetry.
      apply extended_eqb_eq. reflexivity.
    + destruct (PyNumber.extended_eqb b a) eqn:Hba; [| reflexivity].
      apply extended_eqb_eq in Hba. subst b.
      rewrite (proj2 (extended_eqb_eq a a) eq_refl) in Hab. discriminate Hab.
  - intros x y z.
    destruct (PyNumber.value x) as [a |], (PyNumber.value y) as [b |],
      (PyNumber.value z) as [c |]; try discriminate.
    intros Hab Hbc. apply extended_eqb_eq in Hab. apply extended_eqb_eq in Hbc.
    apply extended_eqb_eq. congruence.
Qed.

(** ** What the valuations print *)

Section Uniform.

Lemma smart_prints_app (a b : list string) (w : World) :
  smart_prints (a ++ b) w = smart_prints b (smart_prints a w).
Proof. unfold smart_prints. apply fold_left_app. Qed.

Lemma stdout_smart_prints (texts : list string) : forall w : World,
  stdout (smart_prints texts w) =
  (stdout w ++ map (fun text => (text ++ nl)%string) texts)%list.
Proof.
  induction texts as [| text rest IH]; intros w.
  - cbn [smart_prints fold_left map]. rewrite app_nil_r. reflexivity.
  - change (smart_prints (text :: rest) w)
      with (smart_prints rest (smart_print text w)).
    rewrite IH. cbn [map]. unfold smart_print, write_report, print, write_stdout.
    cbn [stdout]. rewrite <- app_assoc. reflexivity.
Qed.

Lemma uniform_ret {A} (a : A) : uniform (io_ret a).
Proof. exists (Ok a), []. intros w. reflexivity. Qed.

Lemma uniform_lift {A} (r : result A) : uniform (io_lift r).
Proof. exists r, []. intros w. reflexivity. Qed.

Lemma uniform_smart (text : string) : uniform (smart text).
Proof. exists (Ok tt), [text]. intros w. reflexivity. Qed.

Lemma uniform_emit (pf : printer World) (text : result string) :
  report_printer pf -> uniform (emit pf text).
Proof.
  intros [Hpf | Hpf]; subst pf; [apply uniform_ret |].
  destruct text as [s | e].
  - exists (Ok tt), [s]. intros w. rewrite emit_Some. reflexivity.
  - exists (Raise e), []. intros w. rewrite emit_Some. reflexivity.
Qed.

Lemma uniform_bind {A B} (c : io World A) (k : A -> io World B) :
  uniform c -> (forall a, uniform (k a)) -> uniform (io_bind c k).
Proof.
  intros (r & texts & Hc) Hk. destruct r as [a | e].
  - destruct (Hk a) as (r' & texts' & Hka).
    exists r', (texts ++ texts')%list. intros w. unfold io_bind.
    rewrite Hc, Hka, smart_prints_app. reflexivity.
  - exists (Raise e), texts. intros w. unfold io_bind. rewrite Hc. reflexivity.
Qed.

Lemma uniform_for_each {A S} (body : S -> A -> io World S) (l : list A) :
  (forall s a, uniform (body s a)) -> forall s, uniform (for_each body l s).
Proof.
  intros Hbody. induction l as [| a l IH]; intros s; cbn [for_each].
  - apply uniform_ret.
  - apply uniform_bind; [apply Hbody | exact IH].
Qed.

(** What a uniform computation prints is added to the console as it is,
    whatever was there. *)
Lemma uniform_printed {A} (c : io World A) (w : World) :
  uniform c -> stdout (snd (c w)) = (stdout w ++ printed c)%list.
Proof.
  intros (r & texts & Hc). unfold printed. rewrite !Hc. cbn [snd].
  rewrite !stdout_smart_prints. reflexivity.
Qed.

End Uniform.

Ltac uniform_steps Hpf :=
  repeat (apply uniform_bind; [| intros ?]);
  first [ apply uniform_emit; exact Hpf | apply uniform_lift
        | apply uniform_ret | apply uniform_smart ].

Section UniformScript.
Context {N : Type} {num : PyNum N}.
Variable fmt : Format N.

Lemma uniform_process_type_1 (counts types : list N) (pf : printer World) :
  report_printer pf -> uniform (process_type_1 fmt counts types pf).
Proof.
  intros Hpf. unfold process_type_1. apply uniform_bind.
  - apply uniform_for_each. intros [t_points t_tasks] [c t].
    unfold type_1_step. uniform_steps Hpf.
  - intros [t_points t_tasks]. uniform_steps Hpf.
Qed.

Lemma uniform_process_type_2 (counts types : list N) (pf : printer World) :
  report_printer pf -> uniform (process_type_2 fmt counts types pf).
Proof.
  intros Hpf. unfold process_type_2. apply uniform_bind.
  - apply uniform_for_each. intros [total_usd t_tasks] [c t].
    unfold type_2_step. uniform_steps Hpf.
  - intros [total_usd t_tasks]. uniform_steps Hpf.
Qed.

Lemma amounts_on_rows_dated (df : list (Row N)) (d : Z) :
  amounts_on df (Some d) = map amount (rows_dated d df).
Proof.
  unfold amounts_on, rows_dated. f_equal.
Qed.

(** A provider's section that reaches its end has printed, date after
    date, the line of the date and then what the valuation prints for the
    amounts of the rows of that date. *)
Lemma section_lines
    (process : list N -> list N -> printer World -> io World N)
    (df : list (Row N)) :
  (forall c t, uniform (process c t (Some smart_print))) ->
  forall (ds : list Z) (w w' : World),
    for_each (date_section fmt process df) (map Some ds) tt w = (Ok tt, w') ->
    stdout w' =
    (stdout w ++
     flat_map (fun d =>
                 date_line fmt d ::
                 printed (process
                            (fst (get_stats (map amount (rows_dated d df))))
                            (snd (get_stats (map amount (rows_dated d df))))
                            (Some smart_print)))
              ds)%list.
Proof.
  intros Hp. induction ds as [| d ds IH]; intros w w' H;
    cbn [map for_each flat_map] in *.
  - unfold io_ret in H. inversion H. rewrite app_nil_r. reflexivity.
  - apply io_bind_Ok in H. destruct H as ([] & w1 & Hd & H).
    rewrite (IH _ _ H). clear IH H.
    unfold date_section in Hd. rewrite amounts_on_rows_dated in Hd.
    apply io_bind_Ok in Hd. destruct Hd as ([] & w0 & Hs & Hd).
    unfold smart, io_do in Hs. inversion Hs. subst w0. clear Hs.
    destruct (get_stats (map amount (rows_dated d df))) as [c t].
    apply io_bind_Ok in Hd. destruct Hd as (v & w2 & Hv & Hd).
    unfold io_ret in Hd. inversion Hd. subst w2. clear Hd.
    apply (f_equal snd) in Hv. cbn [snd] in Hv. rewrite <- Hv.
    rewrite (uniform_printed _ (Hp c t)). cbn [fst snd].
    unfold date_line, smart_print, write_report, print, write_stdout.
    cbn [stdout]. rewrite <- !app_assoc. reflexivity.
Qed.

End UniformScript.

(** ** The aggregator and the order of the dates *)

Lemma Forall2_maps {A B C : Type} (R : B -> C -> Prop) (g : A -> B) (f : A -> C)
    (l : list A) :
  Forall (fun p => R (g p) (f p)) l -> Forall2 R (map g l) (map f l).
Proof. induction 1; simpl; constructor; assumption. Qed.

Lemma all_Some (l : list timestamp) :
  Forall (fun t => ts_isna t = false) l -> exists ds, l = map Some ds.
Proof.
  induction 1 as [| t l Ht _ [ds IH]].
  - exists []. reflexivity.
  - destruct t as [d |]; [| discriminate Ht].
    exists (d :: ds). simpl. rewrite IH. reflexivity.
Qed.

Lemma StronglySorted_Some (R : timestamp -> timestamp -> Prop) (ds : list Z) :
  StronglySorted R (map Some ds) ->
  StronglySorted (fun x y => R (Some x) (Some y)) ds.
Proof.
  induction ds as [| d ds IH]; simpl; intros Hs; constructor;
    inversion Hs as [| a l Hl Ha]; subst.
  - apply IH. exact Hl.
  - rewrite Forall_map in Ha. exact Ha.
Qed.

Section AggregatorFacts.
Context {N : Type} {num : PyNum N}.
Context {laws : KeyEq (isna (N := N)) num_eqb}.

Lemma get_stats_spec (series : list N) :
  exists ns : list Z,
    fst (get_stats series) = map of_int ns /\
    Forall2 (fun n t => n = occurrences isna num_eqb t series /\ 0 < n /\
                        isna t = false)
            ns (snd (get_stats series)) /\
    StronglySorted (fun a b => b <= a) ns /\
    ForallOrdPairs (fun a b => num_eqb a b = false) (snd (get_stats series)) /\
    (forall x, In x series -> isna x = false ->
               exists t, In t (snd (get_stats series)) /\ num_eqb t x = true) /\
    (forall t, In t (snd (get_stats series)) ->
               exists x, In x series /\ isna x = false /\ num_eqb t x = true).
Proof.
  destruct (value_counts_spec (eqb := num_eqb) series)
    as (Hcounts & Hsorted & Hdistinct & Hcovers & Hsound).
  exists (map snd (value_counts isna num_eqb series)). unfold get_stats. simpl.
  split; [rewrite map_map; reflexivity |].
  split.
  { apply Forall2_maps. apply Forall_impl with (2 := Hcounts).
    intros p (Hna & Hpos & Hocc). auto. }
  split; [apply StronglySorted_map; exact Hsorted |].
  split; [apply ForallOrdPairs_map; exact Hdistinct |].
  split.
  - intros x Hx Hna. destruct (Hcovers x Hx Hna) as (p & Hp & Heq).
    exists (fst p). split; [apply in_map; exact Hp | exact Heq].
  - intros t Ht. apply in_map_iff in Ht. destruct Ht as (p & Hfst & Hp).
    subst t. apply Hsound. exact Hp.
Qed.

End AggregatorFacts.

Section UniqueDates.
Context {N : Type} {num : PyNum N}.

Lemma ts_before_total x y : ts_before x y = false -> ts_before y x = true.
Proof.
  destruct x as [x |], y as [y |]; simpl; try reflexivity; try discriminate.
  intros Hxy. apply Z.leb_gt in Hxy. apply Z.leb_le. lia.
Qed.

Lemma ts_before_trans x y z :
  ts_before x y = true -> ts_before y z = true -> ts_before x z = true.
Proof.
  destruct x as [x |], y as [y |], z as [z |]; simpl;
    try reflexivity; try discriminate.
  intros Hxy Hyz. apply Z.leb_le in Hxy. apply Z.leb_le in Hyz.
  apply Z.leb_le. lia.
Qed.

(** The dates a provider's section goes through: the distinct dates of the
    frame, in ascending order. *)
Lemma get_unique_dates_spec (df : list (Row N)) :
  exists ds : list Z,
    get_unique_dates df = map Some ds /\
    StronglySorted Z.lt ds /\
    (forall d, In d ds <-> exists r, In r df /\ date r = Some d).
Proof.
  unfold get_unique_dates. destruct df as [| r0 rest].
  { exists []. simpl. split; [reflexivity |]. split; [constructor |].
    intros d. split; [intros [] | intros (r & [] & _)]. }
  change (empty (r0 :: rest)) with false. cbv iota.
  generalize (r0 :: rest). clear r0 rest. intros df.
  set (vc := value_counts ts_isna ts_eqb (map date df)).
  destruct (value_counts_spec (eqb := ts_eqb) (map date df))
    as (Hcounts & _ & Hdistinct & Hcovers & Hsound). fold vc in Hcounts, Hdistinct, Hcovers, Hsound.
  pose proof (sort_by_Permutation ts_before (map fst vc)) as Hperm.
  assert (Hkeys : Forall (fun t => ts_isna t = false) (sort_by ts_before (map fst vc))).
  { apply Permutation_Forall with (map fst vc); [apply Permutation_sym; exact Hperm |].
    apply Forall_map. apply Forall_impl with (2 := Hcounts). intros p (Hna & _). exact Hna. }
  destruct (all_Some Hkeys) as [ds Hds]. exists ds.
  split; [exact Hds |]. split.
  - assert (Hs : StronglySorted
                   (fun a b => ts_before a b = true /\ ts_eqb a b = false)
                   (map Some ds)).
    { rewrite <- Hds. apply StronglySorted_and.
      - apply sort_by_sorted; [exact ts_before_total | exact ts_before_trans].
      - apply ForallOrdPairs_Permutation with (l := map fst vc).
        + intros a b Hab. rewrite (key_sym (eqb := ts_eqb)). exact Hab.
        + apply Permutation_sym. exact Hperm.
        + apply ForallOrdPairs_map. exact Hdistinct. }
    apply StronglySorted_Some in Hs.
    clear - Hs. induction Hs as [| d ds _ IH Hd]; constructor.
    + exact IH.
    + apply Forall_impl with (2 := Hd). simpl. intros y [Hle Hne].
      apply Z.leb_le in Hle. apply Z.eqb_neq in Hne. lia.
  - intros d. split.
    + intros Hd. assert (Hin : In (Some d) (map fst vc)).
      { apply Permutation_in with (1 := Hperm). rewrite Hds.
        apply in_map. exact Hd. }
      apply in_map_iff in Hin. destruct Hin as (p & Hfst & Hp).
      destruct (Hsound p Hp) as (x & Hx & _ & Heq).
      rewrite Hfst in Heq. destruct x as [x |]; [| discriminate Heq].
      simpl in Heq. apply Z.eqb_eq in Heq. subst x.
      apply in_map_iff in Hx. destruct Hx as (r & Hr & Hin). exists r. auto.
    + intros (r & Hr & Hdate).
      destruct (Hcovers (Some d)) as (p & Hp & Heq).
      { rewrite <- Hdate. apply in_map. exact Hr. }
      { reflexivity. }
      destruct (fst p) as [k |] eqn:Hk; [| discriminate Heq].
      simpl in Heq. apply Z.eqb_eq in Heq. subst k.
      assert (Hin : In (Some d) (sort_by ts_before (map fst vc))).
      { apply Permutation_in with (1 := Permutation_sym Hperm).
        rewrite <- Hk. apply in_map. exact Hp. }
      rewrite Hds in Hin. apply in_map_iff in Hin.
      destruct Hin as (d' & Hd' & Hin). inversion Hd'; subst. exact Hin.
Qed.

End UniqueDates.

Section RowGroups.
Context {N : Type} {num : PyNum N}.

Lemma occurrences_amounts (t : N) (rows : list (Row N)) :
  occurrences isna num_eqb t (map amount rows) = rows_sharing t rows.
Proof.
  unfold occurrences, rows_sharing. f_equal.
  induction rows as [| r rows IH]; simpl; [reflexivity |].
  destruct (negb (isna (amount r)) && num_eqb t (amount r)); simpl; lia.
Qed.

End RowGroups.

(** C7. For a row group, [get_stats] on its amounts gives counts and
    amounts of the same length where each count is the number of rows of the
    group sharing the amount beside it, the counts are in descending order,
    no amount comes twice and every amount of the group that is not missing
    is there. [get_unique_dates] gives the distinct dates of a provider's
    frame in strictly ascending order, and the provider's section of the
    report goes through them in that order: when it reaches its end it has
    printed, for one date after the other, the line of the date followed by
    what the valuation prints for the pairs of the rows of that date. The
    equality of amounts is taken to be an equivalence on the amounts that
    are not missing, which it is on Python's numbers and on exact rationals.
    On Python's ints, two rows of 50 give the pair (50, 2). *)
Theorem aggregation_counts_and_order :
  forall (N : Type) (num : PyNum N) (fmt : Format N),
    KeyEq (isna (N := N)) num_eqb ->
    (forall rows : list (Row N),
        exists ns : list Z,
          fst (get_stats (map amount rows)) = map of_int ns /\
          Forall2 (fun n t => n = rows_sharing t rows /\ 0 < n /\ isna t = false)
                  ns (snd (get_stats (map amount rows))) /\
          StronglySorted (fun a b => b <= a) ns /\
          ForallOrdPairs (fun a b => num_eqb a b = false)
                         (snd (get_stats (map amount rows))) /\
          (forall r, In r rows -> isna (amount r) = false ->
                     exists t, In t (snd (get_stats (map amount rows))) /\
                               num_eqb t (amount r) = true)) /\
    (forall df : list (Row N),
        exists ds : list Z,
          get_unique_dates df = map Some ds /\
          StronglySorted Z.lt ds /\
          (forall d, In d ds <-> exists r, In r df /\ date r = Some d) /\
          (forall w w' : World,
              provider_section fmt (process_type_1 fmt (W := World)) df w =
                (Ok tt, w') ->
              stdout w' =
              (stdout w ++
               flat_map
                 (fun d =>
                    date_line fmt d ::
                    printed (process_type_1 fmt
                               (fst (get_stats (map amount (rows_dated d df))))
                               (snd (get_stats (map amount (rows_dated d df))))
                               (Some smart_print)))
                 ds)%list) /\
          (forall w w' : World,
              provider_section fmt (process_type_2 fmt (W := World)) df w =
                (Ok tt, w') ->
              stdout w' =
              (stdout w ++
               flat_map
                 (fun d =>
                    date_line fmt d ::
                    printed (process_type_2 fmt
                               (fst (get_stats (map amount (rows_dated d df))))
                               (snd (get_stats (map amount (rows_dated d df))))
                               (Some smart_print)))
                 ds)%list)) /\
    get_stats [PyInt 50; PyInt 50] = ([PyInt 2], [PyInt 50]).
Proof.
  intros N num fmt laws. split; [| split].
  - intros rows.
    destruct (get_stats_spec (map amount rows))
      as (ns & Hcounts & Hpairs & Hsorted & Hdistinct & Hcovers & _).
    exists ns. split; [exact Hcounts |]. split.
    { eapply Forall2_impl; [| exact Hpairs]. simpl.
      intros n t (Hn & Hpos & Hna). rewrite occurrences_amounts in Hn. auto. }
    split; [exact Hsorted |]. split; [exact Hdistinct |].
    intros r Hr Hna. apply Hcovers; [apply in_map; exact Hr | exact Hna].
  - intros df.
    destruct (get_unique_dates_spec df) as (ds & Hds & Hsorted & Hmem).
    exists ds. split; [exact Hds |]. split; [exact Hsorted |].
    split; [exact Hmem |]. split.
    + intros w w' Hrun. unfold provider_section in Hrun. rewrite Hds in Hrun.
      apply (section_lines fmt (process_type_1 fmt (W := World)) df); [| exact Hrun].
      intros c t. apply uniform_process_type_1. right. reflexivity.
    + intros w w' Hrun. unfold provider_section in Hrun. rewrite Hds in Hrun.
      apply (section_lines fmt (process_type_2 fmt (W := World)) df); [| exact Hrun].
      intros c t. apply uniform_process_type_2. right. reflexivity.
  - vm_compute. reflexivity.
Qed.

Lemma aggregation_counts_and_order_witness :
  let fmt := Sample.plain_format pynum in
  let row (d : Z) (a : pynum) : Row pynum :=
    {| date := Some d; description := "Survey"%string;
       platform := "Digital_Assets_Type_1"%string; amount := a |} in
  let rows := [row 2 (PyInt 20); row 1 (PyInt 50); row 2 (PyInt 50)] in
  KeyEq (isna (N := pynum)) num_eqb /\
  get_stats (map amount rows) = ([PyInt 2; PyInt 1], [PyInt 50; PyInt 20]) /\
  get_unique_dates rows = [Some 1; Some 2] /\
  exists (ns ds : list Z) (w' : World),
    fst (get_stats (map amount rows)) = map of_int ns /\
    StronglySorted (fun a b => b <= a) ns /\
    get_unique_dates rows = map Some ds /\
    StronglySorted Z.lt ds /\
    provider_section fmt (process_type_1 fmt (W := World)) rows initial_world =
      (Ok tt, w') /\
    stdout w' =
      flat_map
        (fun d =>
           date_line fmt d ::
           printed (process_type_1 fmt
                      (fst (get_stats (map amount (rows_dated d rows))))
                      (snd (get_stats (map amount (rows_dated d rows))))
                      (Some smart_print)))
        ds.
Proof.
  intros fmt row rows.
  split; [exact pynum_KeyEq |].
  split; [vm_compute; reflexivity |]. split; [vm_compute; reflexivity |].
  destruct (@aggregation_counts_and_order pynum _ fmt pynum_KeyEq)
    as (Hstats & Hdates & _).
  destruct (Hstats rows) as (ns & Hcounts & _ & Hsorted & _).
  destruct (Hdates rows) as (ds & Hds & Hlt & _ & Hlines & _).
  assert (Hrun : exists w',
             provider_section fmt (process_type_1 fmt (W := World)) rows
               initial_world = (Ok tt, w')).
  { eexists. vm_compute. reflexivity. }
  destruct Hrun as [w' Hrun].
  exists ns, ds, w'. repeat (split; [assumption |]).
  exact (Hlines initial_world w' Hrun).
Defined.

(** * Further properties of the script *)

(** ** Aggregation keeps the number of rows and the sum of the amounts *)

Section CountTotal.
Variable V : Type.
Variable na : V -> bool.
Variable eqb : V -> V -> bool.

Lemma zsum_Permutation (l l' : list Z) : Permutation l l' -> zsum l = zsum l'.
Proof.
  induction 1 as [| x l l' _ IH | x y l | l l' l'' _ IH1 _ IH2]; simpl; lia.
Qed.

Lemma zsum_bump (x : V) (tbl : list (V * Z)) :
  zsum (map snd (bump eqb x tbl)) = zsum (map snd tbl) + 1.
Proof.
  induction tbl as [| [k n] rest IH]; simpl.
  - reflexivity.
  - destruct (eqb k x); simpl; lia.
Qed.

Lemma zsum_fold (s : list V) : forall tbl : list (V * Z),
  zsum (map snd (fold_left (fun tbl v => if na v then tbl else bump eqb v tbl) s tbl))
  = zsum (map snd tbl) + Z.of_nat (List.length (present na s)).
Proof.
  induction s as [| x s IH]; intros tbl; simpl.
  - lia.
  - rewrite IH. destruct (na x); simpl.
    + reflexivity.
    + rewrite zsum_bump. lia.
Qed.

Lemma value_counts_total (s : list V) :
  zsum (map snd (value_counts na eqb s)) = Z.of_nat (List.length (present na s)).
Proof.
  unfold value_counts.
  rewrite (zsum_Permutation (Permutation_map snd (sort_by_Permutation _ (tally na eqb s)))).
  unfold tally. rewrite zsum_fold. reflexivity.
Qed.

End CountTotal.

Lemma combine_maps {A B C : Type} (f : A -> B) (g : A -> C) (l : list A) :
  combine (map f l) (map g l) = map (fun a => (f a, g a)) l.
Proof. induction l as [| a l IH]; simpl; [reflexivity | rewrite IH; reflexivity]. Qed.

Lemma get_stats_pairs {N : Type} {num : PyNum N} (series : list N) :
  combine (fst (get_stats series)) (snd (get_stats series)) =
  map (fun p => (of_int (snd p), fst p)) (value_counts isna num_eqb series).
Proof. unfold get_stats. simpl. apply combine_maps. Qed.

Lemma count_from_ints (tbl : list (pynum * Z)) : forall acc : Z,
  count_from (PyInt acc) (map (fun p => (of_int (snd p), fst p)) tbl) =
  Ok (PyInt (acc + zsum (map snd tbl))).
Proof.
  induction tbl as [| [k n] rest IH]; intros acc; simpl.
  - f_equal. f_equal. lia.
  - change (PyNumber.py_add (PyInt acc) (PyInt n)) with (Ok (PyInt (acc + n)) : result pynum).
    cbn [rbind]. rewrite IH. f_equal. f_equal. lia.
Qed.

(** ** In exact arithmetic, valuation after aggregation is the sum of the amounts *)

Module ExactTotals.
Import ExactArith.
Local Open Scope Qc_scope.

Lemma of_int_succ (n : Z) : (of_int (n + 1)%Z : Qc) = of_int n + 1.
Proof.
  change (Q2Qc (inject_Z (n + 1)) = Q2Qc (inject_Z n) + Q2Qc 1).
  unfold Qcplus. apply Q2Qc_eq_iff. cbn [this Q2Qc].
  rewrite !Qred_correct, inject_Z_plus. reflexivity.
Qed.

Lemma of_int_one : (of_int 1%Z : Qc) = 1.
Proof. apply Qc_is_canon. reflexivity. Qed.

Lemma qsum_app (l l' : list Qc) : qsum (l ++ l') = qsum l + qsum l'.
Proof. induction l as [| x l IH]; simpl; [ring | rewrite IH; ring]. Qed.

Lemma qsum_Permutation (l l' : list Qc) : Permutation l l' -> qsum l = qsum l'.
Proof.
  induction 1 as [| x l l' _ IH | x y l | l l' l'' _ IH1 _ IH2]; simpl.
  - reflexivity.
  - rewrite IH. reflexivity.
  - ring.
  - congruence.
Qed.

Lemma weighted_sum_bump (x : Qc) (tbl : list (Qc * Z)) :
  weighted_sum (bump Qc_eq_bool x tbl) = weighted_sum tbl + x.
Proof.
  unfold weighted_sum.
  induction tbl as [| [k n] rest IH]; cbn [bump map qsum fold_right fst snd].
  - rewrite of_int_one. ring.
  - destruct (Qc_eq_bool k x) eqn:Hkx; cbn [map qsum fold_right fst snd].
    + apply Qc_eq_bool_correct in Hkx. subst k. rewrite of_int_succ. ring.
    + unfold qsum in IH. rewrite IH. ring.
Qed.

Lemma weighted_sum_fold (s : list Qc) : forall tbl : list (Qc * Z),
  weighted_sum (fold_left (fun tbl v => if isna v then tbl
                                        else bump num_eqb v tbl) s tbl)
  = weighted_sum tbl + qsum s.
Proof.
  induction s as [| x s IH]; intros tbl; simpl fold_left; simpl qsum.
  - ring.
  - rewrite IH. simpl isna. cbv iota.
    change (@num_eqb Qc _) with Qc_eq_bool. rewrite weighted_sum_bump. ring.
Qed.

Lemma weighted_sum_value_counts (s : list Qc) :
  weighted_sum (value_counts isna num_eqb s) = qsum s.
Proof.
  unfold value_counts, weighted_sum.
  rewrite (qsum_Permutation
             (Permutation_map (fun p => fst p * of_int (snd p))
                (sort_by_Permutation _ (tally isna num_eqb s)))).
  fold (weighted_sum (tally isna num_eqb s)).
  unfold tally. rewrite weighted_sum_fold. unfold weighted_sum.
  cbn [map qsum fold_right]. ring.
Qed.

Lemma exact_sum_pairs (tbl : list (Qc * Z)) :
  exact_sum (map (fun p => (of_int (snd p), fst p)) tbl) = weighted_sum tbl.
Proof.
  unfold weighted_sum, exact_sum.
  induction tbl as [| [k n] rest IH]; cbn [map qsum fold_right fst snd].
  - reflexivity.
  - rewrite IH. reflexivity.
Qed.

Lemma exact_sum_get_stats (series : list Qc) :
  exact_sum (combine (fst (get_stats series)) (snd (get_stats series))) =
  qsum series.
Proof.
  rewrite get_stats_pairs, exact_sum_pairs. apply weighted_sum_value_counts.
Qed.

Section Processes.
Variable fmt : Format Qc.
Variable W : Type.

Lemma exact_never_overflows (pf : printer W) : ~ overflows Qc pf.
Proof. apply fits_all_never_overflows. intros x. reflexivity. Qed.

Lemma process_type_2_exact (counts types : list Qc) (pf : printer W) (w : W) :
  fst (process_type_2 fmt counts types pf w) = Ok (exact_sum (combine counts types)).
Proof.
  apply (process_type_2_returns fmt counts types w _ (@exact_never_overflows pf)).
  split.
  - apply ExactFacts.sum_products_exact.
  - apply (ExactFacts.count_from_exact (combine counts types) (of_int 0%Z)).
Qed.

Lemma process_type_1_exact (counts types : list Qc) (pf : printer W) (w : W) :
  fst (process_type_1 fmt counts types pf w) =
  Ok (exact_sum (combine counts types) / hundred).
Proof.
  apply (process_type_1_returns fmt counts types w _ (@exact_never_overflows pf)).
  destruct (ExactFacts.count_from_exact (combine counts types) (of_int 0%Z))
    as [tasks Htasks].
  exists (exact_sum (combine counts types)), tasks.
  split; [apply ExactFacts.sum_products_exact |].
  split; [exact Htasks | apply ExactFacts.div_hundred].
Qed.

End Processes.
End ExactTotals.

(** X2. In exact arithmetic, aggregating a series of amounts with
    [get_stats] and valuing the pairs gives the plain sum of the amounts for
    Type 2, and that sum divided by 100 for Type 1: grouping equal amounts
    loses nothing. *)
Theorem valuation_of_aggregate_is_sum :
  forall (fmt : Format Qc) (W : Type) (series : list Qc)
         (print_func : printer W) (w : W),
    fst (process_type_2 fmt (fst (get_stats series)) (snd (get_stats series))
           print_func w) = Ok (qsum series) /\
    fst (process_type_1 fmt (fst (get_stats series)) (snd (get_stats series))
           print_func w) = Ok (qsum series / of_int 100)%Qc.
Proof.
  intros fmt W series print_func w.
  rewrite ExactTotals.process_type_2_exact, ExactTotals.process_type_1_exact.
  rewrite ExactTotals.exact_sum_get_stats. split; reflexivity.
Qed.

(** ** The frames of the two providers *)

Section FrameFacts.
Context {N : Type} {num : PyNum N}.
Local Open Scope string_scope.

Lemma sort_values_date_Permutation (df : list (Row N)) :
  Permutation (sort_values_date df) df.
Proof. apply sort_by_Permutation. Qed.

Lemma sort_values_date_sorted (df : list (Row N)) : by_date (sort_values_date df).
Proof.
  unfold by_date, sort_values_date.
  apply sort_by_sorted with (before := fun r1 r2 : Row N => ts_before (date r1) (date r2)).
  - intros x y. apply ts_before_total.
  - intros x y z. apply ts_before_trans.
Qed.

Lemma df_t1_In (filtered : list (Row N)) (r : Row N) :
  In r (df_t1 filtered) <->
  In r filtered /\ platform r = "Digital_Assets_Type_1".
Proof.
  unfold df_t1. split.
  - intros Hin. apply (Permutation_in _ (sort_values_date_Permutation _)) in Hin.
    apply filter_In in Hin. rewrite String.eqb_eq in Hin. exact Hin.
  - intros Hin.
    apply (Permutation_in _ (Permutation_sym (sort_values_date_Permutation _))).
    apply filter_In. rewrite String.eqb_eq. exact Hin.
Qed.

Lemma df_t2_In (filtered : list (Row N)) (r : Row N) :
  In r (df_t2 filtered) <->
  In r filtered /\ platform r = "Digital_Assets_Type_2".
Proof.
  unfold df_t2. split.
  - intros Hin. apply (Permutation_in _ (sort_values_date_Permutation _)) in Hin.
    apply filter_In in Hin. rewrite String.eqb_eq in Hin. exact Hin.
  - intros Hin.
    apply (Permutation_in _ (Permutation_sym (sort_values_date_Permutation _))).
    apply filter_In. rewrite String.eqb_eq. exact Hin.
Qed.

Lemma provider_1_In (df : list (Row N)) (start_date end_date : timestamp) r :
  In r (provider_1 df start_date end_date) <->
  In r df /\ ~ denylisted r /\ in_range start_date end_date r /\
  platform r = "Digital_Assets_Type_1".
Proof.
  unfold provider_1, in_range. rewrite df_t1_In, df_filtered_In, df_clean_In. tauto.
Qed.

Lemma provider_2_In (df : list (Row N)) (start_date end_date : timestamp) r :
  In r (provider_2 df start_date end_date) <->
  In r df /\ ~ denylisted r /\ in_range start_date end_date r /\
  platform r = "Digital_Assets_Type_2".
Proof.
  unfold provider_2, in_range. rewrite df_t2_In, df_filtered_In, df_clean_In. tauto.
Qed.

End FrameFacts.

(** X3. The frame of each provider holds exactly the rows of the file that
    are not denylisted, are dated within the two bounds and carry that
    provider's tag: each of them as many times as the file has it, none
    else, in the order of their dates. No row is in both frames. *)
Theorem provider_frames :
  forall (N : Type) (num : PyNum N) (df : list (Row N))
         (start_date end_date : timestamp),
    (forall r, In r (provider_1 df start_date end_date) <->
               In r df /\ ~ denylisted r /\ in_range start_date end_date r /\
               platform r = "Digital_Assets_Type_1"%string) /\
    (forall r, In r (provider_2 df start_date end_date) <->
               In r df /\ ~ denylisted r /\ in_range start_date end_date r /\
               platform r = "Digital_Assets_Type_2"%string) /\
    Permutation (provider_1 df start_date end_date)
      (filter (fun r => String.eqb (platform r) "Digital_Assets_Type_1")
              (df_filtered (df_clean df) start_date end_date)) /\
    Permutation (provider_2 df start_date end_date)
      (filter (fun r => String.eqb (platform r) "Digital_Assets_Type_2")
              (df_filtered (df_clean df) start_date end_date)) /\
    by_date (provider_1 df start_date end_date) /\
    by_date (provider_2 df start_date end_date) /\
    (forall r, In r (provider_1 df start_date end_date) ->
               ~ In r (provider_2 df start_date end_date)).
Proof.
  intros N num df start_date end_date.
  split; [intros r; apply provider_1_In |].
  split; [intros r; apply provider_2_In |].
  split; [apply sort_values_date_Permutation |].
  split; [apply sort_values_date_Permutation |].
  split; [apply sort_values_date_sorted |].
  split; [apply sort_values_date_sorted |].
  intros r H1 H2. apply provider_1_In in H1. apply provider_2_In in H2.
  destruct H1 as (_ & _ & _ & H1). destruct H2 as (_ & _ & _ & H2).
  rewrite H1 in H2. discriminate H2.
Qed.

(** ** The grand total and the totals of the dates *)

Module DayTotals.
Import ExactArith.
Local Open Scope Qc_scope.

Lemma qsum_pick (a : Qc) (d0 : Z) (ds : list Z) :
  NoDup ds -> In d0 ds ->
  qsum (map (fun d => if (d0 =? d)%Z then a else 0) ds) = a.
Proof.
  induction 1 as [| d ds Hd _ IH]; intros Hin; [destruct Hin |].
  cbn [map qsum fold_right]. destruct (Z.eqb_spec d0 d) as [Heq | Hne].
  - subst d.
    assert (Hrest : qsum (map (fun d => if (d0 =? d)%Z then a else 0) ds) = 0).
    { clear IH Hin. induction ds as [| d ds IH]; [reflexivity |].
      cbn [map qsum fold_right].
      destruct (Z.eqb_spec d0 d) as [Heq | _].
      - subst d. destruct Hd. left. reflexivity.
      - unfold qsum in IH. rewrite IH; [ring |].
        intros Hin. apply Hd. right. exact Hin. }
    unfold qsum in Hrest. rewrite Hrest. ring.
  - destruct Hin as [Heq | Hin]; [congruence |].
    unfold qsum in IH. rewrite (IH Hin). ring.
Qed.

Lemma qsum_zero (f : Z -> Qc) (ds : list Z) :
  (forall d, f d = 0) -> qsum (map f ds) = 0.
Proof.
  intros Hf. induction ds as [| d ds IH]; [reflexivity |].
  change (qsum (map f (d :: ds))) with (f d + qsum (map f ds)).
  rewrite Hf, IH. ring.
Qed.

Lemma qsum_plus (f g : Z -> Qc) (ds : list Z) :
  qsum (map (fun d => f d + g d) ds) = qsum (map f ds) + qsum (map g ds).
Proof.
  induction ds as [| d ds IH]; cbn [map qsum fold_right]; [ring |].
  unfold qsum in IH. rewrite IH. ring.
Qed.

Lemma qsum_scaled (k : Qc) (l : list Qc) :
  qsum (map (fun x => x / k) l) = qsum l / k.
Proof.
  unfold Qcdiv. induction l as [| x l IH]; cbn [map qsum fold_right]; [ring |].
  unfold qsum in IH. rewrite IH. ring.
Qed.

Lemma amounts_on_cons (r : Row Qc) (df : list (Row Qc)) (d : timestamp) :
  qsum (amounts_on (r :: df) d) =
  (if ts_eqb (date r) d then amount r else 0) + qsum (amounts_on df d).
Proof.
  unfold amounts_on, qsum. cbn [filter]. destruct (ts_eqb (date r) d);
    cbn [map fold_right]; ring.
Qed.

(** The amounts of a frame, summed date by date over distinct dates that
    cover the frame, add up to the sum of all its amounts. *)
Lemma day_sums (ds : list Z) (df : list (Row Qc)) :
  NoDup ds ->
  Forall (fun r => exists d, date r = Some d /\ In d ds) df ->
  qsum (map (fun d => qsum (amounts_on df (Some d))) ds) = qsum (map amount df).
Proof.
  intros Hds. induction 1 as [| r df (d0 & Hdate & Hin) _ IH].
  - apply qsum_zero. intros d. reflexivity.
  - change (qsum (map amount (r :: df))) with (amount r + qsum (map amount df)).
    rewrite (map_ext _ (fun d => (fun d => if (d0 =? d)%Z then amount r else 0) d
                                 + (fun d => qsum (amounts_on df (Some d))) d)).
    + rewrite qsum_plus, (@qsum_pick (amount r) d0 ds Hds Hin), IH.
      reflexivity.
    + intros d. rewrite amounts_on_cons, Hdate. reflexivity.
Qed.

Lemma StronglySorted_lt_NoDup (ds : list Z) : StronglySorted Z.lt ds -> NoDup ds.
Proof.
  induction 1 as [| d ds _ IH Hd]; constructor; [| exact IH].
  intros Hin. rewrite Forall_forall in Hd. specialize (Hd d Hin). lia.
Qed.

(** For a frame whose rows are all dated. *)
Lemma unique_date_sums (df : list (Row Qc)) :
  Forall (fun r => date r <> None) df ->
  qsum (map (fun d => qsum (amounts_on df d)) (get_unique_dates df)) =
  qsum (map amount df).
Proof.
  intros Hdated.
  destruct (get_unique_dates_spec df) as (ds & Hds & Hsorted & Hmem).
  rewrite Hds, map_map. apply day_sums.
  - apply StronglySorted_lt_NoDup. exact Hsorted.
  - rewrite Forall_forall in *. intros r Hr.
    destruct (date r) as [d |] eqn:Hd; [| destruct (Hdated r Hr); exact Hd].
    exists d. split; [reflexivity |]. apply Hmem. exists r. auto.
Qed.

Section Totals.
Variable fmt : Format Qc.

Lemma total_val_2_exact (df : list (Row Qc)) (w : World) :
  fst (total_val (process_type_2 fmt (W := World)) df w) = Ok (qsum (map amount df)).
Proof.
  unfold total_val. destruct df as [| r df]; [reflexivity |].
  cbn [empty]. destruct (get_stats (map amount (r :: df))) as [c t] eqn:Hgs.
  rewrite ExactTotals.process_type_2_exact.
  change c with (fst (c, t)). change t with (snd (c, t)) at 2. rewrite <- Hgs.
  rewrite ExactTotals.exact_sum_get_stats. reflexivity.
Qed.

Lemma total_val_1_exact (df : list (Row Qc)) (w : World) :
  df <> [] ->
  fst (total_val (process_type_1 fmt (W := World)) df w) =
  Ok (qsum (map amount df) / hundred).
Proof.
  intros Hne. unfold total_val. destruct df as [| r df]; [destruct Hne; reflexivity |].
  cbn [empty]. destruct (get_stats (map amount (r :: df))) as [c t] eqn:Hgs.
  rewrite ExactTotals.process_type_1_exact.
  change c with (fst (c, t)). change t with (snd (c, t)) at 2. rewrite <- Hgs.
  rewrite ExactTotals.exact_sum_get_stats. reflexivity.
Qed.

End Totals.
End DayTotals.

Lemma Forall2_map_r {A B : Type} (R : A -> B -> Prop) (f : A -> B) (l : list A) :
  (forall a, R a (f a)) -> Forall2 R l (map f l).
Proof. intros HR. induction l; simpl; constructor; auto. Qed.

Lemma provider_1_dated {N : Type} {num : PyNum N} (df : list (Row N))
    (start_date end_date : timestamp) :
  Forall (fun r => date r <> None) (provider_1 df start_date end_date).
Proof.
  apply Forall_forall. intros r Hr. apply provider_1_In in Hr.
  destruct Hr as (_ & _ & (d & s & e & Hd & _) & _). rewrite Hd. discriminate.
Qed.

Lemma provider_2_dated {N : Type} {num : PyNum N} (df : list (Row N))
    (start_date end_date : timestamp) :
  Forall (fun r => date r <> None) (provider_2 df start_date end_date).
Proof.
  apply Forall_forall. intros r Hr. apply provider_2_In in Hr.
  destruct Hr as (_ & _ & (d & s & e & Hd & _) & _). rewrite Hd. discriminate.
Qed.

(** X4. In exact arithmetic, the grand total of each provider is the sum
    of the totals that its section of the report shows date by date. *)
Theorem grand_total_is_sum_of_day_totals :
  forall (fmt : Format Qc) (df : list (Row Qc))
         (start_date end_date : timestamp) (w : World),
    (exists day_totals : list Qc,
        Forall2 (fun d v =>
                   forall (print_func : printer World) (w' : World),
                     fst (process_type_1 fmt
                            (fst (get_stats (amounts_on (provider_1 df start_date end_date) d)))
                            (snd (get_stats (amounts_on (provider_1 df start_date end_date) d)))
                            print_func w') = Ok v)
                (get_unique_dates (provider_1 df start_date end_date)) day_totals /\
        fst (total_val (process_type_1 fmt (W := World))
               (provider_1 df start_date end_date) w) = Ok (qsum day_totals)) /\
    (exists day_totals : list Qc,
        Forall2 (fun d v =>
                   forall (print_func : printer World) (w' : World),
                     fst (process_type_2 fmt
                            (fst (get_stats (amounts_on (provider_2 df start_date end_date) d)))
                            (snd (get_stats (amounts_on (provider_2 df start_date end_date) d)))
                            print_func w') = Ok v)
                (get_unique_dates (provider_2 df start_date end_date)) day_totals /\
        fst (total_val (process_type_2 fmt (W := World))
               (provider_2 df start_date end_date) w) = Ok (qsum day_totals)).
Proof.
  intros fmt df start_date end_date w. split.
  - pose proof (provider_1_dated df start_date end_date) as Hdated.
    set (t1 := provider_1 df start_date end_date) in *.
    exists (map (fun d => (qsum (amounts_on t1 d) / ExactArith.hundred)%Qc)
                (get_unique_dates t1)).
    split.
    + apply Forall2_map_r. intros d print_func w'.
      rewrite ExactTotals.process_type_1_exact, ExactTotals.exact_sum_get_stats.
      reflexivity.
    + destruct t1 as [| r rest] eqn:Ht1; [reflexivity |]. rewrite <- Ht1 in *.
      rewrite DayTotals.total_val_1_exact by (rewrite Ht1; discriminate).
      rewrite <- (DayTotals.unique_date_sums Hdated).
      rewrite <- DayTotals.qsum_scaled, map_map. reflexivity.
  - pose proof (provider_2_dated df start_date end_date) as Hdated.
    set (t2 := provider_2 df start_date end_date) in *.
    exists (map (fun d => qsum (amounts_on t2 d)) (get_unique_dates t2)).
    split.
    + apply Forall2_map_r. intros d print_func w'.
      rewrite ExactTotals.process_type_2_exact, ExactTotals.exact_sum_get_stats.
      reflexivity.
    + rewrite DayTotals.total_val_2_exact.
      rewrite (DayTotals.unique_date_sums Hdated). reflexivity.
Qed.

(** ** Rows of neither provider *)

Lemma filter3_drop {A : Type} (f g h : A -> bool) (before after : list A) (x : A) :
  h x = false ->
  filter h (filter g (filter f (before ++ x :: after))) =
  filter h (filter g (filter f (before ++ after))).
Proof.
  intros Hx. rewrite !filter_app. f_equal. cbn [filter].
  destruct (f x); [| reflexivity]. cbn [filter].
  destruct (g x); [| reflexivity]. cbn [filter].
  rewrite Hx. reflexivity.
Qed.

Section OtherPlatforms.
Context {N : Type} {num : PyNum N}.
Local Open Scope string_scope.

Lemma provider_1_drops (before after : list (Row N)) (row : Row N)
    (start_date end_date : timestamp) :
  platform row <> "Digital_Assets_Type_1" ->
  provider_1 (before ++ row :: after) start_date end_date =
  provider_1 (before ++ after) start_date end_date.
Proof.
  intros Hrow. unfold provider_1, df_t1, df_filtered, df_clean. f_equal.
  apply filter3_drop. apply String.eqb_neq. exact Hrow.
Qed.

Lemma provider_2_drops (before after : list (Row N)) (row : Row N)
    (start_date end_date : timestamp) :
  platform row <> "Digital_Assets_Type_2" ->
  provider_2 (before ++ row :: after) start_date end_date =
  provider_2 (before ++ after) start_date end_date.
Proof.
  intros Hrow. unfold provider_2, df_t2, df_filtered, df_clean. f_equal.
  apply filter3_drop. apply String.eqb_neq. exact Hrow.
Qed.

End OtherPlatforms.

(** X5. A row whose platform is neither of the two provider tags is in
    neither frame, and everything the script does after loading is the same
    as if the row were not in the file: nothing is printed about it. *)
Theorem other_platform_rows_are_dropped :
  forall (N : Type) (num : PyNum N) (fmt : Format N)
         (to_datetime_text : string -> string + timestamp)
         (r : Run N) (rate : N) (file : string)
         (before after : list (Row N)) (row : Row N),
    platform row <> "Digital_Assets_Type_1"%string ->
    platform row <> "Digital_Assets_Type_2"%string ->
    (forall start_date end_date,
        ~ In row (provider_1 (before ++ row :: after) start_date end_date) /\
        ~ In row (provider_2 (before ++ row :: after) start_date end_date)) /\
    (forall w : World,
        settle_account fmt to_datetime_text r rate file (before ++ row :: after) w =
        settle_account fmt to_datetime_text r rate file (before ++ after) w).
Proof.
  intros N num fmt to_datetime_text r rate file before after row H1 H2. split.
  - intros start_date end_date. split; intros Hin.
    + apply provider_1_In in Hin. destruct Hin as (_ & _ & _ & Hp). exact (H1 Hp).
    + apply provider_2_In in Hin. destruct Hin as (_ & _ & _ & Hp). exact (H2 Hp).
  - intros w. unfold settle_account, io_bind.
    destruct (input_date to_datetime_text _ (start_input r) w) as [[sd | e] w1];
      [| reflexivity].
    destruct (input_date to_datetime_text _ (end_input r) w1) as [[ed | e] w2];
      [| reflexivity].
    fold (provider_1 (before ++ row :: after) sd ed).
    fold (provider_2 (before ++ row :: after) sd ed).
    fold (provider_1 (before ++ after) sd ed).
    fold (provider_2 (before ++ after) sd ed).
    rewrite provider_1_drops by exact H1.
    rewrite provider_2_drops by exact H2. reflexivity.
Qed.

Lemma other_platform_rows_are_dropped_witness :
  let row : Row pynum :=
    {| date := Some 1; description := "Survey"%string;
       platform := "Digital_Assets_Type_3"%string; amount := PyInt 900 |} in
  let other : Row pynum :=
    {| date := Some 1; description := "Survey"%string;
       platform := "Digital_Assets_Type_1"%string; amount := PyInt 50 |} in
  platform row <> "Digital_Assets_Type_1"%string /\
  platform row <> "Digital_Assets_Type_2"%string /\
  ~ In row (provider_1 ([other] ++ row :: [other]) (Some 1) (Some 2)).
Proof.
  intros row other.
  assert (H1 : platform row <> "Digital_Assets_Type_1"%string) by discriminate.
  assert (H2 : platform row <> "Digital_Assets_Type_2"%string) by discriminate.
  split; [exact H1 |]. split; [exact H2 |].
  exact (proj1 (proj1 (@other_platform_rows_are_dropped pynum _
                         (Sample.plain_format pynum) Sample.parse_day
                         (Sample.run (PyInt 36)) (PyInt 36) "acct_a.xlsx"%string
                         [other] [other] row H1 H2) (Some 1) (Some 2))).
Defined.

(** ** The report mirrors the console *)

Section Mirror.
Context {N : Type} {num : PyNum N}.
Variable fmt : Format N.

Lemma appended_refl (w : World) : appended w w.
Proof.
  exists []. split; [rewrite app_nil_r; reflexivity |].
  destruct (report_file w) as [[name written] |]; simpl; [| reflexivity].
  rewrite app_nil_r. reflexivity.
Qed.

Lemma appended_trans (w0 w1 w2 : World) :
  appended w0 w1 -> appended w1 w2 -> appended w0 w2.
Proof.
  intros (l1 & Hs1 & Hr1) (l2 & Hs2 & Hr2). exists (l1 ++ l2)%list. split.
  - rewrite Hs2, Hs1, app_assoc. reflexivity.
  - rewrite Hr2, Hr1. destruct (report_file w0) as [[name written] |]; simpl;
      [| reflexivity].
    rewrite app_assoc. reflexivity.
Qed.

Lemma appended_smart_print (text : string) (w : World) :
  appended w (smart_print text w).
Proof.
  exists [(text ++ nl)%string]. split; [reflexivity |].
  unfold smart_print, write_report, print, write_stdout. simpl.
  destruct (report_file w) as [[name written] |]; reflexivity.
Qed.

Lemma mirrors_ret {A} (a : A) : mirrors (io_ret a).
Proof. intros w. apply appended_refl. Qed.

Lemma mirrors_lift {A} (r : result A) : mirrors (io_lift r).
Proof. intros w. apply appended_refl. Qed.

Lemma mirrors_smart (text : string) : mirrors (smart text).
Proof. intros w. apply appended_smart_print. Qed.

Lemma mirrors_bind {A B} (c : io World A) (k : A -> io World B) :
  mirrors c -> (forall a, mirrors (k a)) -> mirrors (io_bind c k).
Proof.
  intros Hc Hk w. unfold io_bind. specialize (Hc w).
  destruct (c w) as [[a | e] w1]; simpl in Hc.
  - apply appended_trans with w1; [exact Hc | apply Hk].
  - exact Hc.
Qed.

Lemma mirrors_for_each {A S} (body : S -> A -> io World S) (l : list A) :
  (forall s a, mirrors (body s a)) -> forall s, mirrors (for_each body l s).
Proof.
  intros Hbody. induction l as [| a l IH]; intros s; simpl.
  - apply mirrors_ret.
  - apply mirrors_bind; [apply Hbody | exact IH].
Qed.

Lemma mirrors_emit (pf : printer World) (text : result string) :
  report_printer pf -> mirrors (emit pf text).
Proof.
  intros [Hpf | Hpf]; subst pf.
  - apply mirrors_ret.
  - intros w. rewrite emit_Some. destruct text as [s | e]; cbn [snd].
    + apply appended_smart_print.
    + apply appended_refl.
Qed.

Lemma mirrors_smart_f (text : result string) : mirrors (smart_f text).
Proof. apply mirrors_emit. right. reflexivity. Qed.

End Mirror.

Create HintDb mirror.
#[export] Hint Resolve mirrors_ret mirrors_lift mirrors_smart mirrors_smart_f
  mirrors_emit : mirror.

Ltac mirror :=
  repeat (apply mirrors_bind; [| intros ?]);
  try match goal with |- mirrors (let '(_, _) := ?p in _) => destruct p end;
  auto with mirror.

Section MirrorScript.
Context {N : Type} {num : PyNum N}.
Variable fmt : Format N.

Lemma mirrors_process_type_1 (counts types : list N) (pf : printer World) :
  report_printer pf -> mirrors (process_type_1 fmt counts types pf).
Proof.
  intros Hpf. unfold process_type_1. apply mirrors_bind.
  - apply mirrors_for_each. intros [t_points t_tasks] [c t].
    unfold type_1_step. mirror.
  - intros [t_points t_tasks]. mirror.
Qed.

Lemma mirrors_process_type_2 (counts types : list N) (pf : printer World) :
  report_printer pf -> mirrors (process_type_2 fmt counts types pf).
Proof.
  intros Hpf. unfold process_type_2. apply mirrors_bind.
  - apply mirrors_for_each. intros [total_usd t_tasks] [c t].
    unfold type_2_step. mirror.
  - intros [total_usd t_tasks]. mirror.
Qed.

Lemma mirrors_provider_section
    (process : list N -> list N -> printer World -> io World N) (df : list (Row N)) :
  (forall c t pf, report_printer pf -> mirrors (process c t pf)) ->
  mirrors (provider_section fmt process df).
Proof.
  intros Hp. unfold provider_section. apply mirrors_for_each.
  intros [] d. unfold date_section.
  apply mirrors_bind; [auto with mirror | intros _].
  destruct (get_stats (amounts_on df d)) as [c t].
  apply mirrors_bind; [apply Hp; right; reflexivity | intros _; auto with mirror].
Qed.

Lemma mirrors_total_val
    (process : list N -> list N -> printer World -> io World N) (df : list (Row N)) :
  (forall c t pf, report_printer pf -> mirrors (process c t pf)) ->
  mirrors (total_val process df).
Proof.
  intros Hp. unfold total_val. destruct (empty df); [auto with mirror |].
  destruct (get_stats (map amount df)) as [c t]. apply Hp. left. reflexivity.
Qed.

Lemma mirrors_audit_report rate account start_date end_date t1 t2 :
  mirrors (audit_report fmt rate account start_date end_date t1 t2).
Proof.
  unfold audit_report.
  repeat (first [ apply mirrors_smart_f | apply mirrors_smart
                | apply mirrors_bind; [| intros ?] ]);
    auto using mirrors_provider_section, mirrors_total_val,
               mirrors_process_type_1, mirrors_process_type_2 with mirror.
Qed.

End MirrorScript.

(** X6. Whatever the audit report does, and whether it reaches its end or
    an exception stops it, the lines it adds to the console are the lines it
    adds to the open report file, in the same order, and nothing else is
    written to either. *)
Theorem report_mirrors_console :
  forall (N : Type) (num : PyNum N) (fmt : Format N) (rate : N)
         (account : string) (start_date end_date : timestamp)
         (t1 t2 : list (Row N)) (w : World) (name : string)
         (written : list string),
    report_file w = Some (name, written) ->
    exists lines : list string,
      stdout (snd (audit_report fmt rate account start_date end_date t1 t2 w)) =
        (stdout w ++ lines)%list /\
      report_file (snd (audit_report fmt rate account start_date end_date t1 t2 w)) =
        Some (name, (written ++ lines)%list).
Proof.
  intros N num fmt rate account start_date end_date t1 t2 w name written Hopen.
  destruct (mirrors_audit_report fmt rate account start_date end_date t1 t2 w)
    as (lines & Hout & Hrep).
  exists lines. split; [exact Hout |]. rewrite Hrep, Hopen. reflexivity.
Qed.

Lemma report_mirrors_console_witness :
  let fmt := Sample.plain_format pynum in
  let w := open_report "r.txt" initial_world in
  exists lines : list string,
    stdout (snd (audit_report fmt (PyInt 36) "A" (Some 1) (Some 2) [] [] w)) =
      (stdout w ++ lines)%list /\
    report_file (snd (audit_report fmt (PyInt 36) "A" (Some 1) (Some 2) [] [] w)) =
      Some ("r.txt"%string, ([] ++ lines)%list).
Proof.
  intros fmt w.
  exact (@report_mirrors_console pynum _ fmt (PyInt 36) "A"%string (Some 1)
           (Some 2) [] [] w "r.txt"%string [] eq_refl).
Defined.

(** ** [sys.exit()] is reached only before the report is opened *)

Section NoExit.
Variable W : Type.

Lemma no_exit_ret {A} (a : A) : no_exit (io_ret (W := W) a).
Proof. intros w. discriminate. Qed.

Lemma no_exit_do (f : W -> W) : no_exit (io_do f).
Proof. intros w. discriminate. Qed.

Lemma no_exit_lift {A} (r : result A) :
  r <> Raise SystemExit -> no_exit (io_lift (W := W) r).
Proof. intros Hr w. exact Hr. Qed.

Lemma no_exit_bind {A B} (c : io W A) (k : A -> io W B) :
  no_exit c -> (forall a, no_exit (k a)) -> no_exit (io_bind c k).
Proof.
  intros Hc Hk w. unfold io_bind. specialize (Hc w).
  destruct (c w) as [[a | e] w1]; simpl in *.
  - apply Hk.
  - intros Heq. apply Hc. inversion Heq. reflexivity.
Qed.

Lemma no_exit_for_each {A S} (body : S -> A -> io W S) (l : list A) :
  (forall s a, no_exit (body s a)) -> forall s, no_exit (for_each body l s).
Proof.
  intros Hbody. induction l as [| a l IH]; intros s; simpl.
  - apply no_exit_ret.
  - apply no_exit_bind; [apply Hbody | exact IH].
Qed.

Lemma no_exit_emit (pf : printer W) (text : result string) :
  text <> Raise SystemExit -> no_exit (emit pf text).
Proof.
  intros Ht. destruct pf as [f |]; intros w0; [| discriminate].
  rewrite emit_Some. destruct text as [s | e]; cbn [fst]; [discriminate |].
  intros Heq. apply Ht. inversion Heq. reflexivity.
Qed.

End NoExit.

Section NoExitScript.
Context {N : Type} {num : PyNum N}.
Hypothesis quiet : quiet_arithmetic N.
Variable fmt : Format N.
Variable to_datetime_text : string -> string + timestamp.

Lemma add_quiet (x y : N) : add x y <> Raise SystemExit.
Proof. apply quiet. Qed.
Lemma sub_quiet (x y : N) : sub x y <> Raise SystemExit.
Proof. apply quiet. Qed.
Lemma mul_quiet (x y : N) : mul x y <> Raise SystemExit.
Proof. apply quiet. Qed.
Lemma div_quiet (x y : N) : div x y <> Raise SystemExit.
Proof. apply quiet. Qed.

Lemma settle_quiet (raw rate : N) : settle raw rate <> Raise SystemExit.
Proof.
  unfold settle.
  repeat match goal with
         | |- rbind ?r _ <> _ =>
             let H := fresh in
             destruct r eqn:H; cbn [rbind];
             [| intros Heq; inversion Heq; subst;
                first [ exact (mul_quiet _ _ H) | exact (sub_quiet _ _ H)
                      | exact (div_quiet _ _ H) ] ]
         end.
  discriminate.
Qed.

Lemma no_exit_formatted (W : Type) (pf : printer W) (text : result string) :
  formatted N text -> no_exit (emit pf text).
Proof.
  intros Ht. apply no_exit_emit. intros Heq.
  apply (formatted_raises Ht) in Heq. discriminate Heq.
Qed.

Lemma no_exit_smart_f (text : result string) :
  formatted N text -> no_exit (smart_f text).
Proof. apply no_exit_formatted. Qed.

Ltac quiet_steps :=
  repeat (apply no_exit_bind; [| intros ?]);
  try (apply no_exit_formatted; formatted);
  auto using no_exit_ret, no_exit_do, no_exit_lift,
             add_quiet, sub_quiet, mul_quiet, div_quiet, settle_quiet.

Lemma no_exit_process_type_1 (W : Type) (counts types : list N) (pf : printer W) :
  no_exit (process_type_1 fmt counts types pf).
Proof.
  unfold process_type_1. apply no_exit_bind.
  - apply no_exit_for_each. intros [t_points t_tasks] [c t].
    unfold type_1_step. quiet_steps.
  - intros [t_points t_tasks]. quiet_steps.
Qed.

Lemma no_exit_process_type_2 (W : Type) (counts types : list N) (pf : printer W) :
  no_exit (process_type_2 fmt counts types pf).
Proof.
  unfold process_type_2. apply no_exit_bind.
  - apply no_exit_for_each. intros [total_usd t_tasks] [c t].
    unfold type_2_step. quiet_steps.
  - intros [total_usd t_tasks]. quiet_steps.
Qed.

Lemma no_exit_provider_section
    (process : list N -> list N -> printer World -> io World N) (df : list (Row N)) :
  (forall c t pf, no_exit (process c t pf)) ->
  no_exit (provider_section fmt process df).
Proof.
  intros Hp. unfold provider_section. apply no_exit_for_each.
  intros [] d. unfold date_section, smart.
  apply no_exit_bind; [apply no_exit_do | intros _].
  destruct (get_stats (amounts_on df d)) as [c t].
  apply no_exit_bind; [apply Hp | intros _; apply no_exit_ret].
Qed.

Lemma no_exit_total_val
    (process : list N -> list N -> printer World -> io World N) (df : list (Row N)) :
  (forall c t pf, no_exit (process c t pf)) -> no_exit (total_val process df).
Proof.
  intros Hp. unfold total_val. destruct (empty df); [apply no_exit_ret |].
  destruct (get_stats (map amount df)) as [c t]. apply Hp.
Qed.

Lemma no_exit_audit_report rate account start_date end_date t1 t2 :
  no_exit (audit_report fmt rate account start_date end_date t1 t2).
Proof.
  unfold audit_report, smart.
  repeat (first [ apply no_exit_smart_f; formatted
                | apply no_exit_bind; [| intros ?] ]);
    auto using no_exit_ret, no_exit_do, no_exit_lift, add_quiet, settle_quiet,
               no_exit_provider_section, no_exit_total_val,
               no_exit_process_type_1, no_exit_process_type_2.
Qed.

Lemma no_exit_input_date (text answer : string) :
  no_exit (input_date to_datetime_text text answer).
Proof.
  unfold input_date, prompt. apply no_exit_bind; [apply no_exit_do | intros _].
  destruct (to_datetime_text answer); [| apply no_exit_ret].
  apply no_exit_lift. discriminate.
Qed.

Lemma no_exit_settle_account (r : Run N) rate file df :
  no_exit (settle_account fmt to_datetime_text r rate file df).
Proof.
  unfold settle_account. cbv zeta.
  apply no_exit_bind; [apply no_exit_input_date | intros start_date].
  apply no_exit_bind; [apply no_exit_input_date | intros end_date].
  apply no_exit_bind; [apply no_exit_do | intros _].
  apply no_exit_bind; [apply no_exit_audit_report | intros s].
  apply no_exit_bind; [apply no_exit_do | intros _]. apply no_exit_ret.
Qed.

Lemma keeps_report_load (r : Run N) (file : string) :
  keeps_report (load to_datetime_text r file).
Proof.
  unfold load. destruct (read_excel r file) as [e | raw].
  - apply keeps_report_bind; [apply keeps_report_say | intros _; apply keeps_report_exit].
  - destruct (to_datetime to_datetime_text raw) as [e | df].
    + apply keeps_report_bind; [apply keeps_report_say | intros _; apply keeps_report_exit].
    + apply keeps_report_ret.
Qed.

End NoExitScript.

Lemma to_float_raises (x : pynum) (e : exn) :
  PyNumber.to_float x = Raise e -> e = OverflowError.
Proof.
  destruct x as [n | f]; simpl; [| discriminate].
  destruct (Float64.of_Z n); intros Heq; inversion Heq; reflexivity.
Qed.

Lemma pynum_arith_raises iop fop (x y : pynum) (e : exn) :
  PyNumber.arith iop fop x y = Raise e -> e = OverflowError.
Proof.
  unfold PyNumber.arith. destruct x as [a | f], y as [b | g].
  - discriminate.
  - destruct (PyNumber.to_float (PyInt a)) eqn:Ha; cbn [rbind PyNumber.to_float].
    + discriminate.
    + intros Heq. inversion Heq; subst. exact (to_float_raises _ Ha).
  - destruct (PyNumber.to_float (PyInt b)) eqn:Hb; cbn [rbind PyNumber.to_float].
    + discriminate.
    + intros Heq. inversion Heq; subst. exact (to_float_raises _ Hb).
  - cbn [PyNumber.to_float rbind]. discriminate.
Qed.

Lemma pynum_div_raises (x y : pynum) (e : exn) :
  PyNumber.py_div x y = Raise e -> e = OverflowError \/ e = ZeroDivisionError.
Proof.
  unfold PyNumber.py_div. destruct x as [a | f], y as [b | g].
  - destruct (b =? 0); [intros Heq; inversion Heq; auto |].
    destruct (Float64.int_truediv a b); intros Heq; inversion Heq; auto.
  - destruct (PyNumber.to_float (PyInt a)) as [fa | ea] eqn:Ha;
      cbn [rbind PyNumber.to_float].
    + destruct (Float64.is_zero g); intros Heq; inversion Heq; auto.
    + intros Heq. inversion Heq; subst. left. exact (to_float_raises _ Ha).
  - destruct (PyNumber.to_float (PyInt b)) as [fb | eb] eqn:Hb;
      cbn [rbind PyNumber.to_float].
    + destruct (Float64.is_zero fb); intros Heq; inversion Heq; auto.
    + intros Heq. inversion Heq; subst. left. exact (to_float_raises _ Hb).
  - cbn [PyNumber.to_float rbind].
    destruct (Float64.is_zero g); intros Heq; inversion Heq; auto.
Qed.

(** Python's arithmetic raises [OverflowError] and [ZeroDivisionError]
    only. *)
Lemma pynum_quiet : quiet_arithmetic pynum.
Proof.
  intros x y. repeat split; intros Heq.
  - apply pynum_arith_raises in Heq. discriminate Heq.
  - apply pynum_arith_raises in Heq. discriminate Heq.
  - apply pynum_arith_raises in Heq. discriminate Heq.
  - apply pynum_div_raises in Heq. destruct Heq; discriminate.
Qed.

Lemma Qc_quiet : quiet_arithmetic Qc.
Proof.
  intros x y. repeat split; try discriminate.
  simpl. unfold Exact.q_div. destruct (Qc_eq_dec y 0); discriminate.
Qed.

(** X7. Whenever a run ends in [sys.exit()], the report file is as it was
    before the run: the exits are all before the report is opened, and
    nothing after that point exits. Arithmetic is taken to raise arithmetic
    errors only, as Python's and exact arithmetic do. *)
Theorem exit_leaves_no_report :
  forall (N : Type) (num : PyNum N) (fmt : Format N)
         (to_datetime_text : string -> string + timestamp)
         (r : Run N) (w w' : World),
    quiet_arithmetic N ->
    main fmt to_datetime_text r w = (Raise SystemExit, w') ->
    report_file w' = report_file w.
Proof.
  intros N num fmt to_datetime_text r w w' Hquiet. unfold main, io_bind.
  pose proof (keeps_report_bcv_rate fmt r w) as H1.
  destruct (bcv_rate fmt r w) as [[rate | e] w1]; simpl in H1.
  2: { intros Heq. inversion Heq; subst. exact H1. }
  pose proof (keeps_report_data_selection r w1) as H2.
  destruct (data_selection r w1) as [[file | e] w2]; simpl in H2.
  2: { intros Heq. inversion Heq; subst. congruence. }
  pose proof (keeps_report_load to_datetime_text r file w2) as H3.
  destruct (load to_datetime_text r file w2) as [[df | e] w3]; simpl in H3.
  2: { intros Heq. inversion Heq; subst. congruence. }
  intros Heq.
  pose proof (no_exit_settle_account Hquiet fmt to_datetime_text r rate file df w3)
    as Hno.
  rewrite Heq in Hno. destruct Hno. reflexivity.
Qed.

Lemma exit_leaves_no_report_witness :
  let r := Sample.run_of (Raise ValueError) (inr Sample.ledger) (PyInt 36) in
  let out := main (Sample.plain_format pynum) Sample.parse_day r initial_world in
  quiet_arithmetic pynum /\
  fst out = Raise SystemExit /\
  report_file (snd out) = None.
Proof.
  intros r out. split; [exact pynum_quiet |].
  split; [vm_compute; reflexivity |].
  apply (@exit_leaves_no_report pynum _ (Sample.plain_format pynum)
           Sample.parse_day r initial_world (snd out) pynum_quiet).
  vm_compute. reflexivity.
Defined.

(** ** A run that reaches its end *)

Section Completed.
Context {N : Type} {num : PyNum N}.
Variable fmt : Format N.
Variable to_datetime_text : string -> string + timestamp.
Local Open Scope string_scope.

Lemma input_date_Ok (text answer : string) (w w' : World) (d : timestamp) :
  input_date to_datetime_text text answer w = (Ok d, w') ->
  to_datetime_text answer = inr d /\ w' = write_stdout text w.
Proof.
  unfold input_date, io_bind, prompt, io_do.
  destruct (to_datetime_text answer) as [e | d0]; intros Heq; inversion Heq.
  split; reflexivity.
Qed.

Lemma data_selection_Ok (r : Run N) (w w' : World) (file : string) :
  data_selection r w = (Ok file, w') ->
  selected_file (files r) (choice_input r) = Ok file.
Proof.
  unfold data_selection. intros H. do 5 io_step H.
  destruct (selected_file (files r) (choice_input r)) as [f | e].
  - unfold io_ret in H. inversion H. reflexivity.
  - unfold io_bind, say, io_do, sys_exit, io_lift in H. discriminate H.
Qed.

Lemma selected_file_In (files : list string) (choice_input : result Z) file :
  selected_file files choice_input = Ok file -> In file files.
Proof.
  unfold selected_file. destruct choice_input as [choice | e]; [| discriminate].
  cbn [rbind]. intros H. apply list_index_Ok in H.
  destruct H as [[_ H] | [_ H]]; exact (nth_error_In _ _ H).
Qed.

End Completed.

(** X8. A run that reaches its end has written one report, named after
    the account of a listed file and the start date the operator gave; the
    console ends with the lines of that report followed by the line that
    says where it was saved. *)
Theorem completed_run_leaves_report :
  forall (N : Type) (num : PyNum N) (fmt : Format N)
         (to_datetime_text : string -> string + timestamp)
         (r : Run N) (w w' : World) (s : Settlement N),
    main fmt to_datetime_text r w = (Ok s, w') ->
    exists (file : string) (start_date : timestamp)
           (lines before : list string),
      In file (files r) /\
      to_datetime_text (start_input r) = inr start_date /\
      report_file w' =
        Some (report_name fmt (account_id file) start_date, lines) /\
      stdout w' =
        before ++ lines ++
        [saved_line (report_name fmt (account_id file) start_date)].
Proof.
  intros N num fmt to_datetime_text r w w' s H. unfold main, io_bind in H.
  destruct (bcv_rate fmt r w) as [[rate | e] w1]; [| discriminate H].
  destruct (data_selection r w1) as [[file | e] w2] eqn:Hsel; [| discriminate H].
  destruct (load to_datetime_text r file w2) as [[df | e] w3]; [| discriminate H].
  unfold settle_account in H. cbv zeta in H. unfold io_bind in H.
  destruct (input_date to_datetime_text _ (start_input r) w3)
    as [[start_date | e] w4] eqn:Hstart; [| discriminate H].
  destruct (input_date to_datetime_text _ (end_input r) w4)
    as [[end_date | e] w5] eqn:Hend; [| discriminate H].
  unfold io_do at 1 in H. cbv iota beta in H.
  set (name := report_name fmt (account_id file) start_date) in *.
  pose proof (mirrors_audit_report fmt rate (account_id file) start_date end_date
                (df_t1 (df_filtered (df_clean df) start_date end_date))
                (df_t2 (df_filtered (df_clean df) start_date end_date))
                (open_report name w5)) as (lines & Hout & Hrep).
  destruct (audit_report fmt rate (account_id file) start_date end_date _ _
              (open_report name w5)) as [[s0 | e] w6]; [| discriminate H].
  unfold say, io_do, io_ret in H. inversion H; subst; clear H.
  apply data_selection_Ok in Hsel. apply selected_file_In in Hsel.
  apply input_date_Ok in Hstart. destruct Hstart as [Hstart _].
  exists file, start_date, lines, (stdout w5).
  split; [exact Hsel |]. split; [exact Hstart |]. split.
  - cbn [print write_stdout report_file]. simpl in Hrep. exact Hrep.
  - cbn [print write_stdout stdout]. simpl in Hout. rewrite Hout.
    rewrite <- app_assoc. reflexivity.
Qed.

Lemma completed_run_leaves_report_witness :
  let fmt := Sample.plain_format pynum in
  let r := Sample.run (PyInt 36) in
  exists (s : Settlement pynum) (w' : World) (file : string) (lines : list string),
    main fmt Sample.parse_day r initial_world = (Ok s, w') /\
    In file (files r) /\
    report_file w' = Some (report_name fmt (account_id file) (Some 1), lines).
Proof.
  intros fmt r.
  assert (Hrun : exists s w',
             main fmt Sample.parse_day r initial_world = (Ok s, w')).
  { eexists. eexists. vm_compute. reflexivity. }
  destruct Hrun as (s & w' & Hrun).
  destruct (@completed_run_leaves_report pynum _ fmt Sample.parse_day r
              initial_world w' s Hrun)
    as (file & start_date & lines & before & Hfile & Hstart & Hrep & _).
  exists s, w', file, lines. split; [exact Hrun |]. split; [exact Hfile |].
  assert (Hd : start_date = Some 1).
  { vm_compute in Hstart. inversion Hstart. reflexivity. }
  rewrite <- Hd. exact Hrep.
Defined.

(** ** A rate nothing can be divided by, and dates that do not parse *)

Section LateFailures.
Context {N : Type} {num : PyNum N}.
Variable fmt : Format N.
Variable to_datetime_text : string -> string + timestamp.
Local Open Scope string_scope.

Lemma input_date_parsed (text answer : string) (w : World) (d : timestamp) :
  to_datetime_text answer = inr d ->
  input_date to_datetime_text text answer w = (Ok d, write_stdout text w).
Proof.
  intros Hd. unfold input_date, io_bind, prompt, io_do. rewrite Hd. reflexivity.
Qed.

Lemma input_date_refused (text answer : string) (w : World) (e : string) :
  to_datetime_text answer = inl e ->
  input_date to_datetime_text text answer w =
  (Raise (LibraryError e), write_stdout text w).
Proof.
  intros Hd. unfold input_date, io_bind, prompt, io_do. rewrite Hd. reflexivity.
Qed.

Lemma appended_after_smart {A} (text : string) (k : unit -> io World A) (w : World) :
  (forall a, mirrors (k a)) ->
  appended (smart_print text w) (snd (io_bind (smart text) k w)).
Proof. intros Hk. unfold io_bind, smart, io_do. apply Hk. Qed.

(** The report starts with its first rule, whatever happens next. *)
Lemma audit_report_header rate account start_date end_date t1 t2 (w : World)
    (name : string) (written : list string) :
  report_file w = Some (name, written) ->
  exists lines,
    report_file (snd (audit_report fmt rate account start_date end_date t1 t2 w)) =
    Some (name, (written ++ (double_rule ++ nl)%string :: lines)%list).
Proof.
  intros Hopen.
  assert (Happ : appended (smart_print double_rule w)
                   (snd (audit_report fmt rate account start_date end_date t1 t2 w))).
  { unfold audit_report. apply appended_after_smart. intros _.
    repeat (first [ apply mirrors_smart_f | apply mirrors_smart
                  | apply mirrors_bind; [| intros ?] ]);
      auto using mirrors_provider_section, mirrors_total_val,
                 mirrors_process_type_1, mirrors_process_type_2 with mirror. }
  destruct Happ as (lines & _ & Hrep). exists lines. rewrite Hrep.
  unfold smart_print, write_report, print, write_stdout. cbn [report_file].
  rewrite Hopen. cbn [option_map fst snd]. rewrite <- app_assoc. reflexivity.
Qed.

Lemma audit_report_needs_division rate account start_date end_date t1 t2 w s w' :
  audit_report fmt rate account start_date end_date t1 t2 w = (Ok s, w') ->
  exists x y, div x rate = Ok y.
Proof.
  intros Hrun. apply audit_report_settles in Hrun.
  destruct Hrun as (v1 & v2 & raw & w1 & _ & _ & _ & Hs).
  apply settle_chain in Hs. destruct Hs as [_ _ _ _ _ _ _ _ Hdiv _].
  eauto.
Qed.

End LateFailures.

(** X9. When nothing can be divided by the rate, as with a rate of zero,
    the audit report does not reach its end: an exception stops it, and the
    open report file is left with what it held and the lines written so
    far, the first rule among them. *)
Theorem undividable_rate_leaves_partial_report :
  forall (N : Type) (num : PyNum N) (fmt : Format N) (rate : N)
         (account : string) (start_date end_date : timestamp)
         (t1 t2 : list (Row N)) (w : World) (name : string)
         (written : list string),
    (forall x y, div x rate <> Ok y) ->
    report_file w = Some (name, written) ->
    exists (e : exn) (w' : World) (lines : list string),
      audit_report fmt rate account start_date end_date t1 t2 w = (Raise e, w') /\
      report_file w' =
        Some (name, (written ++ (double_rule ++ nl)%string :: lines)%list).
Proof.
  intros N num fmt rate account start_date end_date t1 t2 w name written
         Hzero Hopen.
  destruct (audit_report_header fmt rate account start_date end_date t1 t2
              w Hopen) as [lines Hrep].
  destruct (audit_report fmt rate account start_date end_date t1 t2 w)
    as [[s | e] w1] eqn:Hrun.
  - apply audit_report_needs_division in Hrun. destruct Hrun as (x & y & Hdiv).
    destruct (Hzero x y Hdiv).
  - exists e, w1, lines. split; [reflexivity | exact Hrep].
Qed.

Lemma float_zero_undividable (negative : bool) (x y : pynum) :
  div x (PyFloat (S754_zero negative)) <> Ok y.
Proof.
  change (PyNumber.py_div x (PyFloat (S754_zero negative)) <> Ok y).
  unfold PyNumber.py_div. destruct x as [a | f].
  - destruct (PyNumber.to_float (PyInt a)); cbn [rbind PyNumber.to_float Float64.is_zero];
      discriminate.
  - cbn [rbind PyNumber.to_float Float64.is_zero]. discriminate.
Qed.

Lemma undividable_rate_leaves_partial_report_witness :
  let fmt := Sample.plain_format pynum in
  let zero := PyFloat (S754_zero false) in
  let w := open_report "r.txt" initial_world in
  (forall x y : pynum, div x zero <> Ok y) /\
  exists e w' lines,
    audit_report fmt zero "A" (Some 1) (Some 2) [] [] w = (Raise e, w') /\
    report_file w' =
      Some ("r.txt"%string, ([] ++ (double_rule ++ nl)%string :: lines)%list).
Proof.
  intros fmt zero w.
  split; [exact (float_zero_undividable false) |].
  exact (@undividable_rate_leaves_partial_report pynum _ fmt zero "A"%string
           (Some 1) (Some 2) [] [] w "r.txt"%string []
           (float_zero_undividable false) eq_refl).
Defined.

(** X10. A start date or an end date that [pd.to_datetime] refuses ends
    the run with that exception, which nothing catches: no message, no
    [sys.exit()]; only the prompts are on the console, the second only when
    the first date parsed, and the report file is not opened. *)
Theorem unparsable_input_date_is_uncaught :
  forall (N : Type) (num : PyNum N) (fmt : Format N)
         (to_datetime_text : string -> string + timestamp)
         (r : Run N) (rate : N) (file : string) (df : list (Row N)) (w : World),
    (forall e, to_datetime_text (start_input r) = inl e ->
       settle_account fmt to_datetime_text r rate file df w =
         (Raise (LibraryError e),
          write_stdout "Settlement Start Date (YYYY-MM-DD): " w)) /\
    (forall start_date e,
       to_datetime_text (start_input r) = inr start_date ->
       to_datetime_text (end_input r) = inl e ->
       settle_account fmt to_datetime_text r rate file df w =
         (Raise (LibraryError e),
          write_stdout "Settlement End Date (YYYY-MM-DD): "
            (write_stdout "Settlement Start Date (YYYY-MM-DD): " w))).
Proof.
  intros N num fmt to_datetime_text r rate file df w. split.
  - intros e Hstart. unfold settle_account. cbv zeta. unfold io_bind.
    rewrite (input_date_refused to_datetime_text _ _ _ Hstart). reflexivity.
  - intros start_date e Hstart Hend. unfold settle_account. cbv zeta. unfold io_bind.
    rewrite (input_date_parsed to_datetime_text _ _ _ Hstart), (input_date_refused to_datetime_text _ _ _ Hend).
    reflexivity.
Qed.

Lemma unparsable_input_date_is_uncaught_witness :
  let fmt := Sample.plain_format pynum in
  let r : Run pynum :=
    {| get_rate := inr (PyInt 36); manual_rate := Raise ValueError;
       data_dir := "data"%string; data_dir_exists := true;
       files := ["acct_a.xlsx"%string]; choice_input := Ok 1;
       read_excel := fun _ => inr Sample.ledger;
       start_input := "yesterday"%string; end_input := "2"%string |} in
  exists e,
    Sample.parse_day (start_input r) = inl e /\
    fst (settle_account fmt Sample.parse_day r (PyInt 36) "acct_a.xlsx"%string
           [] initial_world) = Raise (LibraryError e).
Proof.
  intros fmt r. eexists. split; [vm_compute; reflexivity |].
  rewrite (proj1 (@unparsable_input_date_is_uncaught pynum _ fmt Sample.parse_day
                    r (PyInt 36) "acct_a.xlsx"%string [] initial_world) _
             ltac:(vm_compute; reflexivity)).
  reflexivity.
Defined.

(** ** The stages before the dates: directory, selection, load *)

Section DataStages.
Context {N : Type} {num : PyNum N}.
Variable to_datetime_text : string -> string + timestamp.
Local Open Scope string_scope.

(** With a directory and at least one file, the selection comes down to
    the [try] block: the listing and the prompt always happen. *)
Lemma data_selection_listed (r : Run N) (w : World) :
  data_dir_exists r = true ->
  files r <> [] ->
  exists w1,
    data_selection r w =
    match selected_file (files r) (choice_input r) with
    | Ok file => (Ok file, w1)
    | Raise _ => (Raise SystemExit, print "❌ Invalid selection." w1)
    end.
Proof.
  intros Hdir Hfiles. unfold data_selection. rewrite Hdir.
  destruct (files r) as [| f rest] eqn:Hf; [destruct Hfiles; reflexivity |].
  cbv beta iota delta [io_bind io_ret say prompt io_do sys_exit io_lift].
  set (w0 := print (nl ++ "--- Available Accounts for Settlement ---") w).
  destruct (list_accounts_returns (f :: rest) 1 w0) as [w1 Hlist].
  rewrite Hlist. cbv beta iota.
  eexists. destruct (selected_file (f :: rest) (choice_input r)); reflexivity.
Qed.

Lemma selected_file_refuses (files : list string) (choice_input : result Z) :
  (forall c, choice_input = Ok c ->
             c < 1 - Z.of_nat (List.length files) \/ Z.of_nat (List.length files) < c) ->
  exists e, selected_file files choice_input = Raise e.
Proof.
  intros Hout. destruct choice_input as [c | e].
  - destruct (selected_file files (Ok c)) as [file | e] eqn:Hsel; [| eauto].
    assert (Hacc : exists file, selected_file files (Ok c) = Ok file) by eauto.
    apply selected_file_accepts in Hacc. destruct (Hout c eq_refl); lia.
  - exists e. reflexivity.
Qed.

End DataStages.

(** X11. Once the rate is known, a missing data directory ends the run
    with its message and [sys.exit()], whatever the directory listing would
    give, and so does a directory with no dataset: nothing is listed, nothing
    is asked, no report is opened. *)
Theorem missing_data_stops_run :
  forall (N : Type) (num : PyNum N) (fmt : Format N)
         (to_datetime_text : string -> string + timestamp)
         (r : Run N) (w w1 : World) (rate : N),
    bcv_rate fmt r w = (Ok rate, w1) ->
    (data_dir_exists r = false ->
     main fmt to_datetime_text r w =
       (Raise SystemExit,
        print "❌ Error: Data directory not found." w1)) /\
    (data_dir_exists r = true -> files r = [] ->
     main fmt to_datetime_text r w =
       (Raise SystemExit,
        print ("❌ Error: No datasets found in " ++ data_dir r) w1)).
Proof.
  intros N num fmt to_datetime_text r w w1 rate Hrate.
  split; [intros Hdir | intros Hdir Hfiles];
    unfold main; unfold io_bind at 1; rewrite Hrate;
    unfold io_bind at 1; unfold data_selection; rewrite Hdir;
    [| rewrite Hfiles]; reflexivity.
Qed.

Lemma missing_data_stops_run_witness :
  let fmt := Sample.plain_format pynum in
  let r : Run pynum :=
    {| get_rate := inr (PyInt 36); manual_rate := Raise ValueError;
       data_dir := "data"%string; data_dir_exists := false;
       files := ["acct_a.xlsx"%string]; choice_input := Ok 1;
       read_excel := fun _ => inr Sample.ledger;
       start_input := "1"%string; end_input := "2"%string |} in
  exists w1,
    main fmt Sample.parse_day r initial_world =
      (Raise SystemExit, print "❌ Error: Data directory not found." w1) /\
    report_file w1 = None.
Proof.
  intros fmt r.
  exists (snd (bcv_rate fmt r initial_world)). split; [| reflexivity].
  apply (proj1 (@missing_data_stops_run pynum _ fmt Sample.parse_day r
                  initial_world (snd (bcv_rate fmt r initial_world)) (PyInt 36)
                  eq_refl)).
  reflexivity.
Defined.

(** X12. With a directory holding [n] files, the selection goes through
    exactly when the operator enters a whole number from [1 - n] to [n], and
    the file it picks is one of those listed; any other number, and anything
    that is not a whole number, ends the run with the invalid-selection
    message and [sys.exit()] after the listing and the prompt. *)
Theorem selection_range :
  forall (N : Type) (num : PyNum N) (r : Run N) (w : World),
    data_dir_exists r = true ->
    files r <> [] ->
    ((exists file w', data_selection r w = (Ok file, w')) <->
     (exists c, choice_input r = Ok c /\
                1 - Z.of_nat (List.length (files r)) <= c <=
                Z.of_nat (List.length (files r)))) /\
    (forall file w', data_selection r w = (Ok file, w') -> In file (files r)) /\
    ((forall c, choice_input r = Ok c ->
                c < 1 - Z.of_nat (List.length (files r)) \/
                Z.of_nat (List.length (files r)) < c) ->
     exists w',
       data_selection r w =
         (Raise SystemExit, print "❌ Invalid selection." w') /\
       report_file w' = report_file w).
Proof.
  intros N num r w Hdir Hfiles.
  destruct (data_selection_listed r w Hdir Hfiles) as [w1 Hsel].
  split; [| split].
  - split.
    + intros (file & w' & Hok). apply data_selection_Ok in Hok.
      destruct (choice_input r) as [c | e] eqn:Hc; [| discriminate Hok].
      exists c. split; [reflexivity |]. apply selected_file_accepts. eauto.
    + intros (c & Hc & Hrange). rewrite Hc in Hsel.
      apply selected_file_accepts in Hrange. destruct Hrange as [file Hfile].
      rewrite Hfile in Hsel. eauto.
  - intros file w' Hok. apply data_selection_Ok in Hok.
    exact (selected_file_In _ _ Hok).
  - intros Hout. apply selected_file_refuses in Hout. destruct Hout as [e He].
    destruct (refused_selection_exits r w Hdir Hfiles He) as (w2 & Hexit & Hrep).
    exists w2. split; [exact Hexit |]. exact Hrep.
Qed.

Lemma selection_range_witness :
  let r : Run pynum := Sample.run_of (Ok 3) (inr Sample.ledger) (PyInt 36) in
  exists w',
    data_selection r initial_world =
      (Raise SystemExit, print "❌ Invalid selection." w') /\
    report_file w' = report_file initial_world.
Proof.
  intros r.
  apply (proj2 (proj2 (@selection_range pynum _ r initial_world eq_refl
                         ltac:(discriminate)))).
  intros c Hc. inversion Hc. right. vm_compute. reflexivity.
Defined.

(** X14. When the start date is after the end date, or either of them is
    [NaT], no row is selected: both providers' frames are empty. A row whose
    date is [NaT] is in neither frame, whatever the dates. *)
Theorem empty_period_selects_nothing :
  forall (N : Type) (num : PyNum N) (df : list (Row N))
         (start_date end_date : timestamp),
    (forall r, In r df -> date r = None ->
               ~ In r (provider_1 df start_date end_date) /\
               ~ In r (provider_2 df start_date end_date)) /\
    (ts_leb start_date end_date = false ->
     provider_1 df start_date end_date = [] /\
     provider_2 df start_date end_date = []).
Proof.
  intros N num df start_date end_date. split.
  - intros r _ Hnat. split; intros Hin;
      [apply provider_1_In in Hin | apply provider_2_In in Hin];
      destruct Hin as (_ & _ & (d & s & e & Hd & _) & _);
      rewrite Hnat in Hd; discriminate Hd.
  - intros Hinv.
    assert (Hnone : forall r : Row N, ~ in_range start_date end_date r).
    { intros r (d & s & e & _ & Hs & He & Hsd & Hde). subst.
      cbn [ts_leb] in Hinv. apply Z.leb_gt in Hinv. lia. }
    split.
    + destruct (provider_1 df start_date end_date) as [| r rest] eqn:Hp; [reflexivity |].
      assert (Hin : In r (provider_1 df start_date end_date))
        by (rewrite Hp; left; reflexivity).
      apply provider_1_In in Hin. destruct Hin as (_ & _ & Hr & _).
      destruct (Hnone r Hr).
    + destruct (provider_2 df start_date end_date) as [| r rest] eqn:Hp; [reflexivity |].
      assert (Hin : In r (provider_2 df start_date end_date))
        by (rewrite Hp; left; reflexivity).
      apply provider_2_In in Hin. destruct Hin as (_ & _ & Hr & _).
      destruct (Hnone r Hr).
Qed.

Lemma empty_period_selects_nothing_witness :
  provider_1 (N := pynum) [] (Some 2) (Some 1) = [] /\
  provider_2 (N := pynum) [] (Some 2) (Some 1) = [].
Proof.
  exact (proj2 (@empty_period_selects_nothing pynum _ [] (Some 2) (Some 1))
           eq_refl).
Defined.

(** ** The raw total and the shares, end to end, in exact arithmetic *)

Module ExactRun.
Import ExactArith.
Local Open Scope Qc_scope.

Section Account.
Variable fmt : Format Qc.
Variable to_datetime_text : string -> string + timestamp.

Lemma total_val_1_all (df : list (Row Qc)) (w : World) :
  fst (total_val (process_type_1 fmt (W := World)) df w) =
  Ok (qsum (map amount df) / hundred).
Proof.
  destruct df as [| r df].
  - unfold total_val. cbn [empty io_ret fst map qsum fold_right]. f_equal.
    apply ExactSettlement.Qc_decide. vm_compute. reflexivity.
  - apply DayTotals.total_val_1_exact. discriminate.
Qed.

End Account.

Lemma shares (raw rate : Qc) :
  let s := figures raw rate in
  comm_usdt s = raw * of_decimal 75 3 /\
  owner_usdt s = raw * of_decimal 675 3 /\
  owner_ves s = of_int 9 * comm_ves s /\
  comm_ves s + owner_ves s = total_usdt s * market_rate s.
Proof.
  assert (Hl : liquidation = Q2Qc (3 # 4))
    by (apply ExactSettlement.Qc_decide; vm_compute; reflexivity).
  assert (Hf : fee = Q2Qc (1 # 10))
    by (apply ExactSettlement.Qc_decide; vm_compute; reflexivity).
  assert (H75 : of_decimal 75 3 = Q2Qc (3 # 4) * Q2Qc (1 # 10))
    by (apply ExactSettlement.Qc_decide; vm_compute; reflexivity).
  assert (H675 : of_decimal 675 3 =
                 Q2Qc (3 # 4) - Q2Qc (3 # 4) * Q2Qc (1 # 10))
    by (apply ExactSettlement.Qc_decide; vm_compute; reflexivity).
  assert (H9 : (of_int 9 : Qc) * Q2Qc (1 # 10) = 1 - Q2Qc (1 # 10))
    by (apply ExactSettlement.Qc_decide; vm_compute; reflexivity).
  unfold figures.
  cbn [comm_usdt owner_usdt owner_ves comm_ves total_usdt market_rate].
  rewrite Hl, Hf, H75, H675.
  split; [ring |]. split; [ring |]. split; [| ring].
  transitivity (raw * Q2Qc (3 # 4) * (1 - Q2Qc (1 # 10)) * (rate * spread));
    [ring |].
  rewrite <- H9. ring.
Qed.

End ExactRun.

(** X15. In exact arithmetic and for every loaded frame, when the script
    from the date prompts on reaches its end, the raw total is one hundredth
    of the sum of the amounts of the first provider's frame plus the sum of
    the amounts of the second provider's frame, the two frames being those of
    the loaded frame and of the two dates the operator gave. *)
Theorem raw_total_is_sum_of_selected_amounts :
  forall (fmt : Format Qc) (to_datetime_text : string -> string + timestamp)
         (r : Run Qc) (rate : Qc) (file : string) (df : list (Row Qc))
         (w w' : World) (s : Settlement Qc),
    settle_account fmt to_datetime_text r rate file df w = (Ok s, w') ->
    exists start_date end_date : timestamp,
      to_datetime_text (start_input r) = inr start_date /\
      to_datetime_text (end_input r) = inr end_date /\
      total_raw_usd s =
        (qsum (map amount (provider_1 df start_date end_date)) / of_int 100 +
         qsum (map amount (provider_2 df start_date end_date)))%Qc.
Proof.
  intros fmt to_datetime_text r rate file df w w' s.
  unfold settle_account. cbv zeta. unfold io_bind.
  destruct (input_date _ _ (start_input r) w) as [[sd | e] w1] eqn:Hsd;
    [| discriminate].
  destruct (input_date _ _ (end_input r) w1) as [[ed | e] w2] eqn:Hed;
    [| discriminate].
  apply input_date_Ok in Hsd. apply input_date_Ok in Hed.
  unfold io_do at 1. cbv iota beta.
  destruct (audit_report _ _ _ _ _ _ _ _) as [[s0 | e] w3] eqn:Hrun;
    [| discriminate].
  unfold say, io_do, io_ret. intros Heq. inversion Heq. subst s0.
  apply audit_report_settles in Hrun.
  destruct Hrun as (v1 & v2 & raw & wt & Hv1 & Hv2 & Hadd & Hs).
  apply (f_equal fst) in Hv1. apply (f_equal fst) in Hv2.
  rewrite ExactRun.total_val_1_all in Hv1.
  rewrite DayTotals.total_val_2_exact in Hv2.
  cbn [fst] in Hv1, Hv2. inversion Hv1. inversion Hv2. subst v1 v2.
  apply settle_chain in Hs. destruct Hs as [Hraw _ _ _ _ _ _ _ _ _].
  exists sd, ed. split; [apply Hsd |]. split; [apply Hed |].
  rewrite Hraw. inversion Hadd. reflexivity.
Qed.

Lemma raw_total_is_sum_of_selected_amounts_witness :
  let fmt := Sample.plain_format Qc in
  let r := Sample.run (of_int 36 : Qc) in
  let row (d : Z) (plat : string) (a : Qc) : Row Qc :=
    {| date := Some d; description := "Survey"%string; platform := plat;
       amount := a |} in
  let df := [row 1 "Digital_Assets_Type_1"%string (of_int 50);
             row 2 "Digital_Assets_Type_2"%string (of_decimal 25 1);
             row 3 "Digital_Assets_Type_2"%string (of_int 4)] in
  exists (s : Settlement Qc) (w' : World),
    settle_account fmt Sample.parse_day r (of_int 36) "acct_a.xlsx"%string df
      initial_world = (Ok s, w') /\
    exists start_date end_date,
      Sample.parse_day (start_input r) = inr start_date /\
      Sample.parse_day (end_input r) = inr end_date /\
      total_raw_usd s =
        (qsum (map amount (provider_1 df start_date end_date)) / of_int 100 +
         qsum (map amount (provider_2 df start_date end_date)))%Qc.
Proof.
  intros fmt r row df.
  assert (Hrun : exists s w',
             settle_account fmt Sample.parse_day r (of_int 36)
               "acct_a.xlsx"%string df initial_world = (Ok s, w')).
  { eexists. eexists. vm_compute. reflexivity. }
  destruct Hrun as (s & w' & Hrun). exists s, w'. split; [exact Hrun |].
  exact (@raw_total_is_sum_of_selected_amounts fmt Sample.parse_day r (of_int 36)
           "acct_a.xlsx"%string df initial_world w' s Hrun).
Defined.

(** X16. In exact arithmetic, in the settlement of a run that reaches its
    end the commission is 7.5 % of the raw total and the owner's share
    67.5 %, the owner's VES are nine times the commission's VES, and the two
    together are the liquidated total at the market rate. *)
Theorem settlement_shares :
  forall (fmt : Format Qc) (to_datetime_text : string -> string + timestamp)
         (r : Run Qc) (w w' : World) (s : Settlement Qc),
    main fmt to_datetime_text r w = (Ok s, w') ->
    (comm_usdt s = total_raw_usd s * of_decimal 75 3 /\
     owner_usdt s = total_raw_usd s * of_decimal 675 3 /\
     owner_ves s = of_int 9 * comm_ves s /\
     comm_ves s + owner_ves s = total_usdt s * market_rate s)%Qc.
Proof.
  intros fmt to_datetime_text r w w' s Hrun.
  apply main_settles in Hrun. destruct Hrun as (rate & raw & w0 & w1 & _ & Hs).
  apply ExactSettlement.settle_exact_inv in Hs. destruct Hs as [_ Hs]. subst s.
  exact (ExactRun.shares raw rate).
Qed.

Lemma settlement_shares_witness :
  let fmt := Sample.plain_format Qc in
  let r := Sample.run (of_int 36 : Qc) in
  exists (s : Settlement Qc) (w' : World),
    main fmt Sample.parse_day r initial_world = (Ok s, w') /\
    (owner_ves s = of_int 9 * comm_ves s)%Qc.
Proof.
  intros fmt r.
  assert (Hrun : exists s w',
             main fmt Sample.parse_day r initial_world = (Ok s, w')).
  { eexists. eexists. vm_compute. reflexivity. }
  destruct Hrun as (s & w' & Hrun). exists s, w'. split; [exact Hrun |].
  exact (proj1 (proj2 (proj2 (@settlement_shares fmt Sample.parse_day r
                                initial_world w' s Hrun)))).
Defined.

(** ** Where the rate comes from *)

Section Oblivious.
Context {W : Type}.

Lemma oblivious_ret {A} (a : A) : oblivious (io_ret (W := W) a).
Proof. intros w w'. reflexivity. Qed.

Lemma oblivious_lift {A} (r : result A) : oblivious (io_lift (W := W) r).
Proof. intros w w'. reflexivity. Qed.

Lemma oblivious_do (f : W -> W) : oblivious (io_do f).
Proof. intros w w'. reflexivity. Qed.

Lemma oblivious_bind {A B} (c : io W A) (k : A -> io W B) :
  oblivious c -> (forall a, oblivious (k a)) -> oblivious (io_bind c k).
Proof.
  intros Hc Hk w w'. unfold io_bind. specialize (Hc w w').
  destruct (c w) as [[a | e] w1], (c w') as [[a' | e'] w1'];
    cbn [fst] in Hc; try discriminate Hc.
  - inversion Hc. subst a'. apply Hk.
  - inversion Hc. reflexivity.
Qed.

Lemma oblivious_for_each {A S} (body : S -> A -> io W S) (l : list A) :
  (forall s x, oblivious (body s x)) -> forall s, oblivious (for_each body l s).
Proof.
  intros Hbody. induction l as [| x rest IH]; intros s; cbn [for_each].
  - apply oblivious_ret.
  - apply oblivious_bind; [apply Hbody | exact IH].
Qed.

Lemma oblivious_emit (pf : printer W) (text : result string) :
  oblivious (emit pf text).
Proof.
  destruct pf as [f |]; [| apply oblivious_ret].
  intros w w'. rewrite !emit_Some. destruct text; reflexivity.
Qed.

End Oblivious.

Ltac oblivious_steps :=
  repeat (apply oblivious_bind; [| intros ?]);
  first [ apply oblivious_emit | apply oblivious_lift | apply oblivious_ret
        | apply oblivious_do ].

Section ObliviousScript.
Context {N : Type} {num : PyNum N}.
Variable fmt : Format N.
Variable to_datetime_text : string -> string + timestamp.
Local Open Scope string_scope.

Lemma oblivious_process_type_1 (counts types : list N) (pf : printer World) :
  oblivious (process_type_1 fmt counts types pf).
Proof.
  unfold process_type_1. apply oblivious_bind.
  - apply oblivious_for_each. intros [t_points t_tasks] [c t].
    unfold type_1_step. oblivious_steps.
  - intros [t_points t_tasks]. oblivious_steps.
Qed.

Lemma oblivious_process_type_2 (counts types : list N) (pf : printer World) :
  oblivious (process_type_2 fmt counts types pf).
Proof.
  unfold process_type_2. apply oblivious_bind.
  - apply oblivious_for_each. intros [total_usd t_tasks] [c t].
    unfold type_2_step. oblivious_steps.
  - intros [total_usd t_tasks]. oblivious_steps.
Qed.

Lemma oblivious_smart_f (text : result string) : oblivious (smart_f text).
Proof. apply oblivious_emit. Qed.

Lemma oblivious_provider_section process (df : list (Row N)) :
  (forall c t pf, oblivious (process c t pf)) ->
  oblivious (provider_section fmt process df).
Proof.
  intros Hp. unfold provider_section. apply oblivious_for_each. intros [] d.
  unfold date_section. apply oblivious_bind; [apply oblivious_do | intros _].
  destruct (get_stats (amounts_on df d)) as [c t].
  apply oblivious_bind; [apply Hp | intros _; apply oblivious_ret].
Qed.

Lemma oblivious_total_val process (df : list (Row N)) :
  (forall c t pf, oblivious (process c t pf)) ->
  oblivious (total_val process df).
Proof.
  intros Hp. unfold total_val. destruct (empty df); [apply oblivious_ret |].
  destruct (get_stats (map amount df)) as [c t]. apply Hp.
Qed.

Lemma oblivious_audit_report rate account start_date end_date t1 t2 :
  oblivious (audit_report fmt rate account start_date end_date t1 t2).
Proof.
  unfold audit_report.
  repeat (first [ apply oblivious_smart_f | apply oblivious_bind; [| intros ?] ]);
    first [ apply oblivious_provider_section; intros;
            first [apply oblivious_process_type_1 | apply oblivious_process_type_2]
          | apply oblivious_total_val; intros;
            first [apply oblivious_process_type_1 | apply oblivious_process_type_2]
          | apply oblivious_do | apply oblivious_lift | apply oblivious_ret ].
Qed.

Lemma oblivious_input_date (text answer : string) :
  oblivious (input_date to_datetime_text text answer).
Proof.
  unfold input_date. apply oblivious_bind; [apply oblivious_do | intros _].
  destruct (to_datetime_text answer); [apply oblivious_lift | apply oblivious_ret].
Qed.

Lemma oblivious_settle_account (r : Run N) rate file df :
  oblivious (settle_account fmt to_datetime_text r rate file df).
Proof.
  unfold settle_account. cbv zeta.
  apply oblivious_bind; [apply oblivious_input_date | intros start_date].
  apply oblivious_bind; [apply oblivious_input_date | intros end_date].
  apply oblivious_bind; [apply oblivious_do | intros _].
  apply oblivious_bind; [apply oblivious_audit_report | intros s].
  apply oblivious_bind; [apply oblivious_do | intros _]. apply oblivious_ret.
Qed.

Lemma oblivious_exit {A} (text : string) :
  oblivious (io_bind (say text) (fun _ => sys_exit (A := A))).
Proof.
  apply oblivious_bind; [apply oblivious_do | intros _; apply oblivious_lift].
Qed.

Lemma oblivious_load (r : Run N) (file : string) :
  oblivious (load to_datetime_text r file).
Proof.
  unfold load. destruct (read_excel r file) as [e | raw]; [apply oblivious_exit |].
  destruct (to_datetime to_datetime_text raw); [apply oblivious_exit |].
  apply oblivious_ret.
Qed.

Lemma oblivious_list_accounts (files : list string) :
  forall i, oblivious (list_accounts i files).
Proof.
  induction files as [| f rest IH]; intros i; cbn [list_accounts].
  - apply oblivious_ret.
  - apply oblivious_bind; [apply oblivious_do | intros _; apply IH].
Qed.

Lemma oblivious_data_selection (r : Run N) : oblivious (data_selection r).
Proof.
  unfold data_selection.
  apply oblivious_bind; [| intros _].
  { destruct (data_dir_exists r); [apply oblivious_ret | apply oblivious_exit]. }
  apply oblivious_bind; [| intros _].
  { destruct (files r); [apply oblivious_exit | apply oblivious_ret]. }
  apply oblivious_bind; [apply oblivious_do | intros _].
  apply oblivious_bind; [apply oblivious_list_accounts | intros _].
  apply oblivious_bind; [apply oblivious_do | intros _].
  destruct (selected_file (files r) (choice_input r));
    [apply oblivious_ret | apply oblivious_exit].
Qed.

(** What the script does once it has the rate. *)
Lemma oblivious_after_rate (r : Run N) (rate : N) :
  oblivious (io_bind (data_selection r) (fun file =>
             io_bind (load to_datetime_text r file) (fun df =>
             settle_account fmt to_datetime_text r rate file df))).
Proof.
  apply oblivious_bind; [apply oblivious_data_selection | intros file].
  apply oblivious_bind; [apply oblivious_load | intros df].
  apply oblivious_settle_account.
Qed.

Lemma bcv_rate_result (r : Run N) (w : World) :
  fst (bcv_rate fmt r w) =
  match get_rate r with
  | inr rate => Ok rate
  | inl _ => manual_rate r
  end.
Proof.
  unfold bcv_rate. destruct (get_rate r) as [e | rate]; reflexivity.
Qed.

End ObliviousScript.

(** X17. When the automatic fetch fails, a rate the operator enters is
    used exactly as a fetched one: the run gives the settlement, or ends in
    the exception, that it gives when the fetch returns that rate. When the
    entry is refused too, its exception ends the run and nothing catches it,
    before any report is opened. *)
Theorem manual_rate_is_used_as_fetched :
  forall (N : Type) (num : PyNum N) (fmt : Format N)
         (to_datetime_text : string -> string + timestamp)
         (r : Run N) (w : World) (e : string),
    get_rate r = inl e ->
    (forall rate, manual_rate r = Ok rate ->
       fst (main fmt to_datetime_text r w) =
       fst (main fmt to_datetime_text (with_fetched_rate r rate) w)) /\
    (forall x, manual_rate r = Raise x ->
       fst (main fmt to_datetime_text r w) = Raise x /\
       report_file (snd (main fmt to_datetime_text r w)) = report_file w).
Proof.
  intros N num fmt to_datetime_text r w e Hfetch. split.
  - intros rate Hmanual.
    pose proof (bcv_rate_result fmt r w) as H1.
    pose proof (bcv_rate_result fmt (with_fetched_rate r rate) w) as H2.
    rewrite Hfetch, Hmanual in H1. cbn [get_rate with_fetched_rate] in H2.
    unfold main.
    change (fst (io_bind (bcv_rate fmt r) (fun rate0 =>
                 io_bind (data_selection r) (fun file =>
                 io_bind (load to_datetime_text r file) (fun df =>
                 settle_account fmt to_datetime_text r rate0 file df))) w) =
            fst (io_bind (bcv_rate fmt (with_fetched_rate r rate)) (fun rate0 =>
                 io_bind (data_selection r) (fun file =>
                 io_bind (load to_datetime_text r file) (fun df =>
                 settle_account fmt to_datetime_text r rate0 file df))) w)).
    unfold io_bind at 1 5.
    destruct (bcv_rate fmt r w) as [[a | x] w1]; cbn [fst] in H1;
      [| discriminate H1].
    destruct (bcv_rate fmt (with_fetched_rate r rate) w) as [[a' | x] w1'];
      cbn [fst] in H2; [| discriminate H2].
    inversion H1. inversion H2. subst a a'.
    apply (oblivious_after_rate fmt to_datetime_text r rate).
  - intros x Hmanual.
    unfold main, io_bind at 1. unfold bcv_rate. rewrite Hfetch, Hmanual.
    split; reflexivity.
Qed.

Lemma manual_rate_is_used_as_fetched_witness :
  let fmt := Sample.plain_format pynum in
  let r : Run pynum :=
    {| get_rate := inl "timeout"%string; manual_rate := Ok (PyFloat (Float64.of_Z 36));
       data_dir := "data"%string; data_dir_exists := true;
       files := ["acct_a.xlsx"%string]; choice_input := Ok 1;
       read_excel := fun _ => inr Sample.ledger;
       start_input := "1"%string; end_input := "2"%string |} in
  fst (main fmt Sample.parse_day r initial_world) =
  fst (main fmt Sample.parse_day
         (with_fetched_rate r (PyFloat (Float64.of_Z 36))) initial_world).
Proof.
  intros fmt r.
  exact (proj1 (@manual_rate_is_used_as_fetched pynum _ fmt Sample.parse_day r
                  initial_world "timeout"%string eq_refl)
           (PyFloat (Float64.of_Z 36)) eq_refl).
Defined.

(** ** The account of a file *)

Lemma remove_xlsx_suffix (stem : string) :
  dotless stem -> Str.remove ".xlsx" (stem ++ ".xlsx") = stem.
Proof.
  unfold dotless, Str.remove.
  induction stem as [| c rest IH]; intros Hdot.
  - reflexivity.
  - cbn [list_ascii_of_string] in Hdot. inversion Hdot as [| c' l Hc Hrest]; subst.
    change ((String c rest ++ ".xlsx")%string)
      with (String c (rest ++ ".xlsx")%string).
    cbn [Str.remove_from String.prefix].
    destruct (Ascii.ascii_dec _ c) as [Heq | _];
      [destruct Hc; symmetry; exact Heq |].
    rewrite (IH Hrest). reflexivity.
Qed.

Lemma upper_ascii_idempotent (c : Ascii.ascii) :
  Str.upper_ascii (Str.upper_ascii c) = Str.upper_ascii c.
Proof.
  destruct c as [[] [] [] [] [] [] [] []]; vm_compute; reflexivity.
Qed.

Lemma upper_idempotent (s : string) : Str.upper (Str.upper s) = Str.upper s.
Proof.
  induction s as [| c rest IH]; cbn [Str.upper]; [reflexivity |].
  rewrite upper_ascii_idempotent, IH. reflexivity.
Qed.

(** X18. For a file called [stem.xlsx] whose stem is ASCII text without a
    dot, the account is [stem] with its letters in upper case, so two such
    files whose names differ only in the case of their letters have the same
    account, and with the same start date the same report file. *)
Theorem account_of_plain_file :
  forall stem : string,
    ascii_text stem ->
    dotless stem ->
    account_id (stem ++ ".xlsx") = Str.upper stem /\
    account_id (Str.upper stem ++ ".xlsx") = account_id (stem ++ ".xlsx").
Proof.
  intros stem _ Hdot. unfold account_id.
  rewrite (remove_xlsx_suffix Hdot). split; [reflexivity |].
  rewrite remove_xlsx_suffix; [apply upper_idempotent |].
  unfold dotless in *. clear - Hdot.
  induction stem as [| c rest IH]; cbn [Str.upper list_ascii_of_string] in *;
    [constructor |].
  inversion Hdot as [| c' l Hc Hrest]; subst. constructor; [| exact (IH Hrest)].
  revert Hc. destruct c as [[] [] [] [] [] [] [] []]; vm_compute; congruence.
Qed.

Lemma account_of_plain_file_witness :
  ascii_text "acct_a" /\ account_id "acct_a.xlsx" = "ACCT_A"%string.
Proof.
  assert (Hascii : ascii_text "acct_a")
    by (repeat constructor; vm_compute; reflexivity).
  split; [exact Hascii |].
  refine (proj1 (@account_of_plain_file "acct_a"%string Hascii _)).
  repeat constructor; discriminate.
Defined.

(** ** The exceptions that can end a run *)

Section RaisesOnly.
Context {W : Type}.
Variable P : exn -> Prop.

Lemma raises_only_ret {A} (a : A) : raises_only P (io_ret (W := W) a).
Proof. intros w e. discriminate. Qed.

Lemma raises_only_do (f : W -> W) : raises_only P (io_do f).
Proof. intros w e. discriminate. Qed.

Lemma raises_only_lift {A} (r : result A) :
  (forall e, r = Raise e -> P e) -> raises_only P (io_lift (W := W) r).
Proof. intros Hr w e. exact (Hr e). Qed.

Lemma raises_only_bind {A B} (c : io W A) (k : A -> io W B) :
  raises_only P c -> (forall a, raises_only P (k a)) ->
  raises_only P (io_bind c k).
Proof.
  intros Hc Hk w e. unfold io_bind. specialize (Hc w).
  destruct (c w) as [[a | e0] w1]; cbn [fst] in *.
  - apply Hk.
  - intros Heq. apply Hc. inversion Heq. reflexivity.
Qed.

Lemma raises_only_for_each {A S} (body : S -> A -> io W S) (l : list A) :
  (forall s a, raises_only P (body s a)) ->
  forall s, raises_only P (for_each body l s).
Proof.
  intros Hbody. induction l as [| a l IH]; intros s; cbn [for_each].
  - apply raises_only_ret.
  - apply raises_only_bind; [apply Hbody | exact IH].
Qed.

Lemma raises_only_emit (pf : printer W) (text : result string) :
  (forall e, text = Raise e -> P e) -> raises_only P (emit pf text).
Proof.
  intros Ht. destruct pf as [f |]; intros w0 e; [| discriminate].
  rewrite emit_Some. destruct text as [s | e0]; cbn [fst]; [discriminate |].
  intros Heq. inversion Heq. subst e0. apply Ht. reflexivity.
Qed.

End RaisesOnly.

Section RaisesOnlyScript.
Context {N : Type} {num : PyNum N}.
Variable P : exn -> Prop.
Hypothesis add_raises : forall (x y : N) e, add x y = Raise e -> P e.
Hypothesis sub_raises : forall (x y : N) e, sub x y = Raise e -> P e.
Hypothesis mul_raises : forall (x y : N) e, mul x y = Raise e -> P e.
Hypothesis div_raises : forall (x y : N) e, div x y = Raise e -> P e.
Hypothesis overflow_raises : P OverflowError.
Variable fmt : Format N.
Variable to_datetime_text : string -> string + timestamp.

Lemma settle_raises (raw rate : N) e : settle raw rate = Raise e -> P e.
Proof.
  unfold settle.
  repeat match goal with
         | |- rbind ?r _ = _ -> _ =>
             let H := fresh in
             destruct r eqn:H; cbn [rbind];
             [| intros Heq; inversion Heq; subst; eauto ]
         end.
  discriminate.
Qed.

Lemma raises_only_formatted (W : Type) (pf : printer W) (text : result string) :
  formatted N text -> raises_only P (emit pf text).
Proof.
  intros Ht. apply raises_only_emit. intros e He.
  rewrite (formatted_raises Ht He). exact overflow_raises.
Qed.

Lemma raises_only_smart_f (text : result string) :
  formatted N text -> raises_only P (smart_f text).
Proof. apply raises_only_formatted. Qed.

Ltac raise_steps :=
  repeat (apply raises_only_bind; [| intros ?]);
  first [ apply raises_only_ret | apply raises_only_do
        | apply raises_only_formatted; formatted
        | apply raises_only_lift; intros ?;
          first [apply add_raises | apply sub_raises | apply mul_raises
                | apply div_raises | apply settle_raises] ].

Lemma raises_only_process_type_1 (W : Type) (counts types : list N)
    (pf : printer W) :
  raises_only P (process_type_1 fmt counts types pf).
Proof.
  unfold process_type_1. apply raises_only_bind.
  - apply raises_only_for_each. intros [t_points t_tasks] [c t].
    unfold type_1_step. raise_steps.
  - intros [t_points t_tasks]. raise_steps.
Qed.

Lemma raises_only_process_type_2 (W : Type) (counts types : list N)
    (pf : printer W) :
  raises_only P (process_type_2 fmt counts types pf).
Proof.
  unfold process_type_2. apply raises_only_bind.
  - apply raises_only_for_each. intros [total_usd t_tasks] [c t].
    unfold type_2_step. raise_steps.
  - intros [total_usd t_tasks]. raise_steps.
Qed.

Lemma raises_only_provider_section
    (process : list N -> list N -> printer World -> io World N)
    (df : list (Row N)) :
  (forall c t pf, raises_only P (process c t pf)) ->
  raises_only P (provider_section fmt process df).
Proof.
  intros Hp. unfold provider_section. apply raises_only_for_each.
  intros [] d. unfold date_section, smart.
  apply raises_only_bind; [apply raises_only_do | intros _].
  destruct (get_stats (amounts_on df d)) as [c t].
  apply raises_only_bind; [apply Hp | intros _; apply raises_only_ret].
Qed.

Lemma raises_only_total_val
    (process : list N -> list N -> printer World -> io World N)
    (df : list (Row N)) :
  (forall c t pf, raises_only P (process c t pf)) ->
  raises_only P (total_val process df).
Proof.
  intros Hp. unfold total_val. destruct (empty df); [apply raises_only_ret |].
  destruct (get_stats (map amount df)) as [c t]. apply Hp.
Qed.

Lemma raises_only_audit_report rate account start_date end_date t1 t2 :
  raises_only P (audit_report fmt rate account start_date end_date t1 t2).
Proof.
  unfold audit_report, smart.
  repeat (first [ apply raises_only_smart_f; formatted
                | apply raises_only_bind; [| intros ?] ]);
    first [ apply raises_only_provider_section; intros;
            first [apply raises_only_process_type_1
                  | apply raises_only_process_type_2]
          | apply raises_only_total_val; intros;
            first [apply raises_only_process_type_1
                  | apply raises_only_process_type_2]
          | raise_steps ].
Qed.

End RaisesOnlyScript.

Lemma pynum_raises_arithmetic (x y : pynum) (e : exn) :
  add x y = Raise e \/ sub x y = Raise e \/ mul x y = Raise e \/
  div x y = Raise e ->
  arithmetic_error e.
Proof.
  intros [H | [H | [H | H]]].
  - left. exact (pynum_arith_raises _ _ _ _ H).
  - left. exact (pynum_arith_raises _ _ _ _ H).
  - left. exact (pynum_arith_raises _ _ _ _ H).
  - exact (pynum_div_raises _ _ H).
Qed.

(** X19. On Python's numbers, a run that stops once the report file is
    open stops with [OverflowError] or [ZeroDivisionError]: from the first
    line of the report on, nothing else is raised, and the file keeps the
    lines written until then. *)
Theorem report_stops_on_arithmetic_only :
  forall (fmt : Format pynum) (rate : pynum) (account : string)
         (start_date end_date : timestamp) (t1 t2 : list (Row pynum))
         (w w' : World) (e : exn),
    audit_report fmt rate account start_date end_date t1 t2 w = (Raise e, w') ->
    arithmetic_error e /\ appended w w'.
Proof.
  intros fmt rate account start_date end_date t1 t2 w w' e Hrun. split.
  - apply (@raises_only_audit_report pynum _ arithmetic_error) with
      (fmt := fmt) (rate := rate) (account := account)
      (start_date := start_date) (end_date := end_date) (t1 := t1) (t2 := t2)
      (w := w).
    + intros x y e0 H. apply (@pynum_raises_arithmetic x y). auto.
    + intros x y e0 H. apply (@pynum_raises_arithmetic x y). auto.
    + intros x y e0 H. apply (@pynum_raises_arithmetic x y). auto.
    + intros x y e0 H. apply (@pynum_raises_arithmetic x y). auto.
    + left. reflexivity.
    + rewrite Hrun. reflexivity.
  - pose proof (mirrors_audit_report fmt rate account start_date end_date
                  t1 t2 w) as Happ.
    rewrite Hrun in Happ. exact Happ.
Qed.

Lemma report_stops_on_arithmetic_only_witness :
  let fmt := Sample.plain_format pynum in
  let zero := PyFloat (S754_zero false) in
  let w := open_report "r.txt" initial_world in
  arithmetic_error
    (match fst (audit_report fmt zero "A" (Some 1) (Some 2) [] [] w) with
     | Raise e => e
     | Ok _ => SystemExit
     end).
Proof.
  intros fmt zero w.
  destruct (audit_report fmt zero "A" (Some 1) (Some 2) [] [] w)
    as [[s | e] w'] eqn:Hrun.
  - exfalso. apply audit_report_needs_division in Hrun.
    destruct Hrun as (x & y & Hdiv).
    exact (@float_zero_undividable false x y Hdiv).
  - exact (proj1 (@report_stops_on_arithmetic_only fmt zero "A"%string
                    (Some 1) (Some 2) [] [] w w' e Hrun)).
Defined.

(** ** Whole amounts are added without rounding *)

Module IntTotals.







Lemma sum_counts_python (series : list pynum) :
  sum_counts (combine (fst (get_stats series)) (snd (get_stats series))) =
  Ok (PyInt (Z.of_nat (List.length (present isna series)))).
Proof.
  rewrite get_stats_pairs. unfold sum_counts.
  change (@of_int pynum _ 0) with (PyInt 0).
  rewrite count_from_ints, value_counts_total. reflexivity.
Qed.

End IntTotals.


(** ** The task total that the valuations print *)

Section TaskTotal.
Variable fmt : Format pynum.

Lemma tasks_text (t_tasks : pynum) (s : string) :
  fstring [Ok "TOTAL TASKS: "%string; format_g fmt t_tasks; Ok nl] = Ok s ->
  s = ("TOTAL TASKS: " ++ fmt_g fmt t_tasks ++ nl)%string.
Proof.
  cbn [fstring rbind]. unfold format_g.
  destruct (fits_float t_tasks); cbn [rbind]; intros Heq; inversion Heq.
  reflexivity.
Qed.

Lemma loop_counts (series : list pynum) (total tasks : pynum) :
  tally_loop (combine (fst (get_stats series)) (snd (get_stats series)))
             (of_int 0, of_int 0) = Ok (total, tasks) ->
  tasks = PyInt (Z.of_nat (List.length (present isna series))).
Proof.
  intros Hloop. apply tally_loop_Ok in Hloop. destruct Hloop as [_ Hcount].
  pose proof (IntTotals.sum_counts_python series) as Hsum.
  unfold sum_counts in Hsum. rewrite Hcount in Hsum. inversion Hsum. reflexivity.
Qed.

Lemma mirrors_type_1_loop (pf : printer World) pairs acc :
  report_printer pf -> mirrors (for_each (type_1_step fmt pf) pairs acc).
Proof.
  intros Hpf. apply mirrors_for_each. intros [t_points t_tasks] [c t].
  unfold type_1_step. mirror.
Qed.

Lemma mirrors_type_2_loop (pf : printer World) pairs acc :
  report_printer pf -> mirrors (for_each (type_2_step fmt pf) pairs acc).
Proof.
  intros Hpf. apply mirrors_for_each. intros [total_usd t_tasks] [c t].
  unfold type_2_step. mirror.
Qed.

(** The last line of a valuation that reached its end with [smart_print]. *)
Lemma last_line (w0 w2 w3 w' : World) (text : result string) (t_tasks : pynum) :
  appended w0 w2 ->
  emit (Some smart_print) text w2 = (Ok tt, w3) ->
  emit (Some smart_print)
       (fstring [Ok "TOTAL TASKS: "%string; format_g fmt t_tasks; Ok nl]) w3 =
    (Ok tt, w') ->
  exists lines,
    stdout w' =
    (stdout w0 ++ lines ++
     [(("TOTAL TASKS: " ++ fmt_g fmt t_tasks ++ nl) ++ nl)%string])%list.
Proof.
  intros H02 He1 He2.
  pose proof (@mirrors_emit (Some smart_print) text (or_intror eq_refl) w2) as H23.
  rewrite He1 in H23. cbn [snd] in H23.
  destruct (appended_trans H02 H23) as (lines & Hout & _).
  rewrite emit_Some in He2.
  destruct (fstring _) as [s |] eqn:Htext; inversion He2.
  apply tasks_text in Htext. subst s. exists lines.
  unfold smart_print, write_report, print, write_stdout. cbn [stdout].
  rewrite Hout, <- app_assoc. reflexivity.
Qed.

End TaskTotal.

(** X1. The counts that [get_stats] gives add up to the number of values of
    the series that are not missing, whatever the equality of values; and on
    Python's numbers the task total that each valuation accumulates from
    them is that number: a valuation of the pairs of a series that reaches
    its end with [smart_print] has printed, last, the line of the task total
    with that number. *)
Theorem counts_add_up_to_rows :
  (forall (N : Type) (num : PyNum N) (series : list N),
      exists ns : list Z,
        fst (get_stats series) = map of_int ns /\
        zsum ns = Z.of_nat (List.length (present isna series))) /\
  (forall (fmt : Format pynum) (series : list pynum) (w w' : World) (v : pynum),
      process_type_1 fmt (fst (get_stats series)) (snd (get_stats series))
        (Some smart_print) w = (Ok v, w') ->
      exists lines,
        stdout w' =
        (stdout w ++ lines ++
         [(("TOTAL TASKS: " ++
            fmt_g fmt (PyInt (Z.of_nat (List.length (present isna series)))) ++
            nl) ++ nl)%string])%list) /\
  (forall (fmt : Format pynum) (series : list pynum) (w w' : World) (v : pynum),
      process_type_2 fmt (fst (get_stats series)) (snd (get_stats series))
        (Some smart_print) w = (Ok v, w') ->
      exists lines,
        stdout w' =
        (stdout w ++ lines ++
         [(("TOTAL TASKS: " ++
            fmt_g fmt (PyInt (Z.of_nat (List.length (present isna series)))) ++
            nl) ++ nl)%string])%list).
Proof.
  split; [| split].
  - intros N num series.
    exists (map snd (value_counts isna num_eqb series)). split.
    + unfold get_stats. simpl. rewrite map_map. reflexivity.
    + apply value_counts_total.
  - intros fmt series w w' v H. unfold process_type_1 in H.
    apply io_bind_Ok in H. destruct H as ([t_points t_tasks] & w1 & Hloop & H).
    apply io_bind_Ok in H. destruct H as (total_usd & w2 & Hdiv & H).
    apply io_lift_Ok in Hdiv. destruct Hdiv as [_ Hw]. subst w2.
    apply io_bind_Ok in H. destruct H as ([] & w3 & He1 & H).
    apply io_bind_Ok in H. destruct H as ([] & w4 & He2 & H).
    unfold io_ret in H. inversion H. subst w4 total_usd.
    assert (Htasks : t_tasks =
                     PyInt (Z.of_nat (List.length (present isna series)))).
    { apply (@loop_counts series t_points).
      destruct (type_1_loop_fst fmt (Some smart_print)
                  (combine (fst (get_stats series)) (snd (get_stats series)))
                  (of_int 0, of_int 0) w) as [Hl | [Hl _]];
        rewrite Hloop in Hl; cbn [fst] in Hl; [| discriminate Hl].
      symmetry. exact Hl. }
    subst t_tasks.
    assert (H01 : appended w w1).
    { pose proof (@mirrors_type_1_loop fmt (Some smart_print)
                    (combine (fst (get_stats series)) (snd (get_stats series)))
                    (of_int 0, of_int 0) (or_intror eq_refl) w) as Hm.
      rewrite Hloop in Hm. exact Hm. }
    eapply (@last_line fmt); [exact H01 | exact He1 | exact He2].
  - intros fmt series w w' v H. unfold process_type_2 in H.
    apply io_bind_Ok in H. destruct H as ([total_usd t_tasks] & w1 & Hloop & H).
    apply io_bind_Ok in H. destruct H as ([] & w3 & He1 & H).
    apply io_bind_Ok in H. destruct H as ([] & w4 & He2 & H).
    unfold io_ret in H. inversion H. subst w4 total_usd.
    assert (Htasks : t_tasks =
                     PyInt (Z.of_nat (List.length (present isna series)))).
    { apply (@loop_counts series v).
      destruct (type_2_loop_fst fmt (Some smart_print)
                  (combine (fst (get_stats series)) (snd (get_stats series)))
                  (of_int 0, of_int 0) w) as [Hl | [Hl _]];
        rewrite Hloop in Hl; cbn [fst] in Hl; [| discriminate Hl].
      symmetry. exact Hl. }
    subst t_tasks.
    assert (H01 : appended w w1).
    { pose proof (@mirrors_type_2_loop fmt (Some smart_print)
                    (combine (fst (get_stats series)) (snd (get_stats series)))
                    (of_int 0, of_int 0) (or_intror eq_refl) w) as Hm.
      rewrite Hloop in Hm. exact Hm. }
    eapply (@last_line fmt); [exact H01 | exact He1 | exact He2].
Qed.

Lemma counts_add_up_to_rows_witness :
  let fmt := Sample.plain_format pynum in
  let series := [PyInt 50; PyInt 20; PyInt 50] in
  exists (v : pynum) (w' : World) (lines : list string),
    process_type_2 fmt (fst (get_stats series)) (snd (get_stats series))
      (Some smart_print) initial_world = (Ok v, w') /\
    stdout w' =
      (lines ++ [(("TOTAL TASKS: " ++ fmt_g fmt (PyInt 3) ++ nl) ++ nl)%string])%list.
Proof.
  intros fmt series.
  assert (Hrun : exists v w',
             process_type_2 fmt (fst (get_stats series)) (snd (get_stats series))
               (Some smart_print) initial_world = (Ok v, w')).
  { eexists. eexists. vm_compute. reflexivity. }
  destruct Hrun as (v & w' & Hrun).
  destruct (proj2 (proj2 counts_add_up_to_rows) fmt series initial_world w' v Hrun)
    as [lines Hlines].
  exists v, w', lines. split; [exact Hrun | exact Hlines].
Defined.
